(** * Pulse: the heuristic signal extractors and the agentic orchestrator

    A shallow embedding of the keyword classifiers of [agent_main.py] and
    [main.py] (sentiment, blockers, team health, project updates, project
    health, participation quality, cause inference), of the tool-use loop
    of [run_agentic_analysis] and of the markup substitution done before a
    report is sent, followed by the properties established about them.

    Also embedded: [classify_urgency] and [extract_key_decisions] of
    [agent_main.py]; of [main.py], [calculate_business_days],
    [get_user_name] with its cache and [enrich_messages_with_names],
    [calculate_metrics], [compare_to_baseline], [classify_project_status],
    [extract_project_progress], [analyze_capacity_per_person],
    [extract_required_decisions], [extract_critical_risks],
    [detect_meeting_attendance], [get_slack_thread_links], and from
    [analyze_with_claude] the list of users with their baseline, the
    inactive members and the meeting block of the prompt.

    Conventions.
    - A Python [str] is the list of its code points ([pystr]); literals are
      written as UTF-8 strings and decoded by [py].
    - A Python [int] is a [Z]; a Python [float] is a primitive binary64
      [float], so [/], [*], [+] and the comparisons round as CPython does.
    - An exception is [None]; a [try/except] is a [match] on the option.
    - Builtins whose definition is not part of the repository
      ([str.lower], [str.isdigit], [float(str)], [repr(float)],
      [statistics.mean], [statistics.stdev]) are fields of the class
      [PyBuiltins]; the general statements hold for every instance.
    - A dict keyed by user is a [gmap]: the order in which Python
      iterates over it is not modelled.
    - The free-text [summary] fields of the results are presentation only
      and are left out.
    - A call that leaves the program (the Slack client, the stored
      baselines, the character classes of [re]) is a [Variable] of the
      section that models its caller: the statements hold whatever it
      answers. *)

From Stdlib Require Import ZArith NArith List String Ascii Floats Lia Bool.
From Stdlib Require Import Permutation Sorted.
From stdpp Require Import gmap list.
Import ListNotations.

#[local] Set Warnings "-register-all,-inexact-float".

Local Open Scope Z_scope.

(** ** Python strings as code points *)

Module PyStr.

Definition pystr := list N.

(** UTF-8 decoding of a byte sequence; [need] continuation bytes are
    still expected for the code point accumulated in [acc]. *)
Fixpoint utf8_go (bs : list N) (need : nat) (acc : N) : pystr :=
  match bs with
  | [] => []
  | b :: r =>
    match need with
    | O =>
      if (b <? 128)%N then b :: utf8_go r 0 0%N
      else if (b <? 224)%N then utf8_go r 1 (b - 192)%N
      else if (b <? 240)%N then utf8_go r 2 (b - 224)%N
      else utf8_go r 3 (b - 240)%N
    | S k =>
      let acc' := (acc * 64 + (b - 128))%N in
      match k with
      | O => acc' :: utf8_go r 0 0%N
      | S _ => utf8_go r k acc'
      end
    end
  end.

(** The code points of a literal. *)
Definition py (s : string) : pystr :=
  utf8_go (List.map N_of_ascii (list_ascii_of_string s)) 0 0%N.
#[global] Arguments py s%_string.

(** [s.startswith(p)]. *)
Fixpoint starts_with (p s : pystr) : bool :=
  match p, s with
  | [], _ => true
  | _ :: _, [] => false
  | a :: p', b :: s' => (a =? b)%N && starts_with p' s'
  end.

(** [needle in hay]. *)
Fixpoint contains (needle hay : pystr) : bool :=
  starts_with needle hay ||
  match hay with
  | [] => false
  | _ :: t => contains needle t
  end.

(** [any(kw in text for kw in kws)]. *)
Definition any_in (kws : list pystr) (text : pystr) : bool :=
  existsb (fun kw => contains kw text) kws.

(** The keyword at which [for kw in kws: if kw in text: ...; break]
    stops, if any. *)
Definition first_in (kws : list pystr) (text : pystr) : option pystr :=
  List.find (fun kw => contains kw text) kws.

(** [s[:n]]. *)
Definition str_prefix (n : nat) (s : pystr) : pystr := firstn n s.

(** [s.replace(old, new)] for a non-empty [old]: occurrences are found
    from the left and do not overlap. [skip] characters of the
    occurrence just replaced remain to be dropped. *)
Fixpoint replace_from (old new : pystr) (skip : nat) (s : pystr) : pystr :=
  match s with
  | [] => []
  | c :: r =>
    match skip with
    | S k => replace_from old new k r
    | O =>
      if starts_with old s
      then new ++ replace_from old new (length old - 1) r
      else c :: replace_from old new 0 r
    end
  end.

Definition replace (old new s : pystr) : pystr := replace_from old new 0 s.

Definition eqb (a b : pystr) : bool := bool_decide (a = b).

(** [str(n)] for an [int]. *)
Definition digit_char (d : N) : N := (48 + d)%N.

Fixpoint digits_of (fuel : nat) (n : N) (acc : pystr) : pystr :=
  match fuel with
  | O => acc
  | S fuel' =>
    let acc' := digit_char (n mod 10)%N :: acc in
    if (n <? 10)%N then acc' else digits_of fuel' (n / 10)%N acc'
  end.

Definition str_of_N (n : N) : pystr := digits_of (S (N.to_nat (N.log2 n))) n [].

Definition str_of_Z (z : Z) : pystr :=
  match z with
  | Z0 => str_of_N 0
  | Zpos p => str_of_N (Npos p)
  | Zneg p => 45%N :: str_of_N (Npos p)
  end.

End PyStr.
Export PyStr.

(** ** Python numbers *)

Module PyNum.

Inductive pynum := PInt (z : Z) | PFloat (f : float).

(** [float(z)]: the nearest binary64, [OverflowError] beyond its range. *)
Definition SF_of_Z (z : Z) : spec_float := binary_normalize prec emax z 0 false.

Definition float_of_int (z : Z) : option float :=
  match SF_of_Z z with
  | S754_infinity _ => None
  | sf => Some (SF2Prim sf)
  end.

(** The binary64 nearest to [a / b], signed by [s], for [0 <= a] and
    [0 < b]: the division of the mantissas [a] and [b] at exponent 0,
    then one rounding to nearest even. *)
Definition SF_quotient (s : bool) (a b : Z) : spec_float :=
  match a with
  | Zpos _ =>
    let '(mz, ez, lz) := SFdiv_core_binary prec emax a 0 b 0 in
    binary_round_aux prec emax s mz ez lz
  | _ => S754_zero s
  end.

(** [a / b] on two [int]s ([long_true_divide]): correctly rounded.
    Total: it is used where the source guards [b] against 0 and the
    quotient is bounded, so that CPython raises neither
    [ZeroDivisionError] nor [OverflowError]. *)
Definition int_truediv (a b : Z) : float :=
  SF2Prim (SF_quotient (xorb (a <? 0) (b <? 0)) (Z.abs a) (Z.abs b)).

(** The same with its two exceptions. *)
Definition py_int_truediv (a b : Z) : option float :=
  if b =? 0 then None
  else match SF_quotient (xorb (a <? 0) (b <? 0)) (Z.abs a) (Z.abs b) with
       | S754_infinity _ => None
       | sf => Some (SF2Prim sf)
       end.

(** Exact comparison of a float with an [int], as [float_richcompare]
    does; [None] for a NaN. *)
Definition SF_compare_Z (x : spec_float) (z : Z) : option comparison :=
  match x with
  | S754_nan => None
  | S754_infinity s => Some (if s then Lt else Gt)
  | S754_zero _ => Some (0 ?= z)
  | S754_finite s m e =>
    let v := if s then Zneg m else Zpos m in
    Some match e with
         | Zneg k => v ?= z * 2 ^ Zpos k
         | _ => v * 2 ^ e ?= z
         end
  end.

Definition float_compare_int (f : float) (z : Z) : option comparison :=
  SF_compare_Z (Prim2SF f) z.

Definition py_lt (a b : pynum) : bool :=
  match a, b with
  | PInt x, PInt y => x <? y
  | PFloat f, PFloat g => PrimFloat.ltb f g
  | PFloat f, PInt z =>
    match float_compare_int f z with Some Lt => true | _ => false end
  | PInt z, PFloat f =>
    match float_compare_int f z with Some Gt => true | _ => false end
  end.

Definition py_le (a b : pynum) : bool :=
  match a, b with
  | PInt x, PInt y => x <=? y
  | PFloat f, PFloat g => PrimFloat.leb f g
  | PFloat f, PInt z =>
    match float_compare_int f z with Some (Lt | Eq) => true | _ => false end
  | PInt z, PFloat f =>
    match float_compare_int f z with Some (Gt | Eq) => true | _ => false end
  end.

Definition py_gt (a b : pynum) : bool := py_lt b a.
Definition py_ge (a b : pynum) : bool := py_le b a.

(** The builtins [max(a, b)] and [min(a, b)]: the first argument is
    kept unless the second is strictly greater (smaller). *)
Definition py_max2 (a b : pynum) : pynum := if py_gt b a then b else a.
Definition py_min2 (a b : pynum) : pynum := if py_lt b a then b else a.

(** Arithmetic on mixed operands: an [int] meeting a [float] is
    converted first. *)
Definition to_float (a : pynum) : option float :=
  match a with
  | PInt z => float_of_int z
  | PFloat f => Some f
  end.

Definition float_binop (op : float -> float -> float) (a b : pynum) : option pynum :=
  match to_float a, to_float b with
  | Some x, Some y => Some (PFloat (op x y))
  | _, _ => None
  end.

Definition py_sub (a b : pynum) : option pynum :=
  match a, b with
  | PInt x, PInt y => Some (PInt (x - y))
  | _, _ => float_binop PrimFloat.sub a b
  end.

Definition py_mul (a b : pynum) : option pynum :=
  match a, b with
  | PInt x, PInt y => Some (PInt (x * y))
  | _, _ => float_binop PrimFloat.mul a b
  end.

Definition py_truediv (a b : pynum) : option pynum :=
  match a, b with
  | PInt x, PInt y => option_map PFloat (py_int_truediv x y)
  | _, _ =>
    match to_float a, to_float b with
    | Some x, Some y =>
      if PrimFloat.eqb y 0%float then None else Some (PFloat (x / y)%float)
    | _, _ => None
    end
  end.

(** [round(x, nd)] for [0 <= nd]: the decimal with [nd] digits nearest
    to the exact value of [x] (ties to the even digit), then the
    binary64 nearest to that decimal. *)
Definition round_half_even (n d : Z) : Z :=
  let q := n / d in
  match 2 * (n mod d) ?= d with
  | Lt => q
  | Gt => q + 1
  | Eq => if Z.even q then q else q + 1
  end.

Definition float_round (x : float) (nd : nat) : float :=
  if (323 <? nd)%nat then x
  else
    match Prim2SF x with
    | S754_finite s m (Zneg k) =>
      let scale := 10 ^ Z.of_nat nd in
      SF2Prim (SF_quotient s (round_half_even (Zpos m * scale) (2 ^ Zpos k)) scale)
    | _ => x
    end.

Definition py_round (v : pynum) (nd : nat) : pynum :=
  match v with
  | PInt z => PInt z
  | PFloat f => PFloat (float_round f nd)
  end.

(** [int(x)]: truncation toward zero. CPython raises on a NaN or an
    infinity; the callers below only pass finite products. *)
Definition float_trunc (x : float) : Z :=
  match Prim2SF x with
  | S754_finite s m e =>
    let v := match e with
             | Zneg k => Zpos m / 2 ^ Zpos k
             | _ => Zpos m * 2 ^ e
             end in
    if s then - v else v
  | _ => 0
  end.

End PyNum.
Export PyNum.


(** ** Values, messages and the builtins taken from the runtime *)

(** A JSON-like Python value, as a tool receives it. [VDict] stands for
    a dict, whose content none of the functions below looks at. *)
Inductive pyval :=
| VNone
| VBool (b : bool)
| VNum (n : pynum)
| VStr (s : pystr)
| VList (l : list pyval)
| VDict.

(** An element of a tool's [messages] array: a plain text, a dict (only
    the keys [text], [user_name] and [ts] are ever read; [None] is an
    absent key), or anything else. *)
Inductive msg_item :=
| MStr (s : pystr)
| MDict (m_text m_user_name m_ts : option pyval)
| MOther.

(** A message after [enrich_messages_with_names]. *)
Record enriched := {
  user_id : pystr;
  user_name : pystr;
  text : pystr;
  ts : pystr
}.

(** Builtins and library functions the code calls and the repository
    does not define. [None] is a raised exception. *)
Class PyBuiltins := {
  lower : pystr -> pystr;
  isdigit : pystr -> bool;
  float_repr : float -> pystr;
  float_of_str : pystr -> option float;
  float_sum : list float -> float;
  stats_mean : list pynum -> option pynum;
  stats_stdev : list pynum -> option pynum
}.

(** A number where Python wants one: a [bool] is an [int]; anything else
    raises [TypeError] in arithmetic and ordering. *)
Definition as_num (v : pyval) : option pynum :=
  match v with
  | VBool b => Some (PInt (if b then 1 else 0))
  | VNum n => Some n
  | _ => None
  end.

(** [d.get(key, default)]. *)
Definition get_default (v : option pyval) (d : pyval) : pyval :=
  match v with
  | Some x => x
  | None => d
  end.

(** ** agent_main.py: analyze_sentiment *)

Definition frustration_keywords : list pystr :=
  [py "frustrado"; py "molesto"; py "no funciona"; py "otra vez"; py "no puedo";
   py "bloqueado"; py "stuck"; py "no avanza"; py "cansado"; py "harto"].

Definition enthusiasm_keywords : list pystr :=
  [py "genial"; py "excelente"; py "perfecto"; py "listo"; py "completado";
   py "funciona"; py "logré"; py "conseguí"; py "awesome"; py "great"; py "🎉"; py "✅"].

Definition concern_keywords : list pystr :=
  [py "preocupa"; py "problema"; py "riesgo"; py "urgente"; py "crítico";
   py "atrasado"; py "retraso"; py "concerned"; py "worried"; py "issue"].

Record sentiment_scores := {
  frustration : Z;
  enthusiasm : Z;
  concern : Z;
  neutral : Z
}.

(** The locals the loop updates. *)
Record sentiment_state := {
  st_scores : sentiment_scores;
  st_detected : list (pystr * pystr);
  has_sentiment : bool
}.

Record sentiment_result := {
  overall_score : pynum;
  sentiment_breakdown : option sentiment_scores;
  detected_keywords : list (pystr * pystr)
}.

Definition bump_frustration (s : sentiment_scores) : sentiment_scores :=
  {| frustration := frustration s + 1; enthusiasm := enthusiasm s;
     concern := concern s; neutral := neutral s |}.

Definition bump_enthusiasm (s : sentiment_scores) : sentiment_scores :=
  {| frustration := frustration s; enthusiasm := enthusiasm s + 1;
     concern := concern s; neutral := neutral s |}.

Definition bump_concern (s : sentiment_scores) : sentiment_scores :=
  {| frustration := frustration s; enthusiasm := enthusiasm s;
     concern := concern s + 1; neutral := neutral s |}.

Definition bump_neutral (s : sentiment_scores) : sentiment_scores :=
  {| frustration := frustration s; enthusiasm := enthusiasm s;
     concern := concern s; neutral := neutral s + 1 |}.

(** One of the three inner loops: at the first keyword of the category
    found in the text, count it, record it, raise the flag and [break]. *)
Definition scan_category (kws : list pystr) (label : pystr)
    (bump : sentiment_scores -> sentiment_scores)
    (text : pystr) (st : sentiment_state) : sentiment_state :=
  match first_in kws text with
  | Some kw =>
    {| st_scores := bump (st_scores st);
       st_detected := st_detected st ++ [(label, kw)];
       has_sentiment := true |}
  | None => st
  end.

(** The body of [for msg in messages], once the text is known. *)
Definition sentiment_step (text : pystr) (st : sentiment_state) : sentiment_state :=
  let st0 := {| st_scores := st_scores st; st_detected := st_detected st;
                has_sentiment := false |} in
  let st1 := scan_category frustration_keywords (py "frustración") bump_frustration text st0 in
  let st2 := scan_category enthusiasm_keywords (py "entusiasmo") bump_enthusiasm text st1 in
  let st3 := scan_category concern_keywords (py "preocupación") bump_concern text st2 in
  if has_sentiment st3 then st3
  else {| st_scores := bump_neutral (st_scores st3); st_detected := st_detected st3;
          has_sentiment := false |}.

(** [50 + ((positive - negative) / total_messages * 50)], clamped. *)
Definition sentiment_score (sc : sentiment_scores) (total_messages : Z) : pynum :=
  let positive := enthusiasm sc in
  let negative := frustration sc + concern sc in
  if 0 <? total_messages then
    let score := PFloat (50 + int_truediv (positive - negative) total_messages * 50)%float in
    py_max2 (PInt 0) (py_min2 (PInt 100) score)
  else PInt 50.

Definition no_scores : sentiment_scores :=
  {| frustration := 0; enthusiasm := 0; concern := 0; neutral := 0 |}.

Section AgentTools.
Context `{rt : PyBuiltins}.

(** [msg.get('text', '').lower()] on a dict: [AttributeError] when the
    value is not a [str]. *)
Definition dict_text (t : option pyval) : option pystr :=
  match get_default t (VStr []) with
  | VStr s => Some (lower s)
  | _ => None
  end.

(** [msg.lower() if isinstance(msg, str) else msg.get('text', '').lower()]. *)
Definition sentiment_text (m : msg_item) : option pystr :=
  match m with
  | MStr s => Some (lower s)
  | MDict t _ _ => dict_text t
  | MOther => None
  end.

Fixpoint sentiment_loop (messages : list msg_item) (st : sentiment_state)
    : option sentiment_state :=
  match messages with
  | [] => Some st
  | msg :: rest =>
    match sentiment_text msg with
    | Some text => sentiment_loop rest (sentiment_step text st)
    | None => None
    end
  end.

(** The lowered texts of all the messages, when every one has a text. *)
Fixpoint texts_of (messages : list msg_item) : option (list pystr) :=
  match messages with
  | [] => Some []
  | msg :: rest =>
    text ← sentiment_text msg;
    texts ← texts_of rest;
    Some (text :: texts)
  end.

Definition analyze_sentiment (messages : list msg_item) : sentiment_result :=
  let total_messages := Z.of_nat (length messages) in
  if total_messages =? 0 then
    {| overall_score := PInt 50; sentiment_breakdown := Some no_scores;
       detected_keywords := [] |}
  else
    match sentiment_loop messages
            {| st_scores := no_scores; st_detected := []; has_sentiment := false |} with
    | Some st =>
      {| overall_score := py_round (sentiment_score (st_scores st) total_messages) 1;
         sentiment_breakdown := Some (st_scores st);
         detected_keywords := firstn 10 (st_detected st) |}
    | None =>
      {| overall_score := PInt 50; sentiment_breakdown := None;
         detected_keywords := [] |}
    end.

End AgentTools.

(** *** What the sentiment loop computes, message by message

    The pairs one message adds to [detected_keywords]: for each category
    on its own, the first keyword of the category found in the text. *)
Definition category_hit (kws : list pystr) (label text : pystr) : list (pystr * pystr) :=
  match first_in kws text with
  | Some kw => [(label, kw)]
  | None => []
  end.

Definition message_hits (text : pystr) : list (pystr * pystr) :=
  category_hit frustration_keywords (py "frustración") text ++
  category_hit enthusiasm_keywords (py "entusiasmo") text ++
  category_hit concern_keywords (py "preocupación") text.

(** The number of texts in which some keyword of [kws] occurs. *)
Definition messages_with (kws : list pystr) (texts : list pystr) : Z :=
  Z.of_nat (length (List.filter (any_in kws) texts)).

Definition is_neutral (text : pystr) : bool :=
  negb (any_in frustration_keywords text) &&
  negb (any_in enthusiasm_keywords text) &&
  negb (any_in concern_keywords text).

Definition expected_breakdown (texts : list pystr) : sentiment_scores :=
  {| frustration := messages_with frustration_keywords texts;
     enthusiasm := messages_with enthusiasm_keywords texts;
     concern := messages_with concern_keywords texts;
     neutral := Z.of_nat (length (List.filter is_neutral texts)) |}.

(** Counters added field by field. *)
Definition add_scores (a b : sentiment_scores) : sentiment_scores :=
  {| frustration := frustration a + frustration b;
     enthusiasm := enthusiasm a + enthusiasm b;
     concern := concern a + concern b;
     neutral := neutral a + neutral b |}.

(** [0 <= v <= 100]. *)
Definition in_0_100 (v : pynum) : bool := py_le (PInt 0) v && py_le v (PInt 100).

(** ** agent_main.py: detect_blockers *)

Definition blocker_keywords : list pystr :=
  [py "bloqueado"; py "blocked"; py "stuck"; py "esperando"; py "waiting";
   py "no puedo avanzar"; py "necesito que"; py "dependiendo de"].

Definition unblock_keywords : list pystr :=
  [py "puedo ayudar"; py "lo reviso"; py "me encargo"; py "ya lo hago";
   py "te desbloqueo"; py "listo"; py "resuelto"].

Record blocker := {
  who_is_blocked : pyval;
  reason : pystr;
  blocked_by : pystr;
  timestamp : pyval
}.

Record unblocker := {
  who_helps : pyval;
  context : pystr
}.

Record blockers_result := {
  total_blockers : Z;
  blockers : list blocker;
  unblockers : list unblocker
}.

(** The [if '<@' in text / elif 'esperando' ... / else] chain. *)
Definition infer_blocked_by (text : pystr) : pystr :=
  if contains (py "<@") text then py "Usuario mencionado en el mensaje"
  else if contains (py "esperando") text || contains (py "waiting") text
       then py "Esperando respuesta externa"
       else py "No especificado".

Section DetectBlockers.
Context `{rt : PyBuiltins}.

(** First loop. A [str] element is skipped; on anything that is not a
    dict, [msg.get] raises. *)
Fixpoint blocker_pass (messages : list msg_item) : option (list blocker) :=
  match messages with
  | [] => Some []
  | MStr _ :: rest => blocker_pass rest
  | MOther :: _ => None
  | MDict t u s :: rest =>
    match dict_text t with
    | None => None
    | Some text =>
      match blocker_pass rest with
      | None => None
      | Some found =>
        if any_in blocker_keywords text then
          Some ({| who_is_blocked := get_default u (VStr (py "Unknown"));
                   reason := str_prefix 150 text;
                   blocked_by := infer_blocked_by text;
                   timestamp := get_default s (VStr (py "unknown")) |} :: found)
        else Some found
      end
    end
  end.

(** Second loop, over the same messages. *)
Fixpoint unblocker_pass (messages : list msg_item) : option (list unblocker) :=
  match messages with
  | [] => Some []
  | MStr _ :: rest => unblocker_pass rest
  | MOther :: _ => None
  | MDict t u _ :: rest =>
    match dict_text t with
    | None => None
    | Some text =>
      match unblocker_pass rest with
      | None => None
      | Some found =>
        if any_in unblock_keywords text then
          Some ({| who_helps := get_default u (VStr (py "Unknown"));
                   context := str_prefix 100 text |} :: found)
        else Some found
      end
    end
  end.

Definition detect_blockers (messages : list msg_item) : blockers_result :=
  match blocker_pass messages, unblocker_pass messages with
  | Some bs, Some us =>
    {| total_blockers := Z.of_nat (length bs); blockers := bs; unblockers := us |}
  | _, _ => {| total_blockers := 0; blockers := []; unblockers := [] |}
  end.

End DetectBlockers.

(** ** agent_main.py: calculate_team_health *)

Record team_data := {
  td_total_members : option pyval;
  td_active_members : option pyval;
  td_total_messages : option pyval;
  td_collaborative_messages : option pyval;
  td_messages_per_user : option pyval;
  td_total_blockers : option pyval;
  td_sentiment_score : option pyval
}.

Record health_components := {
  participation : pynum;
  collaboration : pynum;
  workload_distribution : pynum;
  blockers_component : pynum;
  sentiment : pyval
}.

Record health_result := {
  health_score : pynum;
  status : pystr;
  emoji : pystr;
  components : option health_components
}.

(** [x == 0] on a value: never raises. *)
Definition is_zero_value (v : pyval) : bool :=
  match as_num v with
  | Some (PInt z) => z =? 0
  | Some (PFloat f) => PrimFloat.eqb f 0%float
  | None => false
  end.

(** [.replace('.','').replace('-','')]. *)
Definition strip_dot_dash (s : pystr) : pystr :=
  replace (py "-") [] (replace (py ".") [] s).

Section TeamHealth.
Context `{rt : PyBuiltins}.

(** [(part / whole) * 100], passed through [finish], under the guard
    [whole > 0]; the component keeps its initial 0 when the guard fails. *)
Definition rate (finish : pynum -> pynum) (part whole : pyval) : option pynum :=
  w ← as_num whole;
  if py_gt w (PInt 0) then
    p ← as_num part;
    q ← py_truediv p w;
    r ← py_mul q (PInt 100);
    Some (finish r)
  else Some (PInt 0).

(** [str(x)] for the three types the conversion accepts. *)
Definition str_of_value (x : pyval) : option pystr :=
  match x with
  | VBool b => Some (if b then py "True" else py "False")
  | VNum (PInt z) => Some (str_of_Z z)
  | VNum (PFloat f) => Some (float_repr f)
  | VStr s => Some s
  | _ => None
  end.

(** [isinstance(x, (int, float, str)) and
    str(x).replace('.','').replace('-','').isdigit()]. *)
Definition numeric_looking (x : pyval) : bool :=
  match str_of_value x with
  | Some s => isdigit (strip_dot_dash s)
  | None => false
  end.

(** [float(x)] on those types. *)
Definition py_float (x : pyval) : option float :=
  match x with
  | VBool b => Some (if b then 1%float else 0%float)
  | VNum n => to_float n
  | VStr s => float_of_str s
  | _ => None
  end.

(** [float(x) if ... else 0]. *)
Definition convert_entry (x : pyval) : option pynum :=
  if numeric_looking x then PFloat <$> py_float x else Some (PInt 0).

Fixpoint convert_entries (l : list pyval) : option (list pynum) :=
  match l with
  | [] => Some []
  | x :: r =>
    v ← convert_entry x;
    vs ← convert_entries r;
    Some (v :: vs)
  end.

(** [messages_per_user] as the block reads it: the value of the key when
    it is a list, the empty list otherwise. *)
Definition entries_of (mpu : option pyval) : list pyval :=
  match get_default mpu (VList []) with
  | VList l => l
  | _ => []
  end.

(** The entries the filter [x >= 0] drops: those that look numeric and
    convert to a negative number or a NaN. *)
Definition dropped_entry (x : pyval) : bool :=
  numeric_looking x &&
  match py_float x with
  | Some f => negb (py_ge (PFloat f) (PInt 0))
  | None => false
  end.

Definition kept_entries (l : list pyval) : nat :=
  length (List.filter (fun x => negb (dropped_entry x)) l).

(** The entries that are valid non-negative numeric counts. *)
Definition valid_count (x : pyval) : bool :=
  numeric_looking x &&
  match py_float x with
  | Some f => py_ge (PFloat f) (PInt 0)
  | None => false
  end.

Definition valid_counts (l : list pyval) : nat :=
  length (List.filter valid_count l).

(** The block computing [health_components['workload_distribution']]. *)
Definition workload (mpu : option pyval) : option pynum :=
  let messages_per_user := entries_of mpu in
  if (1 <? length messages_per_user)%nat then
    converted ← convert_entries messages_per_user;
    let valid := List.filter (fun x => py_ge x (PInt 0)) converted in
    if (1 <? length valid)%nat then
      mean ← stats_mean valid;
      stdev ← stats_stdev valid;
      cv ← (if py_gt mean (PInt 0) then py_truediv stdev mean else Some (PInt 0));
      scaled ← py_mul cv (PInt 50);
      spread ← py_sub (PInt 100) scaled;
      Some (py_max2 (PInt 0) spread)
    else Some (PInt 50)
  else Some (PInt 50).

(** The step function of the blocker count. *)
Definition blockers_score (v : pyval) : option pynum :=
  if is_zero_value v then Some (PInt 100)
  else
    n ← as_num v;
    Some (if py_le n (PInt 2) then PInt 70
          else if py_le n (PInt 5) then PInt 40
          else PInt 20).

Definition weighted (c : pynum) (w : float) : option float :=
  x ← to_float c; Some (x * w)%float.

Definition health_status (total_score : pynum) : pystr * pystr :=
  if py_ge total_score (PInt 80) then (py "EXCELENTE", py "🟢")
  else if py_ge total_score (PInt 60) then (py "BUENO", py "🟡")
  else if py_ge total_score (PInt 40) then (py "REGULAR", py "🟠")
  else (py "CRÍTICO", py "🔴").

(** The [try] block. *)
Definition calculate_team_health_body (td : team_data) : option health_result :=
  part ← rate (fun participation_rate => participation_rate)
              (get_default (td_active_members td) (VNum (PInt 0)))
              (get_default (td_total_members td) (VNum (PInt 1)));
  collab ← rate (fun collaboration_rate => py_min2 collaboration_rate (PInt 100))
                (get_default (td_collaborative_messages td) (VNum (PInt 0)))
                (get_default (td_total_messages td) (VNum (PInt 1)));
  work ← workload (td_messages_per_user td);
  block ← blockers_score (get_default (td_total_blockers td) (VNum (PInt 0)));
  let sent := get_default (td_sentiment_score td) (VNum (PInt 50)) in
  p1 ← weighted part 0.25;
  p2 ← weighted collab 0.20;
  p3 ← weighted work 0.20;
  p4 ← weighted block 0.20;
  s ← as_num sent;
  p5 ← weighted s 0.15;
  let total_score := PFloat (float_sum [p1; p2; p3; p4; p5]) in
  let '(st, em) := health_status total_score in
  Some {| health_score := py_round total_score 1;
          status := st;
          emoji := em;
          components := Some {| participation := part;
                                collaboration := collab;
                                workload_distribution := work;
                                blockers_component := block;
                                sentiment := sent |} |}.

Definition calculate_team_health (td : team_data) : health_result :=
  match calculate_team_health_body td with
  | Some r => r
  | None =>
    {| health_score := PInt 50; status := py "DESCONOCIDO"; emoji := py "❓";
       components := None |}
  end.

End TeamHealth.

(** ** agent_main.py: run_agentic_analysis *)

Inductive content_block :=
| TextBlock (block_text : pystr)
| ToolUseBlock (tool_id tool_name : pystr) (tool_input : pyval)
| OtherBlock.

Record response := {
  stop_reason : pystr;
  content : list content_block
}.

Record tool_result := {
  tool_use_id : pystr;
  tool_content : pystr
}.

(** What the initial prompt interpolates into its fixed template. *)
Record prompt := {
  prompt_channel : pystr;
  prompt_total_messages : nat;
  prompt_active_users : nat;
  prompt_total_members : nat;
  message_context : pystr
}.

(** An entry of the conversation list [messages]. *)
Inductive turn :=
| UserPrompt (p : prompt)
| AssistantTurn (blocks : list content_block)
| ToolResults (results : list tool_result).

(** The loop's variables, and the log of the requests sent to the model. *)
Record agent_state := {
  iteration : nat;
  conversation : list turn;
  requests : list (list turn)
}.

Definition max_iterations : nat := 10.

(** ["\n".join(lines)]. *)
Fixpoint join (sep : pystr) (lines : list pystr) : pystr :=
  match lines with
  | [] => []
  | [l] => l
  | l :: rest => l ++ sep ++ join sep rest
  end.

(** [report_text += content_block.text] for the blocks that have one. *)
Definition report_of (blocks : list content_block) : pystr :=
  flat_map (fun b => match b with TextBlock t => t | _ => [] end) blocks.

Section Orchestrator.
Context `{rt : PyBuiltins}.

(** [anthropic_client.messages.create] on the conversation so far;
    [None] when the call raises. *)
Variable model_call : list turn -> option response.
(** [json.dumps(process_tool_call(name, input))]: the dispatcher
    catches every exception of a tool and returns a dict. *)
Variable process_tool_call : pystr -> pyval -> pystr.
(** The two Slack lookups; [None] when they raise. *)
Variable channel_info : option pystr.
Variable channel_members : option (list pystr).

Definition is_real_message (m : enriched) : bool :=
  negb (bool_decide (text m = [])) &&
  negb (contains (py "se ha unido al canal") (lower (text m))) &&
  negb (contains (py "has joined") (lower (text m))) &&
  (15 <? length (text m))%nat.

Definition run_tools (blocks : list content_block) : list tool_result :=
  flat_map (fun b =>
    match b with
    | ToolUseBlock id name input =>
      [{| tool_use_id := id; tool_content := process_tool_call name input |}]
    | _ => []
    end) blocks.

(** [while iteration < max_iterations]; [fuel] bounds the unfolding. *)
Fixpoint agent_loop (fuel : nat) (st : agent_state) : option pystr * agent_state :=
  match fuel with
  | O => (None, st)
  | S fuel' =>
    if (iteration st <? max_iterations)%nat then
      let st1 := {| iteration := S (iteration st);
                    conversation := conversation st;
                    requests := requests st ++ [conversation st] |} in
      match model_call (conversation st) with
      | None => (None, st1)
      | Some r =>
        if eqb (stop_reason r) (py "tool_use") then
          agent_loop fuel'
            {| iteration := iteration st1;
               conversation := conversation st ++
                 [AssistantTurn (content r); ToolResults (run_tools (content r))];
               requests := requests st1 |}
        else if eqb (stop_reason r) (py "end_turn") then
          (Some (report_of (content r)), st1)
        else (None, st1)
      end
    else (None, st)
  end.

Definition initial_prompt (real_messages : list enriched) : prompt :=
  let active_users : gset pystr := list_to_set (List.map user_id real_messages) in
  {| prompt_channel := default (py "proyecto") channel_info;
     prompt_total_messages := length real_messages;
     prompt_active_users := size active_users;
     prompt_total_members :=
       match channel_members with
       | Some members => length members
       | None => size active_users
       end;
     message_context :=
       join (py "
")
         (List.map (fun m => py "*" ++ user_name m ++ py "*: " ++ text m)
                   (firstn 50 real_messages)) |}.

(** The report, if any, and the final state of the loop. The two
    locals [messages_per_user] and [collaborative_messages], computed
    before the prompt and never read, are left out. *)
Definition run_agentic_analysis (enriched_messages : list enriched)
    : option pystr * agent_state :=
  let real_messages := List.filter is_real_message enriched_messages in
  match real_messages with
  | [] => (None, {| iteration := 0; conversation := []; requests := [] |})
  | _ =>
    agent_loop max_iterations
      {| iteration := 0;
         conversation := [UserPrompt (initial_prompt real_messages)];
         requests := [] |}
  end.

End Orchestrator.

(** ** main.py: extract_project_updates *)

Definition update_keywords : list pystr :=
  [py "update"; py "actualización"; py "progreso"; py "avance";
   py "completado"; py "terminado"; py "listo"; py "deploy";
   py "release"; py "merged"; py "aprobado"; py "bloqueado";
   py "pasó a"; py "movido a"; py "%"].

Record update := {
  upd_user_name : pystr;
  upd_text : pystr;
  upd_timestamp : pystr
}.

(** [list.sort(key=...)] on keys compared with [<]: a stable insertion
    sort. [insert_by_key] puts an element before the first one whose key
    is not smaller, so earlier elements stay ahead of later equal ones. *)
Fixpoint insert_by_key {A} (k : float) (x : A) (l : list (float * A)) : list (float * A) :=
  match l with
  | [] => [(k, x)]
  | (k', y) :: r =>
    if PrimFloat.ltb k' k then (k', y) :: insert_by_key k x r
    else (k, x) :: (k', y) :: r
  end.

Fixpoint sort_by_key {A} (l : list (float * A)) : list (float * A) :=
  match l with
  | [] => []
  | (k, x) :: r => insert_by_key k x (sort_by_key r)
  end.

Section ProjectUpdates.
Context `{rt : PyBuiltins}.

(** The two tests of the loop, on the lowered text. *)
Definition is_update (m : enriched) : bool :=
  let t := lower (text m) in
  negb (length t <? 20)%nat && any_in update_keywords t.

Definition update_of (m : enriched) : update :=
  {| upd_user_name := user_name m; upd_text := text m; upd_timestamp := ts m |}.

(** The key [float(x['timestamp'])] of every update, computed before
    the sort; [None] when one of them raises [ValueError]. *)
Fixpoint with_keys (us : list update) : option (list (float * update)) :=
  match us with
  | [] => Some []
  | u :: r =>
    k ← float_of_str (upd_timestamp u);
    kr ← with_keys r;
    Some ((k, u) :: kr)
  end.

Definition extract_project_updates (enriched_messages : list enriched)
    : option (list update) :=
  keyed ← with_keys (List.map update_of (List.filter is_update enriched_messages));
  Some (List.map snd (sort_by_key keyed)).

End ProjectUpdates.

(** ** main.py: analyze_project_health *)

Definition positive_keywords : list pystr :=
  [py "completado"; py "listo"; py "terminado"; py "merged"; py "aprobado";
   py "resuelto"; py "funciona"; py "done"; py "finished"].

Definition negative_keywords : list pystr :=
  [py "bloqueado"; py "stuck"; py "problema"; py "error"; py "bug";
   py "crítico"; py "urgente"; py "esperando"; py "no puedo"; py "blocked";
   py "issue"].

Record signal := {
  sig_user : pystr;
  sig_keyword : pystr;
  sig_context : pystr
}.

(** An element of [all_messages]: the two keys the scan reads. *)
Record scanned := {
  sc_user_name : pystr;
  sc_text : pystr
}.

Record project_health := {
  score : Z;
  señales_positivas : list signal;
  señales_negativas : list signal
}.

Definition scanned_of_message (m : enriched) : scanned :=
  {| sc_user_name := user_name m; sc_text := text m |}.

Definition scanned_of_update (u : update) : scanned :=
  {| sc_user_name := upd_user_name u; sc_text := upd_text u |}.

(** [int((positives / total_signals) * 100)], or 75 without signals. *)
Definition health_score_of (positives negatives : nat) : Z :=
  let total_signals := Z.of_nat positives + Z.of_nat negatives in
  if 0 <? total_signals then
    float_trunc (int_truediv (Z.of_nat positives) total_signals * 100)%float
  else 75.

(** [round(x)]: the nearest integer, ties to the even one. *)
Definition float_round_int (x : float) : Z :=
  match Prim2SF x with
  | S754_finite s m e =>
    let v := match e with
             | Zneg k => round_half_even (Zpos m) (2 ^ Zpos k)
             | _ => Zpos m * 2 ^ e
             end in
    if s then - v else v
  | _ => 0
  end.

(** The score as the specification words it: rounded to the nearest
    integer instead of truncated. *)
Definition score_as_specified (positives negatives : nat) : Z :=
  let total_signals := Z.of_nat positives + Z.of_nat negatives in
  if 0 <? total_signals then
    float_round_int (int_truediv (Z.of_nat positives) total_signals * 100)%float
  else 75.

Section ProjectHealth.
Context `{rt : PyBuiltins}.

(** The number of keywords of [kws] found in a text. *)
Definition hits (kws : list pystr) (t : pystr) : nat :=
  length (List.filter (fun keyword => contains keyword (lower t)) kws).

(** The hits of a list of messages, each counted [weight] times. *)
Definition weighted_hits (kws : list pystr) (weight : enriched -> nat)
    (msgs : list enriched) : nat :=
  list_sum (List.map (fun m => (weight m * hits kws (text m))%nat) msgs).

(** [for keyword in kws: if keyword in text: append(...)]: one signal
    for every keyword found. *)
Definition signals_of (kws : list pystr) (msg : scanned) : list signal :=
  List.map (fun keyword =>
              {| sig_user := sc_user_name msg;
                 sig_keyword := keyword;
                 sig_context := str_prefix 100 (sc_text msg) |})
           (List.filter (fun keyword => contains keyword (lower (sc_text msg))) kws).

Definition analyze_project_health (enriched_messages : list enriched)
    (updates : list update) : project_health :=
  let all_messages :=
    List.map scanned_of_message enriched_messages ++
    List.map scanned_of_update updates in
  let positivas := flat_map (signals_of positive_keywords) all_messages in
  let negativas := flat_map (signals_of negative_keywords) all_messages in
  {| score := health_score_of (length positivas) (length negativas);
     señales_positivas := positivas;
     señales_negativas := negativas |}.

End ProjectHealth.

(** ** main.py: analyze_project_health as analyze_with_claude calls it *)

Section ReportProjectHealth.
Context `{rt : PyBuiltins}.

(** The filter at the head of [analyze_with_claude]. *)
Definition is_real_for_report (msg : enriched) : bool :=
  negb (bool_decide (text msg = [])) &&
  negb (contains (py "se ha unido al canal") (lower (text msg))) &&
  negb (contains (py "has joined") (lower (text msg))) &&
  negb (contains (py "<@") (str_prefix 5 (text msg))) &&
  (15 <? length (text msg))%nat.

Definition real_messages (enriched_messages : list enriched) : list enriched :=
  List.filter is_real_for_report enriched_messages.

(** [project_health = analyze_project_health(real_messages, updates)]:
    the first argument is the list of the messages kept as real, the
    second one is the parameter [updates], which [main] extracted from
    all the enriched messages. [None] when no message is real: the
    function has returned before the call. *)
Definition report_project_health (enriched_messages : list enriched)
    (updates : list update) : option project_health :=
  match real_messages enriched_messages with
  | [] => None
  | (_ :: _) as kept => Some (analyze_project_health kept updates)
  end.

End ReportProjectHealth.

(** ** main.py: analyze_participation_quality *)

Definition technical_keywords : list pystr :=
  [py "código"; py "code"; py "api"; py "database"; py "bug"; py "error";
   py "función"; py "function"; py "deploy"; py "merge"; py "commit"].

Definition coordination_keywords : list pystr :=
  [py "reunión"; py "meeting"; py "deadline"; py "entrega"; py "sprint";
   py "sync"; py "stand-up"; py "standup"].

(** The per-user dict after the first loop. *)
Record user_counts := {
  name : pystr;
  total_messages : Z;
  preguntas : Z;
  respuestas : Z;
  tecnico : Z;
  coordinacion : Z
}.

(** The same dict after the second loop added its three keys. *)
Record user_profile := {
  counts : user_counts;
  tipo : pystr;
  ratio_preguntas_respuestas : pynum;
  temas_principales : pystr
}.

Definition new_user (user_name : pystr) : user_counts :=
  {| name := user_name; total_messages := 0; preguntas := 0; respuestas := 0;
     tecnico := 0; coordinacion := 0 |}.

Definition incr_if (b : bool) (n : Z) : Z := if b then n + 1 else n.

(** [data['tipo']]. *)
Definition classify_tipo (d : user_counts) : pystr :=
  let total := total_messages d in
  if total <? 3 then py "Observador"
  else if PrimFloat.ltb 0.5 (int_truediv (tecnico d) total) then py "Facilitador"
  else if PrimFloat.ltb 0.5 (int_truediv (coordinacion d) total) then py "Coordinador"
  else py "Contribuidor".

(** [data['ratio_preguntas_respuestas']]. *)
Definition question_ratio (d : user_counts) : pynum :=
  if 0 <? respuestas d then
    PFloat (float_round (int_truediv (preguntas d) (respuestas d)) 2)
  else PInt (preguntas d).

(** [data['temas_principales']]. *)
Definition topics (d : user_counts) : pystr :=
  let temas :=
    (if 0 <? tecnico d
     then [py "técnico (" ++ str_of_Z (tecnico d) ++ py ")"] else []) ++
    (if 0 <? coordinacion d
     then [py "coordinación (" ++ str_of_Z (coordinacion d) ++ py ")"] else []) ++
    (if 0 <? preguntas d
     then [py "preguntas (" ++ str_of_Z (preguntas d) ++ py ")"] else []) in
  match temas with
  | [] => py "general"
  | _ => join (py ", ") temas
  end.

Definition classify_user (d : user_counts) : user_profile :=
  {| counts := d;
     tipo := classify_tipo d;
     ratio_preguntas_respuestas := question_ratio d;
     temas_principales := topics d |}.

(** The tests on the raw text: ['?' in text] and
    ['<@' in text or '@' in text]. *)
Definition asks_question (msg : enriched) : bool := contains (py "?") (text msg).

Definition is_response (msg : enriched) : bool :=
  contains (py "<@") (text msg) || contains (py "@") (text msg).

(** The messages of one user, in order. *)
Definition messages_of (uid : pystr) (msgs : list enriched) : list enriched :=
  List.filter (fun m => bool_decide (user_id m = uid)) msgs.

Definition count_of (test : enriched -> bool) (msgs : list enriched) : Z :=
  Z.of_nat (length (List.filter test msgs)).

Section Participation.
Context `{rt : PyBuiltins}.

(** The tests on the lowered text. *)
Definition is_technical (msg : enriched) : bool :=
  any_in technical_keywords (lower (text msg)).

Definition is_coordination (msg : enriched) : bool :=
  any_in coordination_keywords (lower (text msg)).

(** The body of the first loop. *)
Definition count_message (user_analysis : gmap pystr user_counts) (msg : enriched)
    : gmap pystr user_counts :=
  let d := default (new_user (user_name msg)) (user_analysis !! user_id msg) in
  <[user_id msg :=
      {| name := name d;
         total_messages := total_messages d + 1;
         preguntas := incr_if (asks_question msg) (preguntas d);
         respuestas := incr_if (is_response msg) (respuestas d);
         tecnico := incr_if (is_technical msg) (tecnico d);
         coordinacion := incr_if (is_coordination msg) (coordinacion d) |}]>
    user_analysis.

(** What the first loop holds for a user once it has read [msgs]:
    nothing before the user's first message, then the name on that
    first message and the counts over the user's messages. *)
Definition counts_for (uid : pystr) (msgs : list enriched) : option user_counts :=
  match messages_of uid msgs with
  | [] => None
  | first :: _ =>
    Some {| name := user_name first;
            total_messages := count_of (fun _ => true) (messages_of uid msgs);
            preguntas := count_of asks_question (messages_of uid msgs);
            respuestas := count_of is_response (messages_of uid msgs);
            tecnico := count_of is_technical (messages_of uid msgs);
            coordinacion := count_of is_coordination (messages_of uid msgs) |}
  end.

Definition analyze_participation_quality (enriched_messages : list enriched)
    : gmap pystr user_profile :=
  classify_user <$> fold_left count_message enriched_messages ∅.

End Participation.

(** ** main.py: infer_causes *)

Definition ausencia_keywords : list pystr :=
  [py "fuera"; py "ausente"; py "no estaré"; py "enfermo"; py "vacaciones";
   py "permiso"; py "offline"].

(** [u['comparison']]: the dict of [compare_to_baseline], or
    [{'has_baseline': False}], whose other keys are never read. *)
Record comparison := {
  has_baseline : bool;
  direction : pystr;
  diff_percentage : pynum
}.

(** An element of [users_with_baseline]: the keys read here. *)
Record baseline_user := {
  bu_name : pystr;
  bu_comparison : comparison
}.

Record cause := {
  cause_user_name : pystr;
  causa_inferida : pystr;
  evidencia : list pystr
}.

Section CauseInference.
Context `{rt : PyBuiltins}.

Definition str_of_num (n : pynum) : pystr :=
  match n with
  | PInt z => str_of_Z z
  | PFloat f => float_repr f
  end.

(** The [elif baseline_info and ...] branch: the cause and evidence it
    assigns, if any. *)
Definition low_participation (enriched_messages : list enriched)
    (user_name0 : pystr) (c : comparison) : option pystr * list pystr :=
  if eqb (direction c) (py "por debajo") && py_gt (diff_percentage c) (PInt 50) then
    let user_messages :=
      List.map (fun m => lower (text m))
               (List.filter (fun m => eqb (user_name m) user_name0) enriched_messages) in
    if existsb (any_in ausencia_keywords) user_messages then
      (Some (py "ausencia_reportada"),
       [py "Actividad " ++ str_of_num (diff_percentage c) ++ py "% por debajo del promedio";
        py "Usuario reportó ausencia"])
    else
      (Some (py "baja_participacion_inusual"),
       [py "Actividad " ++ str_of_num (diff_percentage c) ++
        py "% por debajo del promedio sin explicación"])
  else (None, []).

(** The first statement of the loop body, [if total_msgs == 0: ...
    elif baseline_info and ...]: the cause and the evidence so far. *)
Definition absence_or_low (enriched_messages : list enriched)
    (users_with_baseline : list baseline_user) (d : user_counts)
    : option pystr * list pystr :=
  let baseline_info :=
    List.find (fun u => eqb (bu_name u) (name d)) users_with_baseline in
  if total_messages d =? 0 then
    (Some (py "ausencia_total"), [py "Sin actividad en el período"])
  else
    match baseline_info with
    | Some u =>
      if has_baseline (bu_comparison u)
      then low_participation enriched_messages (name d) (bu_comparison u)
      else (None, [])
    | None => (None, [])
    end.

(** The second statement, [if analysis['respuestas'] > 5 and
    analysis['tecnico'] > 3]: it overwrites the cause. *)
Definition unblocking_team (d : user_counts) (so_far : option pystr * list pystr)
    : option pystr * list pystr :=
  if (5 <? respuestas d) && (3 <? tecnico d) then
    (Some (py "desbloqueando_equipo"),
     snd so_far ++ [str_of_Z (respuestas d) ++ py " respuestas técnicas";
                    py "Patrón de resolver dudas del equipo"])
  else so_far.

(** The third statement, [if analysis['preguntas'] > 3 and
    analysis['respuestas'] == 0]: it overwrites the cause again. *)
Definition possibly_blocked (d : user_counts) (so_far : option pystr * list pystr)
    : option pystr * list pystr :=
  if (3 <? preguntas d) && (respuestas d =? 0) then
    (Some (py "posiblemente_bloqueado"),
     snd so_far ++ [str_of_Z (preguntas d) ++ py " preguntas sin respuestas aparentes";
                    py "Buscando ayuda sin obtenerla"])
  else so_far.

(** The body of the loop over [user_analysis.items()]: the entry added
    to [causes], if any. *)
Definition infer_cause (enriched_messages : list enriched)
    (users_with_baseline : list baseline_user) (analysis : user_profile)
    : option cause :=
  let d := counts analysis in
  let result :=
    possibly_blocked d
      (unblocking_team d (absence_or_low enriched_messages users_with_baseline d)) in
  match fst result with
  | Some c =>
    Some {| cause_user_name := name d; causa_inferida := c; evidencia := snd result |}
  | None => None
  end.

Definition infer_causes (enriched_messages : list enriched)
    (user_analysis : gmap pystr user_profile)
    (users_with_baseline : list baseline_user) : gmap pystr cause :=
  omap (infer_cause enriched_messages users_with_baseline) user_analysis.

End CauseInference.

(** ** send_report_to_lead: the markup substitution *)

(** [formatted_report = report.replace('**', '*')], in both
    [main.py] and [agent_main.py]. *)
Definition format_report (report : pystr) : pystr :=
  replace (py "**") (py "*") report.

(** ** agent_main.py: classify_urgency *)

Definition critical_indicators : list pystr :=
  [py "cliente afectado"; py "producción caída"; py "perdiendo dinero";
   py "deadline hoy"; py "client down"; py "production down"].

Definition high_indicators : list pystr :=
  [py "deadline esta semana"; py "cliente preguntando"; py "bloqueando a otros";
   py "urgente"; py "asap"; py "prioritario"; py "critical"].

Definition medium_indicators : list pystr :=
  [py "deadline próximo"; py "importante"; py "deberíamos"; py "hay que"].

Definition low_indicators : list pystr :=
  [py "cuando puedas"; py "no urgente"; py "eventualmente"; py "nice to have"].

(** The three locals the function updates and returns. *)
Record urgency := {
  urgency_level : pystr;
  urgency_score : Z;
  urgency_reasoning : list pystr
}.

(** One of the loops that set the level: at the first indicator found,
    the level, the score and a line of reasoning, then [break]. *)
Definition scan_indicators (indicators : list pystr) (level : pystr) (points : Z)
    (note : pystr) (context_lower : pystr) (u : urgency) : urgency :=
  match first_in indicators context_lower with
  | Some indicator =>
    {| urgency_level := level;
       urgency_score := points;
       urgency_reasoning :=
         urgency_reasoning u ++ [py "Detectado: '" ++ indicator ++ py "' - " ++ note] |}
  | None => u
  end.

(** [if urgency_level != 'crítico': for indicator in high_indicators ...]. *)
Definition scan_high (context_lower : pystr) (u : urgency) : urgency :=
  if negb (eqb (urgency_level u) (py "crítico"))
  then scan_indicators high_indicators (py "alto") 75 (py "requiere atención pronta")
         context_lower u
  else u.

(** [if urgency_level not in ['crítico', 'alto']: for indicator in
    medium_indicators ...]. *)
Definition scan_medium (context_lower : pystr) (u : urgency) : urgency :=
  if negb (eqb (urgency_level u) (py "crítico") || eqb (urgency_level u) (py "alto"))
  then scan_indicators medium_indicators (py "medio") 50 (py "planificar pronto")
         context_lower u
  else u.

(** [if urgency_level == 'bajo': for indicator in low_indicators ...]:
    this loop only adds a line of reasoning. *)
Definition scan_low (context_lower : pystr) (u : urgency) : urgency :=
  if eqb (urgency_level u) (py "bajo") then
    match first_in low_indicators context_lower with
    | Some indicator =>
      {| urgency_level := urgency_level u;
         urgency_score := urgency_score u;
         urgency_reasoning :=
           urgency_reasoning u ++
           [py "Detectado: '" ++ indicator ++ py "' - sin presión temporal"] |}
    | None => u
    end
  else u.

(** [if mentioned: reasoning.append(note); if score < 75: score = 75;
    urgency_level = 'alto']. *)
Definition raise_to_alto (mentioned : bool) (note : pystr) (u : urgency) : urgency :=
  if mentioned then
    if urgency_score u <? 75 then
      {| urgency_level := py "alto"; urgency_score := 75;
         urgency_reasoning := urgency_reasoning u ++ [note] |}
    else
      {| urgency_level := urgency_level u; urgency_score := urgency_score u;
         urgency_reasoning := urgency_reasoning u ++ [note] |}
  else u.

(** [if not reasoning: reasoning.append(...)]. *)
Definition default_reasoning (u : urgency) : urgency :=
  match urgency_reasoning u with
  | [] =>
    {| urgency_level := urgency_level u; urgency_score := urgency_score u;
       urgency_reasoning := [py "Sin indicadores claros de urgencia"] |}
  | _ => u
  end.

(** The locals before the first loop. *)
Definition initial_urgency : urgency :=
  {| urgency_level := py "bajo"; urgency_score := 25; urgency_reasoning := [] |}.

(** The [try] block, from the lowered text on: its statements in the
    order of the source, each applied to the locals the previous one
    left. *)
Definition classify_text (context_lower : pystr) : urgency :=
  default_reasoning
    (raise_to_alto (contains (py "cliente") context_lower ||
                    contains (py "client") context_lower)
       (py "Impacto en clientes mencionado")
       (raise_to_alto (contains (py "deadline") context_lower ||
                       contains (py "fecha límite") context_lower)
          (py "Deadline explícito mencionado")
          (scan_low context_lower
             (scan_medium context_lower
                (scan_high context_lower
                   (scan_indicators critical_indicators (py "crítico") 100
                      (py "impacto inmediato") context_lower initial_urgency)))))).

Section ClassifyUrgency.
Context `{rt : PyBuiltins}.

(** [str(e)] for the exception [context.lower()] raises on a value that
    is not a [str]. *)
Variable exception_text : pyval -> pystr.

Definition classify_urgency (context_value : pyval) : urgency :=
  match context_value with
  | VStr s => classify_text (lower s)
  | _ =>
    {| urgency_level := py "desconocido"; urgency_score := 50;
       urgency_reasoning := [py "Error: " ++ exception_text context_value] |}
  end.

End ClassifyUrgency.

(** ** agent_main.py: extract_key_decisions *)

Definition decision_indicators : list pystr :=
  [py "decidimos"; py "vamos a"; py "haremos"; py "acordamos"; py "decided to";
   py "we will"; py "we are going to"; py "agreed to"].

Definition question_indicators : list pystr :=
  [py "?"; py "deberíamos"; py "qué hacemos con"; py "should we"].

Record decision_made := {
  what : pystr;
  who_decided : pyval;
  decision_reasoning : pystr;
  next_steps : pystr;
  decision_timestamp : pyval
}.

Record decision_pending := {
  pending_what : pystr;
  who_asks : pyval;
  pending_timestamp : pyval
}.

Record decisions_result := {
  total_decisions_made : Z;
  total_decisions_pending : Z;
  decisions_made : list decision_made;
  decisions_pending : list decision_pending
}.

(** [x or 'No especificado'] for [x] a [str] or [None]. *)
Definition or_unspecified (x : option pystr) : pystr :=
  match x with
  | Some (c :: r) => c :: r
  | _ => py "No especificado"
  end.

(** [msg.get('text', '')] where the code goes on with [.lower()]:
    [AttributeError] when the value is not a [str]. *)
Definition raw_text (t : option pyval) : option pystr :=
  match get_default t (VStr []) with
  | VStr s => Some s
  | _ => None
  end.

Section KeyDecisions.
Context `{rt : PyBuiltins}.

Definition decision_of (msg_text : pystr) (u s : option pyval) : decision_made :=
  let text_lower := lower msg_text in
  let reasoning :=
    if contains (py "porque") text_lower || contains (py "ya que") text_lower ||
       contains (py "because") text_lower
    then Some (str_prefix 200 msg_text) else None in
  let steps :=
    if contains (py "siguiente") text_lower || contains (py "next") text_lower ||
       contains (py "luego") text_lower
    then Some (str_prefix 200 msg_text) else None in
  {| what := str_prefix 150 msg_text;
     who_decided := get_default u (VStr (py "Unknown"));
     decision_reasoning := or_unspecified reasoning;
     next_steps := or_unspecified steps;
     decision_timestamp := get_default s (VStr (py "unknown")) |}.

Definition pending_of (msg_text : pystr) (u s : option pyval) : decision_pending :=
  {| pending_what := str_prefix 150 msg_text;
     who_asks := get_default u (VStr (py "Unknown"));
     pending_timestamp := get_default s (VStr (py "unknown")) |}.

(** What one round of the loop appends to [decisions_made] for an
    element, if anything. *)
Definition decision_in (m : msg_item) : option decision_made :=
  match m with
  | MDict t u s =>
    msg_text ← raw_text t;
    if any_in decision_indicators (lower msg_text)
    then Some (decision_of msg_text u s) else None
  | _ => None
  end.

(** What one round of the loop appends to [decisions_pending]. *)
Definition pending_in (m : msg_item) : option decision_pending :=
  match m with
  | MDict t u s =>
    msg_text ← raw_text t;
    if any_in question_indicators (lower msg_text) &&
       negb (any_in decision_indicators (lower msg_text))
    then Some (pending_of msg_text u s) else None
  | _ => None
  end.

(** The loop, with the two lists it appends to. A [str] element is
    skipped; on anything else that is not a dict, [msg.get] raises. *)
Fixpoint decisions_loop (messages : list msg_item)
    (made : list decision_made) (pending : list decision_pending)
    : option (list decision_made * list decision_pending) :=
  match messages with
  | [] => Some (made, pending)
  | MStr _ :: rest => decisions_loop rest made pending
  | MOther :: _ => None
  | MDict t u s :: rest =>
    match raw_text t with
    | None => None
    | Some msg_text =>
      let text_lower := lower msg_text in
      let has_decision := any_in decision_indicators text_lower in
      let has_question := any_in question_indicators text_lower in
      decisions_loop rest
        (if has_decision then made ++ [decision_of msg_text u s] else made)
        (if has_question && negb has_decision
         then pending ++ [pending_of msg_text u s] else pending)
    end
  end.

Definition extract_key_decisions (messages : list msg_item) : decisions_result :=
  match decisions_loop messages [] [] with
  | Some (made, pending) =>
    {| total_decisions_made := Z.of_nat (length made);
       total_decisions_pending := Z.of_nat (length pending);
       decisions_made := firstn 5 made;
       decisions_pending := firstn 5 pending |}
  | None =>
    {| total_decisions_made := 0; total_decisions_pending := 0;
       decisions_made := []; decisions_pending := [] |}
  end.

End KeyDecisions.

(** ** The shape of a conversation sent to the model

    What the Messages API expects of the list [messages]: the prompt
    first, then pairs of an assistant turn and a user turn that answers
    each of its [tool_use] blocks, in order, by a [tool_result] with the
    same id. *)
Definition tool_use_ids (blocks : list content_block) : list pystr :=
  flat_map (fun b => match b with ToolUseBlock id _ _ => [id] | _ => [] end) blocks.

Fixpoint tool_exchanges (turns : list turn) : bool :=
  match turns with
  | [] => true
  | AssistantTurn blocks :: ToolResults results :: rest =>
    bool_decide (List.map tool_use_id results = tool_use_ids blocks) && tool_exchanges rest
  | _ => false
  end.

Definition well_formed_request (conv : list turn) : bool :=
  match conv with
  | UserPrompt _ :: rest => tool_exchanges rest
  | _ => false
  end.

(** ** main.py: compare_to_baseline *)

(** [abs(x)]. *)
Definition py_abs (n : pynum) : pynum :=
  match n with
  | PInt z => PInt (Z.abs z)
  | PFloat f => PFloat (PrimFloat.abs f)
  end.

(** [not x or x == 0] on a number. *)
Definition is_zero_num (n : pynum) : bool :=
  match n with
  | PInt z => z =? 0
  | PFloat f => PrimFloat.eqb f 0%float
  end.

(** The callers pass a message count and the [avg_messages_per_day] of a
    baseline, both numbers. The [message] key of the result is
    presentation and left out. *)
Definition compare_to_baseline (current_value baseline_value : pynum) : option comparison :=
  if is_zero_num baseline_value then
    Some {| has_baseline := false; direction := py "sin datos"; diff_percentage := PInt 0 |}
  else
    diff ← py_sub current_value baseline_value;
    quotient ← py_truediv diff baseline_value;
    percentage ← py_mul quotient (PInt 100);
    Some {| has_baseline := true;
            direction := if py_gt diff (PInt 0) then py "por encima"
                         else if py_lt diff (PInt 0) then py "por debajo"
                         else py "igual";
            diff_percentage := py_abs percentage |}.

(** ** main.py: classify_project_status *)

Definition delayed_keywords : list pystr :=
  [py "delayed"; py "retrasado"; py "retraso"; py "atrasado"].

Definition blocked_keywords : list pystr :=
  [py "bloqueado"; py "blocked"; py "stuck"; py "waiting"; py "esperando"].

Definition sensitivity_keywords : list pystr :=
  [py "deadline"; py "cliente"; py "urgente"; py "crítico"; py "client";
   py "urgent"; py "critical"].

(** The three codes of the result; the emoji and the text that go with
    each code are presentation. *)
Record project_status := {
  status_code : pystr;
  sensitivity : pystr;
  resources : pystr
}.

(** The counters of the loop. *)
Record status_counts := {
  delayed_count : Z;
  blocked_count : Z;
  sensitivity_count : Z
}.

(** [get_channel_baseline]: both branches of its [try] return [None]. *)
Definition get_channel_baseline : option pynum := None.

(** The [if / elif / elif / else] chain of the status. The baseline is
    [None] for [None] or an empty dict, and otherwise the value of
    [channel_baseline.get('avg_messages_per_day', 0)]. *)
Definition status_of (c : status_counts) (current_activity : Z)
    (channel_baseline : option pynum) : option pystr :=
  if 2 <? blocked_count c then Some (py "blocked")
  else if 1 <? delayed_count c then Some (py "delayed")
  else
    match channel_baseline with
    | Some avg_activity =>
      limit ← py_mul avg_activity (PFloat 1.5);
      Some (if py_gt (PInt current_activity) limit then py "fast_track" else py "on_track")
    | None => Some (py "on_track")
    end.

Definition sensitivity_of (c : status_counts) : pystr :=
  if 3 <? sensitivity_count c then py "time_sensitive" else py "non_time_sensitive".

Definition resources_of (current_activity : Z) (channel_baseline : option pynum)
    : option pystr :=
  match channel_baseline with
  | Some avg_activity =>
    low ← py_mul avg_activity (PFloat 0.6);
    if py_lt (PInt current_activity) low then Some (py "can_reduce")
    else
      high ← py_mul avg_activity (PFloat 1.3);
      Some (if py_gt (PInt current_activity) high then py "need" else py "perfect")
  | None => Some (py "unknown")
  end.

Section ProjectStatus.
Context `{rt : PyBuiltins}.

(** The body of the loop over the messages. *)
Definition count_status (c : status_counts) (msg : enriched) : status_counts :=
  let t := lower (text msg) in
  {| delayed_count := incr_if (any_in delayed_keywords t) (delayed_count c);
     blocked_count := incr_if (any_in blocked_keywords t) (blocked_count c);
     sensitivity_count := incr_if (any_in sensitivity_keywords t) (sensitivity_count c) |}.

Definition classify_project_status (enriched_messages : list enriched)
    (channel_baseline : option pynum) : option project_status :=
  let c := fold_left count_status enriched_messages
             {| delayed_count := 0; blocked_count := 0; sensitivity_count := 0 |} in
  let current_activity := Z.of_nat (length enriched_messages) in
  st ← status_of c current_activity channel_baseline;
  res ← resources_of current_activity channel_baseline;
  Some {| status_code := st; sensitivity := sensitivity_of c; resources := res |}.

End ProjectStatus.

(** ** main.py: extract_required_decisions and extract_critical_risks *)

Definition decision_keywords : list pystr :=
  [py "necesito que"; py "requiero aprobación"; py "necesitamos decidir";
   py "hay que decidir"; py "debemos decidir"; py "need approval";
   py "need to decide"; py "?"].

Record required_decision := {
  que : pystr;
  quien_pide : pystr;
  required_timestamp : pystr
}.

Definition critical_keywords : list pystr :=
  [py "crítico"; py "urgente"; py "problema grave"; py "cliente en riesgo";
   py "vamos a perder"; py "critical"; py "urgent"; py "severe"; py "losing client"].

Record risk := {
  riesgo : pystr;
  reportado_por : pystr;
  probabilidad : pystr;
  impacto : pystr
}.

Section DecisionsAndRisks.
Context `{rt : PyBuiltins}.

Definition asks_decision (msg : enriched) : bool :=
  any_in decision_keywords (lower (text msg)).

Definition extract_required_decisions (enriched_messages : list enriched)
    : list required_decision :=
  firstn 5
    (List.map (fun msg => {| que := str_prefix 200 (text msg);
                             quien_pide := user_name msg;
                             required_timestamp := ts msg |})
              (List.filter asks_decision enriched_messages)).

Definition reports_risk (msg : enriched) : bool :=
  any_in critical_keywords (lower (text msg)).

(** The [if / elif / else] that infers the impact and the probability. *)
Definition risk_grade (t : pystr) : pystr * pystr :=
  if contains (py "crítico") t || contains (py "critical") t
  then (py "ALTO", py "ALTA")
  else if contains (py "cliente") t || contains (py "client") t
  then (py "ALTO", py "MEDIA")
  else (py "MEDIO-ALTO", py "MEDIA").

Definition risk_of (msg : enriched) : risk :=
  let grade := risk_grade (lower (text msg)) in
  {| riesgo := str_prefix 200 (text msg);
     reportado_por := user_name msg;
     probabilidad := snd grade;
     impacto := fst grade |}.

Definition extract_critical_risks (enriched_messages : list enriched) : list risk :=
  firstn 3 (List.map risk_of (List.filter reports_risk enriched_messages)).

End DecisionsAndRisks.

(** ** main.py: detect_meeting_attendance *)

Definition meeting_keywords : list pystr :=
  [py "sync"; py "sincronización"; py "standup"; py "stand-up"; py "daily";
   py "reunión de equipo"; py "meeting de equipo"].

Definition attendance_keywords : list pystr :=
  [py "estoy en"; py "me uno"; py "joining"; py "en la reunión"; py "en el sync";
   py "en el daily"; py "en el standup"].

Definition absence_keywords : list pystr :=
  [py "no puedo ir"; py "no podré"; py "me ausento"; py "cant join";
   py "cannot attend"; py "miss the"; py "skip"].

Record meeting_mention := {
  mentioned_by : pystr;
  mention_text : pystr
}.

Record attendee := {
  attendee_name : pystr;
  attendee_context : pystr
}.

Record absence := {
  absence_name : pystr;
  razon : pystr
}.

Record meeting_attendance := {
  meetings_detected : bool;
  num_meetings : Z;
  attendees : list attendee;
  absences : list absence
}.

(** The three lists the loop appends to. *)
Record meeting_lists := {
  mentions_found : list meeting_mention;
  attendees_found : list attendee;
  absences_found : list absence
}.

Section MeetingAttendance.
Context `{rt : PyBuiltins}.

Definition mentions_meeting (msg : enriched) : bool :=
  any_in meeting_keywords (lower (text msg)).

Definition says_attending (msg : enriched) : bool :=
  any_in attendance_keywords (lower (text msg)).

Definition says_absent (msg : enriched) : bool :=
  any_in absence_keywords (lower (text msg)).

(** The body of the loop. *)
Definition note_meeting (found : meeting_lists) (msg : enriched) : meeting_lists :=
  if mentions_meeting msg then
    {| mentions_found :=
         mentions_found found ++
         [{| mentioned_by := user_name msg; mention_text := str_prefix 150 (text msg) |}];
       attendees_found :=
         if says_attending msg
         then attendees_found found ++
              [{| attendee_name := user_name msg;
                  attendee_context := str_prefix 100 (text msg) |}]
         else attendees_found found;
       absences_found :=
         if says_absent msg
         then absences_found found ++
              [{| absence_name := user_name msg;
                  razon := if contains (py "porque") (lower (text msg)) ||
                              contains (py "due to") (lower (text msg))
                           then str_prefix 150 (text msg)
                           else py "No especificada" |}]
         else absences_found found |}
  else found.

Definition detect_meeting_attendance (enriched_messages : list enriched)
    : meeting_attendance :=
  let found := fold_left note_meeting enriched_messages
                 {| mentions_found := []; attendees_found := []; absences_found := [] |} in
  {| meetings_detected := (0 <? length (mentions_found found))%nat;
     num_meetings := Z.of_nat (length (mentions_found found));
     attendees := attendees_found found;
     absences := absences_found found |}.

End MeetingAttendance.

(** *** The meeting block of the prompt in analyze_with_claude

    The lines the caller adds to [structured_context] from the result of
    [detect_meeting_attendance]. They are built before the [try] around
    the model call, so an exception here leaves [analyze_with_claude]. *)

(** [sep.join(items)]: [TypeError] unless every item is a [str]. *)
Fixpoint join_values (sep : pystr) (items : list pyval) : option pystr :=
  match items with
  | [] => Some []
  | [VStr s] => Some s
  | VStr s :: rest => r ← join_values sep rest; Some (s ++ sep ++ r)
  | _ => None
  end.

(** The dict an absence is: the keys the detector wrote. *)
Definition absence_dict (a : absence) : list (pystr * pystr) :=
  [(py "name", absence_name a); (py "razon", razon a)].

(** [d[key]]: [KeyError] when the key is missing. *)
Definition dict_item (key : pystr) (d : list (pystr * pystr)) : option pystr :=
  snd <$> List.find (fun kv => eqb (fst kv) key) d.

(** The lines of the absences: [f"    • {absence['name']}: {absence['reason']}\n"]. *)
Fixpoint absence_lines (l : list absence) : option pystr :=
  match l with
  | [] => Some []
  | a :: rest =>
    who ← dict_item (py "name") (absence_dict a);
    why ← dict_item (py "reason") (absence_dict a);
    r ← absence_lines rest;
    Some (py "    • " ++ who ++ py ": " ++ why ++ py "
" ++ r)
  end.

Definition meeting_section (m : meeting_attendance) : option pystr :=
  let header := py "
📞 ASISTENCIA A REUNIONES DE SINCRONIZACIÓN:
" in
  if meetings_detected m then
    names ← match attendees m with
            | [] => Some (py "Ninguno registrado")
            | l => join_values (py ", ") (List.map (fun _ => VDict) l)
            end;
    missing ← match absences m with
              | [] => Some []
              | l => r ← absence_lines l; Some (py "  - Ausencias:
" ++ r)
              end;
    Some (header ++
          py "  - Reuniones detectadas: " ++ str_of_Z (num_meetings m) ++ py "
" ++ py "  - Asistentes: " ++ names ++ py "
" ++ missing)
  else
    Some (header ++ py "  - No se detectaron reuniones de sincronización registradas
").

(** ** main.py: get_slack_thread_links *)

Record thread_link := {
  link_text : pystr;
  link : pystr;
  link_user : pystr
}.

Record thread_links := {
  updates_links : list thread_link;
  decisions_links : list thread_link;
  risks_links : list thread_link
}.

Definition risk_keywords : list pystr :=
  [py "crítico"; py "urgente"; py "problema"; py "critical"; py "urgent"].

(** The link record of a text with its author and timestamp. *)
Definition link_to (channel_id : pystr) (body author stamp : pystr) : thread_link :=
  {| link_text := str_prefix 50 body ++ py "...";
     link := py "https://slack.com/app_redirect?channel=" ++ channel_id ++
             py "&message_ts=" ++ stamp;
     link_user := author |}.

(** [for msg in enriched_messages: if test(msg): append(...);
    if len(found) >= 3: break]. *)
Fixpoint collect_links (test : enriched -> bool) (channel_id : pystr)
    (msgs : list enriched) (found : list thread_link) : list thread_link :=
  match msgs with
  | [] => found
  | msg :: rest =>
    if test msg then
      let found' := found ++ [link_to channel_id (text msg) (user_name msg) (ts msg)] in
      if (3 <=? length found')%nat then found'
      else collect_links test channel_id rest found'
    else collect_links test channel_id rest found
  end.

Section ThreadLinks.
Context `{rt : PyBuiltins}.

Definition mentions_risk (msg : enriched) : bool :=
  any_in risk_keywords (lower (text msg)).

Definition get_slack_thread_links (enriched_messages : list enriched)
    (updates : list update) (channel_id : pystr) : thread_links :=
  {| updates_links :=
       List.map (fun u => link_to channel_id (upd_text u) (upd_user_name u) (upd_timestamp u))
                (firstn 5 updates);
     decisions_links := collect_links asks_question channel_id enriched_messages [];
     risks_links := collect_links mentions_risk channel_id enriched_messages [] |}.

End ThreadLinks.

(** ** calculate_business_days

    The same loop in [main.py], [agent_main.py] and, inlined, in
    [SupabaseManager.get_messages]. A date is its proleptic Gregorian
    ordinal; the function returns the date whose midnight is converted
    to a timestamp. *)

(** [date.weekday()]: Monday is 0 and Sunday is 6; day 1 is a Monday. *)
Definition weekday (ordinal : Z) : Z := (ordinal + 6) mod 7.

(** [while business_days_count < days: current_date -= timedelta(days=1);
    if current_date.weekday() < 5: business_days_count += 1]. *)
Fixpoint business_days_loop (fuel : nat) (days current_date business_days_count : Z)
    : option Z :=
  match fuel with
  | O => None
  | S fuel' =>
    if business_days_count <? days then
      let current_date := current_date - 1 in
      business_days_loop fuel' days current_date
        (if weekday current_date <? 5 then business_days_count + 1
         else business_days_count)
    else Some current_date
  end.

Definition calculate_business_days (fuel : nat) (today days : Z) : option Z :=
  business_days_loop fuel days today 0.

(** The number of days from Monday to Friday among [first], ...,
    [last - 1]. *)
Definition business_days_between (first last : Z) : Z :=
  Z.of_nat (length (List.filter (fun d => weekday d <? 5) (seqZ first (last - first)))).

(** ** main.py: get_user_name and enrich_messages_with_names *)

(** A message as Slack or the database delivers it: the keys read here. *)
Record slack_message := {
  msg_user : option pystr;
  msg_text : option pystr;
  msg_ts : option pystr
}.

(** The module's [user_cache], and the log of the calls made to
    [users_info] with whether each one succeeded. *)
Record name_lookups := {
  user_cache : gmap pystr pystr;
  users_info_calls : list (pystr * bool)
}.

Section Enrich.

(** [slack_client.users_info(user=...)] at the n-th call: the
    [real_name] and the [name] of the user, or [None] when the call, or
    one of the two lookups in its result, raises. *)
Variable users_info : nat -> pystr -> option (pystr * pystr).

Definition get_user_name (uid : pystr) (st : name_lookups) : pystr * name_lookups :=
  match user_cache st !! uid with
  | Some cached => (cached, st)
  | None =>
    match users_info (length (users_info_calls st)) uid with
    | Some (real_name, username) =>
      let display := real_name ++ py " (@" ++ username ++ py ")" in
      (display, {| user_cache := <[uid := display]> (user_cache st);
                   users_info_calls := users_info_calls st ++ [(uid, true)] |})
    | None =>
      (py "Usuario " ++ uid,
       {| user_cache := user_cache st;
          users_info_calls := users_info_calls st ++ [(uid, false)] |})
    end
  end.

(** [None] is the [KeyError] of [msg['ts']]. *)
Fixpoint enrich_messages_with_names (messages : list slack_message) (st : name_lookups)
    : option (list enriched * name_lookups) :=
  match messages with
  | [] => Some ([], st)
  | msg :: rest =>
    match msg_user msg with
    | Some uid =>
      let '(display, st1) := get_user_name uid st in
      stamp ← msg_ts msg;
      '(enriched_rest, st2) ← enrich_messages_with_names rest st1;
      Some ({| user_id := uid; user_name := display;
               text := default [] (msg_text msg); ts := stamp |} :: enriched_rest, st2)
    | None => enrich_messages_with_names rest st
    end
  end.

End Enrich.

(** The name a user gets from an answer of [users_info] when nothing is
    cached. *)
Definition display_name (info : option (pystr * pystr)) (uid : pystr) : pystr :=
  match info with
  | Some (real_name, username) => real_name ++ py " (@" ++ username ++ py ")"
  | None => py "Usuario " ++ uid
  end.

(** ** main.py: calculate_metrics *)

Record metrics := {
  metrics_total_messages : Z;
  active_users : Z;
  total_members : Z;
  participation_rate : pynum;
  top_active : list (pystr * Z)
}.

(** [d[key] = d.get(key, 0) + 1] on a dict whose keys keep the order in
    which they were first inserted. *)
Fixpoint bump_count (key : pystr) (d : list (pystr * Z)) : list (pystr * Z) :=
  match d with
  | [] => [(key, 0 + 1)]
  | (k, v) :: r => if eqb k key then (k, v + 1) :: r else (k, v) :: bump_count key r
  end.

(** [sorted(items, key=lambda x: x[1], reverse=True)]: the sort is
    stable, also when reversed, so items with equal counts keep their
    order. *)
Fixpoint insert_desc (x : pystr * Z) (l : list (pystr * Z)) : list (pystr * Z) :=
  match l with
  | [] => [x]
  | y :: r => if snd x <? snd y then y :: insert_desc x r else x :: y :: r
  end.

Fixpoint sorted_desc (l : list (pystr * Z)) : list (pystr * Z) :=
  match l with
  | [] => []
  | x :: r => insert_desc x (sorted_desc r)
  end.

Definition user_message_count (enriched_messages : list enriched) : list (pystr * Z) :=
  fold_left (fun d msg => bump_count (user_name msg) d) enriched_messages [].

Section Metrics.

(** [slack_client.conversations_members(...)['members']]; [None] when
    the call raises. *)
Variable conversations_members : option (list pystr).

Definition calculate_metrics (enriched_messages : list enriched) : metrics :=
  let members :=
    match conversations_members with
    | Some l => Z.of_nat (length l)
    | None => 0
    end in
  let active : gset pystr := list_to_set (List.map user_id enriched_messages) in
  {| metrics_total_messages := Z.of_nat (length enriched_messages);
     active_users := Z.of_nat (size active);
     total_members := members;
     participation_rate :=
       py_round (if 0 <? members
                 then PFloat (int_truediv (Z.of_nat (size active)) members * 100)%float
                 else PInt 0) 1;
     top_active := firstn 3 (sorted_desc (user_message_count enriched_messages)) |}.

End Metrics.

(** ** main.py: analyze_with_claude, the users and their baselines *)

(** The baseline dict of a user: the key the analysis computes with. *)
Record user_baseline := {
  avg_messages_per_day : pynum
}.

(** An element of [users_with_baseline]. *)
Record user_entry := {
  entry_id : pystr;
  entry_name : pystr;
  messages_today : Z;
  baseline : option user_baseline;
  entry_comparison : comparison
}.

(** [{'has_baseline': False}]: its missing [direction] equals none of
    the directions it is compared with, and its missing
    [diff_percentage] is read with the default 0. *)
Definition no_comparison : comparison :=
  {| has_baseline := false; direction := []; diff_percentage := PInt 0 |}.

(** What [infer_causes] reads of an entry. *)
Definition baseline_user_of (u : user_entry) : baseline_user :=
  {| bu_name := entry_name u; bu_comparison := entry_comparison u |}.

Section UsersWithBaseline.
Context `{rt : PyBuiltins}.

(** [get_user_baseline(user_id, CHANNEL_ID, days=30)]: [None] when there
    is no history or the lookup fails. *)
Variable get_user_baseline : pystr -> option user_baseline.

(** The body of the loop that fills [users_with_baseline]; [None] is an
    exception of [compare_to_baseline]. *)
Definition add_user (real_messages : list enriched) (users : option (list user_entry))
    (msg : enriched) : option (list user_entry) :=
  users_with_baseline ← users;
  if existsb (fun u => eqb (entry_id u) (user_id msg)) users_with_baseline
  then Some users_with_baseline
  else
    let user_msg_count :=
      Z.of_nat (length (List.filter (fun m => eqb (user_id m) (user_id msg)) real_messages)) in
    match get_user_baseline (user_id msg) with
    | Some user_baseline0 =>
      c ← compare_to_baseline (PInt user_msg_count) (avg_messages_per_day user_baseline0);
      Some (users_with_baseline ++
            [{| entry_id := user_id msg; entry_name := user_name msg;
                messages_today := user_msg_count;
                baseline := Some user_baseline0; entry_comparison := c |}])
    | None =>
      Some (users_with_baseline ++
            [{| entry_id := user_id msg; entry_name := user_name msg;
                messages_today := user_msg_count;
                baseline := None; entry_comparison := no_comparison |}])
    end.

Definition build_users_with_baseline (real_messages : list enriched)
    : option (list user_entry) :=
  fold_left (add_user real_messages) real_messages (Some []).

End UsersWithBaseline.

(** ** main.py: analyze_capacity_per_person *)

(** [users_info(user=member_id)['user']]: the keys read here. *)
Record member_info := {
  is_bot : bool;
  deleted : bool;
  real_name : option pystr
}.

Record capacity := {
  capacity_name : pystr;
  carga : pystr;
  disponibilidad : pystr;
  bloqueadores : list pystr;
  puede_liberarse : pystr;
  capacity_messages_today : Z
}.

Definition capacity_blocker_keywords : list pystr :=
  [py "bloqueado"; py "blocked"; py "esperando"; py "waiting"; py "stuck"; py "no puedo"].

(** [carga]. *)
Definition carga_of (today : Z) (b : option user_baseline) (c : comparison)
    : option pystr :=
  if today =? 0 then Some (py "⚪ SIN ACTIVIDAD - No participó hoy")
  else
    match b with
    | Some b0 =>
      if has_baseline c then
        high ← py_mul (avg_messages_per_day b0) (PFloat 1.5);
        if py_gt (PInt today) high
        then Some (py "🔴 ALTA - Actividad significativamente elevada")
        else
          low ← py_mul (avg_messages_per_day b0) (PFloat 0.5);
          Some (if py_lt (PInt today) low
                then py "🟢 BAJA - Actividad reducida"
                else py "🟡 NORMAL - Dentro del rango habitual")
      else Some (py "❓ DESCONOCIDA - Sin histórico")
    | None => Some (py "❓ DESCONOCIDA - Sin histórico")
    end.

(** [disponibilidad]. *)
Definition disponibilidad_of (today : Z) (c : comparison) : pystr :=
  if today =? 0 then
    if has_baseline c then py "❓ AUSENTE HOY - Verificar disponibilidad"
    else py "❓ SIN DATOS - Usuario nuevo o inactivo"
  else if eqb (direction c) (py "por debajo") && py_gt (diff_percentage c) (PInt 40)
  then py "✅ PUEDE TOMAR MÁS - Actividad muy por debajo del promedio"
  else if eqb (direction c) (py "por encima") && py_gt (diff_percentage c) (PInt 40)
  then py "❌ NO PUEDE TOMAR MÁS - Ya sobrecargado"
  else py "⚠️ CAPACIDAD LIMITADA - En su nivel normal".

(** [puede_liberarse]. *)
Definition puede_liberarse_of (today : Z) (found : list pystr) : pystr :=
  if today =? 0 then py "✅ DISPONIBLE - Sin actividad detectada"
  else match found with
       | _ :: _ => py "❌ NO - Tiene bloqueadores activos"
       | [] =>
         if today <? 3 then py "✅ SÍ - Baja actividad, puede reasignarse"
         else py "⚠️ POSIBLE - Depende de prioridades"
       end.

Section Capacity.
Context `{rt : PyBuiltins}.

(** [slack_client.conversations_members(...)['members']],
    [slack_client.users_info(user=...)['user']] and
    [get_user_baseline]; [None] when they raise (or, for the last one,
    find nothing). *)
Variable conversations_members : option (list pystr).
Variable users_info : pystr -> option member_info.
Variable get_user_baseline : pystr -> option user_baseline.

(** The texts of the member in which a blocker keyword occurs, cut to
    100 characters. *)
Definition bloqueadores_of (enriched_messages : list enriched) (name0 : pystr)
    : list pystr :=
  List.map (fun m => str_prefix 100 (text m))
    (List.filter (fun m => eqb (user_name m) name0 &&
                           any_in capacity_blocker_keywords (lower (text m)))
                 enriched_messages).

(** [{u['id']: u for u in users_with_baseline}]. *)
Definition active_users_of (users_with_baseline : list user_entry)
    : gmap pystr user_entry :=
  fold_left (fun d u => <[entry_id u := u]> d) users_with_baseline ∅.

(** The numbers the entry of a member is computed from. *)
Definition member_activity (active : gmap pystr user_entry) (member_id : pystr)
    : option (Z * option user_baseline * comparison) :=
  match active !! member_id with
  | Some user_info => Some (messages_today user_info, baseline user_info,
                            entry_comparison user_info)
  | None =>
    match get_user_baseline member_id with
    | Some b =>
      c ← compare_to_baseline (PInt 0) (avg_messages_per_day b);
      Some (0, Some b, c)
    | None => Some (0, None, no_comparison)
    end
  end.

(** The entry of a member who is neither a bot nor deleted. *)
Definition member_capacity (enriched_messages : list enriched)
    (active : gmap pystr user_entry) (member_id name0 : pystr) : option capacity :=
  '(today, b, c) ← member_activity active member_id;
  load ← carga_of today b c;
  let found := bloqueadores_of enriched_messages name0 in
  Some {| capacity_name := name0;
          carga := load;
          disponibilidad := disponibilidad_of today c;
          bloqueadores := match found with
                          | [] => [py "Ninguno detectado"]
                          | _ => firstn 3 found
                          end;
          puede_liberarse := puede_liberarse_of today found;
          capacity_messages_today := today |}.

(** The body of the loop over the member ids. *)
Definition add_member (enriched_messages : list enriched)
    (active : gmap pystr user_entry) (analysis : option (gmap pystr capacity))
    (member_id : pystr) : option (gmap pystr capacity) :=
  capacity_analysis ← analysis;
  match users_info member_id with
  | Some user_data =>
    if is_bot user_data || deleted user_data then Some capacity_analysis
    else
      entry ← member_capacity enriched_messages active member_id
                (default member_id (real_name user_data));
      Some (<[member_id := entry]> capacity_analysis)
  | None =>
    entry ← member_capacity enriched_messages active member_id member_id;
    Some (<[member_id := entry]> capacity_analysis)
  end.

Definition analyze_capacity_per_person (enriched_messages : list enriched)
    (users_with_baseline : list user_entry) : option (gmap pystr capacity) :=
  let all_member_ids :=
    default (List.map entry_id users_with_baseline) conversations_members in
  fold_left (add_member enriched_messages (active_users_of users_with_baseline))
            all_member_ids (Some ∅).

(** *** The inactive users of analyze_with_claude *)

Record inactive_user := {
  inactive_name : pystr;
  inactive_razon : pystr
}.

(** The loop over [capacity_analysis.items()]: the entry of a member
    without messages, keyed by the member. *)
Definition inactive_users (capacity_analysis : gmap pystr capacity)
    (inferred_causes : gmap pystr cause) : gmap pystr inactive_user :=
  map_imap (fun member_id user_data =>
              if capacity_messages_today user_data =? 0 then
                Some {| inactive_name := capacity_name user_data;
                        inactive_razon :=
                          match inferred_causes !! member_id with
                          | Some c => causa_inferida c
                          | None => py "Razón desconocida"
                          end |}
              else None)
           capacity_analysis.

(** The statements of [analyze_with_claude] that lead from the messages
    it kept to the list of inactive users. *)
Definition team_inactive_users (real_messages : list enriched)
    : option (gmap pystr inactive_user) :=
  users_with_baseline ← build_users_with_baseline get_user_baseline real_messages;
  let participation_quality := analyze_participation_quality real_messages in
  let inferred_causes :=
    infer_causes real_messages participation_quality
      (List.map baseline_user_of users_with_baseline) in
  capacity_analysis ← analyze_capacity_per_person real_messages users_with_baseline;
  Some (inactive_users capacity_analysis inferred_causes).

End Capacity.

(** ** main.py: extract_project_progress *)

Definition objetivo_keywords : list pystr :=
  [py "objetivo"; py "meta"; py "goal"; py "target"; py "milestone"].

Definition deadline_keywords : list pystr :=
  [py "deadline"; py "fecha límite"; py "entrega"; py "due date"].

Definition deviation_words : list pystr :=
  [py "porque"; py "debido a"; py "por"; py "retraso por"; py "bloqueado por"].

Definition deviation_negatives : list pystr :=
  [py "retraso"; py "problema"; py "bloqueado"].

(** The four locals of the loop. *)
Record progress_state := {
  objetivo_mencionado : option pystr;
  progreso_actual : option pystr;
  tiempo_estimado : option pystr;
  razon_desviacion : option pystr
}.

Record project_progress := {
  progress_objetivo : option pystr;
  progress_actual : pystr;
  progress_tiempo : option pystr;
  progress_razon : option pystr
}.

(** [int(x)] on a float: [OverflowError] on an infinity, [ValueError]
    on a NaN. *)
Definition py_int_of_float (x : float) : option Z :=
  match Prim2SF x with
  | S754_zero _ => Some 0
  | S754_finite _ _ _ => Some (float_trunc x)
  | _ => None
  end.

(** The longest prefix of [s] whose characters are in the class [cls],
    and what follows it. *)
Fixpoint span (cls : N -> bool) (s : pystr) : pystr * pystr :=
  match s with
  | [] => ([], [])
  | c :: r => if cls c then (c :: fst (span cls r), snd (span cls r)) else ([], s)
  end.

Section ProjectProgress.
Context `{rt : PyBuiltins}.

(** The classes [\d] and [\s] of the [re] module on a [str] pattern
    (Unicode decimal digits and Unicode whitespace, which share no
    character and contain none of [%], [d] and [e]), and [int] on a
    non-empty string of decimal digits ([None] when it raises). *)
Variable is_decimal : N -> bool.
Variable is_whitespace : N -> bool.
Variable int_of_digits : pystr -> option Z.

(** A match of [(\d+)%] that starts at the head of [s], with its group.
    The greedy [\d+] takes the whole run of digits; giving digits back
    cannot help, since the character that would have to be [%] is then a
    digit. *)
Definition match_percent (s : pystr) : option pystr :=
  match span is_decimal s with
  | (d :: ds, 37%N :: _) => Some (d :: ds)
  | _ => None
  end.

(** [re.search(r'(\d+)%', s)]: the match at the leftmost position that
    has one. *)
Fixpoint search_percent (s : pystr) : option pystr :=
  match match_percent s with
  | Some g => Some g
  | None =>
    match s with
    | [] => None
    | _ :: r => search_percent r
    end
  end.

(** A match of [(\d+)\s+de\s+(\d+)] that starts at the head of [s],
    with its two groups. Each greedy run is followed by a character
    outside of its class, so that here too backtracking changes
    nothing. *)
Definition match_fraction (s : pystr) : option (pystr * pystr) :=
  match span is_decimal s with
  | (d :: ds, rest1) =>
    match span is_whitespace rest1 with
    | (_ :: _, 100%N :: 101%N :: rest2) =>
      match span is_whitespace rest2 with
      | (_ :: _, rest3) =>
        match span is_decimal rest3 with
        | (e :: es, _) => Some (d :: ds, e :: es)
        | _ => None
        end
      | _ => None
      end
    | _ => None
    end
  | _ => None
  end.

(** [re.search(r'(\d+)\s+de\s+(\d+)', s)]. *)
Fixpoint search_fraction (s : pystr) : option (pystr * pystr) :=
  match match_fraction s with
  | Some g => Some g
  | None =>
    match s with
    | [] => None
    | _ :: r => search_fraction r
    end
  end.

(** [f"{num}/{den} ({int(num/den*100)}%)"]: [None] is the
    [ValueError] of [int] on a group, the [ZeroDivisionError] or the
    [OverflowError] of the division, or the [OverflowError] of [int] on
    the product. *)
Definition fraction_progress (groups : pystr * pystr) : option pystr :=
  num ← int_of_digits (fst groups);
  den ← int_of_digits (snd groups);
  ratio ← py_int_truediv num den;
  percent ← py_int_of_float (ratio * 100)%float;
  Some (str_of_Z num ++ py "/" ++ str_of_Z den ++ py " (" ++ str_of_Z percent ++ py "%)").

(** The body of the loop over the messages and the updates. *)
Definition progress_step (st : progress_state) (msg : scanned) : option progress_state :=
  let t := sc_text msg in
  let objetivo :=
    if any_in objetivo_keywords (lower t) then Some (str_prefix 150 t)
    else objetivo_mencionado st in
  let progreso :=
    match search_percent t with
    | Some g => Some (g ++ py "%")
    | None => progreso_actual st
    end in
  progreso' ← match search_fraction t with
              | Some groups => p ← fraction_progress groups; Some (Some p)
              | None => Some progreso
              end;
  let tiempo :=
    if any_in deadline_keywords (lower t) then Some (str_prefix 150 t)
    else tiempo_estimado st in
  let razon :=
    if any_in deviation_words (lower t) && any_in deviation_negatives (lower t)
    then Some (str_prefix 150 t)
    else razon_desviacion st in
  Some {| objetivo_mencionado := objetivo; progreso_actual := progreso';
          tiempo_estimado := tiempo; razon_desviacion := razon |}.

Fixpoint progress_loop (msgs : list scanned) (st : progress_state)
    : option progress_state :=
  match msgs with
  | [] => Some st
  | msg :: rest => st' ← progress_step st msg; progress_loop rest st'
  end.

(** [None] when the loop raises: the function has no [try]. *)
Definition extract_project_progress (enriched_messages : list enriched)
    (updates : list update) : option project_progress :=
  st ← progress_loop
         (List.map scanned_of_message enriched_messages ++
          List.map scanned_of_update updates)
         {| objetivo_mencionado := None; progreso_actual := None;
            tiempo_estimado := None; razon_desviacion := None |};
  Some {| progress_objetivo := objetivo_mencionado st;
          progress_actual := default (py "No especificado") (progreso_actual st);
          progress_tiempo := tiempo_estimado st;
          progress_razon := razon_desviacion st |}.

End ProjectProgress.

(** ** A small runtime for closed examples

    An instance of [PyBuiltins] that agrees with CPython on the inputs it
    is used with below: text in the Basic Latin and Latin-1 blocks, plain
    decimal numerals, floats that are small integers, and lists of
    [int]s with an integral mean and a deviation that is an integer. On
    other lists the two statistics give up with [None]. *)

Definition latin1_lower_char (c : N) : N :=
  if ((65 <=? c) && (c <=? 90))%N then (c + 32)%N
  else if ((192 <=? c) && (c <=? 222) && negb (c =? 215))%N then (c + 32)%N
  else c.

Definition ascii_isdigit (s : pystr) : bool :=
  negb (bool_decide (s = [])) && forallb (fun c => (48 <=? c) && (c <=? 57))%N s.

(** Digits of an unsigned decimal numeral [ddd] or [ddd.ddd]: the
    integer read without the point, and the number of decimals. *)
Fixpoint read_decimal (s : pystr) (acc : Z) (decimals : option nat) : option (Z * nat) :=
  match s with
  | [] => Some (acc, default 0%nat decimals)
  | c :: r =>
    if (c =? 46)%N then
      match decimals with
      | None => read_decimal r acc (Some 0%nat)
      | Some _ => None
      end
    else if ((48 <=? c) && (c <=? 57))%N then
      read_decimal r (acc * 10 + Z.of_N (c - 48)) (S <$> decimals)
    else None
  end.

Definition decimal_float_of_str (s : pystr) : option float :=
  let '(neg, body) :=
    match s with
    | 45%N :: r => (true, r)
    | _ => (false, s)
    end in
  if ascii_isdigit (replace (py ".") [] body) then
    '(n, k) ← read_decimal body 0 None;
    Some (SF2Prim (SF_quotient neg n (10 ^ Z.of_nat k)))
  else None.

(** [repr] of a float that is a small integer. *)
Definition integral_float_repr (f : float) : pystr :=
  str_of_Z (float_trunc f) ++ py ".0".

(** Mean and sample standard deviation of a list of [int]s whose mean is
    an integer and whose variance is 0 or a perfect square. *)
Definition int_of (n : pynum) : option Z :=
  match n with
  | PInt z => Some z
  | PFloat _ => None
  end.

Fixpoint ints_of (l : list pynum) : option (list Z) :=
  match l with
  | [] => Some []
  | n :: r => z ← int_of n; zs ← ints_of r; Some (z :: zs)
  end.

Definition Zsum (l : list Z) : Z := fold_right Z.add 0 l.

Definition int_mean (l : list pynum) : option pynum :=
  zs ← ints_of l;
  let n := Z.of_nat (length zs) in
  if (0 <? n) && (Zsum zs mod n =? 0) then Some (PInt (Zsum zs / n)) else None.

Definition int_stdev (l : list pynum) : option pynum :=
  zs ← ints_of l;
  let n := Z.of_nat (length zs) in
  if (1 <? n) && (Zsum zs mod n =? 0) then
    let m := Zsum zs / n in
    let ss := Zsum (List.map (fun z => (z - m) * (z - m)) zs) in
    if (ss mod (n - 1) =? 0) && (Z.sqrt (ss / (n - 1)) * Z.sqrt (ss / (n - 1)) =? ss / (n - 1))
    then PFloat <$> float_of_int (Z.sqrt (ss / (n - 1)))
    else None
  else None.

Definition example_runtime : PyBuiltins :=
  {| lower := List.map latin1_lower_char;
     isdigit := ascii_isdigit;
     float_repr := integral_float_repr;
     float_of_str := decimal_float_of_str;
     float_sum := fun l => fold_left PrimFloat.add l 0%float;
     stats_mean := int_mean;
     stats_stdev := int_stdev |}.

(** A model that always asks for the sentiment tool. *)
Definition eager_model (conv : list turn) : option response :=
  Some {| stop_reason := py "tool_use";
          content := [ToolUseBlock (py "toolu_1") (py "analyze_sentiment") VDict] |}.

(** The digits and the blanks of the Basic Latin block, and [int] on a
    string of such digits. *)
Definition ascii_decimal (c : N) : bool := ((48 <=? c) && (c <=? 57))%N.

Definition ascii_whitespace (c : N) : bool :=
  ((c =? 32) || ((9 <=? c) && (c <=? 13)))%N.

Definition ascii_int_of_digits (s : pystr) : option Z :=
  if ascii_isdigit s then fst <$> read_decimal s 0 None else None.

(** * Properties *)

(** ** The markup substitution *)

Section Markup.

Local Abbreviation star := (42%N).

Lemma py_two_stars : py "**" = [star; star].
Proof. reflexivity. Qed.

Lemma py_one_star : py "*" = [star].
Proof. reflexivity. Qed.

Lemma py_three_stars : py "***" = [star; star; star].
Proof. reflexivity. Qed.

Lemma format_report_nil : format_report [] = [].
Proof. reflexivity. Qed.

Lemma format_report_pair (r : pystr) :
  format_report (star :: star :: r) = star :: format_report r.
Proof. reflexivity. Qed.

Lemma format_report_keep (c : N) (r : pystr) :
  starts_with [star; star] (c :: r) = false ->
  format_report (c :: r) = c :: format_report r.
Proof.
  intros Hs. unfold format_report, replace. rewrite py_two_stars, py_one_star.
  cbn [replace_from]. rewrite Hs. reflexivity.
Qed.

Lemma starts_with_pair_head (c : N) (r : pystr) :
  starts_with [star; star] (c :: r) = (star =? c)%N && bool_decide (head r = Some star).
Proof.
  cbn [starts_with]. destruct (star =? c)%N; [|reflexivity]. cbn [andb].
  destruct r as [|d r]; cbn [starts_with head].
  { symmetry. apply bool_decide_eq_false. discriminate. }
  rewrite andb_true_r.
  destruct (N.eqb_spec star d) as [<-|Hne].
  - symmetry. apply bool_decide_eq_true. reflexivity.
  - symmetry. apply bool_decide_eq_false. intros [= ->]. contradiction.
Qed.

(** The substitution never changes the first character. *)
Lemma format_report_head (s : pystr) : head (format_report s) = head s.
Proof.
  destruct s as [|c r]; [reflexivity|].
  destruct (starts_with [star; star] (c :: r)) eqn:Hs.
  - rewrite starts_with_pair_head in Hs. apply andb_true_iff in Hs as [Hc Hd].
    apply N.eqb_eq in Hc as <-. apply bool_decide_eq_true in Hd.
    destruct r as [|d r]; [discriminate|]. cbn in Hd. injection Hd as ->.
    reflexivity.
  - rewrite format_report_keep by assumption. reflexivity.
Qed.

Lemma contains_cons (p : pystr) (c : N) (s : pystr) :
  contains p (c :: s) = starts_with p (c :: s) || contains p s.
Proof. reflexivity. Qed.

(** Without three asterisks in a row, one pass leaves no pair. *)
Lemma format_report_no_pair (n : nat) :
  forall s : pystr, (length s <= n)%nat ->
    contains [star; star; star] s = false ->
    contains [star; star] (format_report s) = false.
Proof.
  induction n as [|n IH]; intros s Hlen Htriple.
  - destruct s; [reflexivity | cbn in Hlen; lia].
  - destruct s as [|c r]; [reflexivity|].
    rewrite contains_cons in Htriple. apply orb_false_iff in Htriple as [Hfront Hrest].
    destruct (starts_with [star; star] (c :: r)) eqn:Hs.
    + rewrite starts_with_pair_head in Hs. apply andb_true_iff in Hs as [Hc Hd].
      apply N.eqb_eq in Hc as <-. apply bool_decide_eq_true in Hd.
      destruct r as [|d r]; [discriminate|]. cbn in Hd. injection Hd as ->.
      rewrite format_report_pair, contains_cons.
      rewrite contains_cons in Hrest. apply orb_false_iff in Hrest as [_ Hrest].
      apply orb_false_iff. split.
      * rewrite starts_with_pair_head, format_report_head. cbn.
        apply bool_decide_eq_false. intros Hr.
        destruct r as [|e r]; [discriminate|]. cbn in Hr. injection Hr as ->.
        cbn in Hfront. discriminate.
      * apply IH; [cbn in Hlen; lia | exact Hrest].
    + rewrite format_report_keep by assumption. rewrite contains_cons.
      apply orb_false_iff. split.
      * rewrite starts_with_pair_head in *. rewrite format_report_head. exact Hs.
      * apply IH; [cbn in Hlen; lia | exact Hrest].
Qed.

(** A text without a pair of asterisks is left as it is. *)
Lemma format_report_fixed (s : pystr) :
  contains [star; star] s = false -> format_report s = s.
Proof.
  induction s as [|c r IH]; intros Hpair; [reflexivity|].
  rewrite contains_cons in Hpair. apply orb_false_iff in Hpair as [Hfront Hrest].
  rewrite format_report_keep by assumption. f_equal. apply IH, Hrest.
Qed.

(** C3 (as amended). For every report text that contains no three
    consecutive asterisks, substituting [**] by [*] twice gives the same
    text as substituting once. *)
Theorem format_report_idempotent_without_triple (report : pystr) :
  contains (py "***") report = false ->
  format_report (format_report report) = format_report report.
Proof.
  intros Htriple. apply format_report_fixed.
  apply (format_report_no_pair (length report)); [lia | exact Htriple].
Qed.

Lemma format_report_idempotent_without_triple_witness :
  contains (py "***") (py "**Estado**: *ok*") = false /\
  format_report (format_report (py "**Estado**: *ok*")) = format_report (py "**Estado**: *ok*").
Proof.
  split; [reflexivity|].
  apply (format_report_idempotent_without_triple (py "**Estado**: *ok*")).
  reflexivity.
Defined.

(** C3 (as stated) fails on three asterisks: the first pass leaves a
    pair, which the second pass replaces again. *)
Lemma format_report_not_idempotent :
  format_report (py "***") = py "**" /\
  format_report (format_report (py "***")) = py "*" /\
  format_report (format_report (py "***")) <> format_report (py "***").
Proof. repeat split. intros H. vm_compute in H. discriminate. Qed.

End Markup.

(** ** The sentiment scorer *)

Section Sentiment.
Context `{rt : PyBuiltins}.

Lemma first_in_any_in (kws : list pystr) (text : pystr) :
  any_in kws text = bool_decide (is_Some (first_in kws text)).
Proof.
  unfold any_in, first_in. induction kws as [|kw kws IH]; cbn [existsb List.find].
  - symmetry. apply bool_decide_eq_false. intros [? [=]].
  - destruct (contains kw text); cbn [orb].
    + symmetry. apply bool_decide_eq_true. eauto.
    + exact IH.
Qed.

Lemma scan_category_spec kws label bump text st :
  scan_category kws label bump text st =
  {| st_scores := if any_in kws text then bump (st_scores st) else st_scores st;
     st_detected := st_detected st ++ category_hit kws label text;
     has_sentiment := any_in kws text || has_sentiment st |}.
Proof.
  unfold scan_category, category_hit. rewrite first_in_any_in.
  destruct (first_in kws text) as [kw|]; cbn.
  - reflexivity.
  - rewrite app_nil_r. destruct st; reflexivity.
Qed.

Lemma sentiment_step_detected text st :
  st_detected (sentiment_step text st) = st_detected st ++ message_hits text.
Proof.
  unfold sentiment_step, message_hits. rewrite !scan_category_spec.
  generalize (category_hit frustration_keywords (py "frustración") text)
             (category_hit enthusiasm_keywords (py "entusiasmo") text)
             (category_hit concern_keywords (py "preocupación") text).
  intros hf he hc. cbn [st_detected has_sentiment st_scores].
  destruct (any_in frustration_keywords text), (any_in enthusiasm_keywords text),
    (any_in concern_keywords text); cbn [orb st_detected];
    rewrite <- ?app_assoc; reflexivity.
Qed.

Lemma sentiment_step_scores text st :
  st_scores (sentiment_step text st) =
  add_scores (st_scores st) (expected_breakdown [text]).
Proof.
  unfold sentiment_step, expected_breakdown, messages_with, is_neutral.
  rewrite !scan_category_spec. cbn [List.filter st_scores has_sentiment st_detected].
  destruct (st_scores st) as [f e c n].
  destruct (any_in frustration_keywords text), (any_in enthusiasm_keywords text),
    (any_in concern_keywords text);
    cbn [orb andb negb length st_scores has_sentiment];
    unfold bump_concern, bump_enthusiasm, bump_frustration, bump_neutral, add_scores;
    cbn; f_equal; lia.
Qed.

Lemma expected_breakdown_cons text texts :
  expected_breakdown (text :: texts) =
  add_scores (expected_breakdown [text]) (expected_breakdown texts).
Proof.
  unfold expected_breakdown, messages_with, add_scores.
  cbn [List.filter frustration enthusiasm concern neutral].
  destruct (any_in frustration_keywords text), (any_in enthusiasm_keywords text),
    (any_in concern_keywords text), (is_neutral text); cbn [length]; f_equal; lia.
Qed.

Lemma add_scores_assoc a b c : add_scores (add_scores a b) c = add_scores a (add_scores b c).
Proof. unfold add_scores; cbn; f_equal; lia. Qed.

Lemma add_scores_zero a : add_scores a (expected_breakdown []) = a.
Proof.
  destruct a. unfold add_scores, expected_breakdown, messages_with.
  cbn [List.filter length frustration enthusiasm concern neutral]. f_equal; lia.
Qed.

(** With a text for every message, the loop adds up what each text
    contributes. *)
Lemma sentiment_loop_texts (messages : list msg_item) :
  forall st texts,
    texts_of messages = Some texts ->
    exists st',
      sentiment_loop messages st = Some st' /\
      st_scores st' = add_scores (st_scores st) (expected_breakdown texts) /\
      st_detected st' = st_detected st ++ flat_map message_hits texts.
Proof.
  induction messages as [|msg rest IH]; intros st texts Htexts; cbn in *.
  - injection Htexts as <-. exists st. rewrite add_scores_zero, app_nil_r. auto.
  - destruct (sentiment_text msg) as [text|]; cbn in *; [|discriminate].
    destruct (texts_of rest) as [texts'|]; cbn in *; [|discriminate].
    injection Htexts as <-.
    destruct (IH (sentiment_step text st) texts' eq_refl) as (st' & Hloop & Hsc & Hdet).
    exists st'. split; [exact Hloop|]. split.
    + rewrite Hsc, sentiment_step_scores, add_scores_assoc, <- expected_breakdown_cons.
      reflexivity.
    + rewrite Hdet, sentiment_step_detected, <- app_assoc. reflexivity.
Qed.

(** Without a text for some message, the loop raises. *)
Lemma sentiment_loop_none (messages : list msg_item) :
  forall st, texts_of messages = None -> sentiment_loop messages st = None.
Proof.
  induction messages as [|msg rest IH]; intros st Hnone; cbn in *; [discriminate|].
  destruct (sentiment_text msg) as [text|]; cbn in *; [|reflexivity].
  apply IH. destruct (texts_of rest); [discriminate | reflexivity].
Qed.

End Sentiment.

(** ** Rounding a clamped score *)

Section Clamp.

Lemma round_half_even_bounds (n d bound : Z) :
  0 < d -> 0 <= n -> n < bound * d -> 0 <= round_half_even n d <= bound.
Proof.
  intros Hd Hn Hlt. unfold round_half_even.
  assert (0 <= n / d) by (apply Z.div_pos; lia).
  assert (n / d < bound) by (apply Z.div_lt_upper_bound; lia).
  destruct (2 * (n mod d) ?= d); [destruct (Z.even (n / d))| |]; lia.
Qed.

(** Every multiple of a tenth between 0 and 100, once rounded to a
    float, still lies between 0 and 100. *)
Lemma tenths_in_range (q : Z) :
  0 <= q <= 1000 -> in_0_100 (PFloat (SF2Prim (SF_quotient false q 10))) = true.
Proof.
  intros Hq.
  assert (Hall : forallb (fun k => in_0_100 (PFloat (SF2Prim (SF_quotient false (Z.of_nat k) 10))))
                         (seq 0 1001) = true) by (vm_compute; reflexivity).
  rewrite forallb_forall in Hall.
  specialize (Hall (Z.to_nat q)). rewrite Z2Nat.id in Hall by lia.
  apply Hall, in_seq. lia.
Qed.

(** A float strictly between 0 and 100 rounds, at one decimal, to a
    float between 0 and 100. *)
Lemma float_round_in_range (x : float) :
  py_lt (PInt 0) (PFloat x) = true ->
  py_lt (PFloat x) (PInt 100) = true ->
  in_0_100 (PFloat (float_round x 1)) = true.
Proof.
  unfold py_lt, float_round, float_compare_int. cbn [Nat.ltb Nat.leb].
  intros Hpos Hlt.
  assert (Hself : in_0_100 (PFloat x) = true).
  { unfold in_0_100, py_le, float_compare_int.
    destruct (SF_compare_Z (Prim2SF x) 0) as [[]|]; try discriminate.
    destruct (SF_compare_Z (Prim2SF x) 100) as [[]|]; try discriminate.
    reflexivity. }
  destruct (Prim2SF x) as [s|s| |s m e] eqn:Hx; try exact Hself.
  destruct e as [|e|k]; try exact Hself.
  destruct s.
  - cbn [SF_compare_Z] in Hpos.
    rewrite Z.mul_0_l in Hpos. discriminate.
  - apply tenths_in_range. cbn [SF_compare_Z] in Hlt.
    destruct (Z.pos m ?= 100 * 2 ^ Z.pos k) eqn:Hc; try discriminate.
    change (Z.pos m < 100 * 2 ^ Z.pos k) in Hc. clear Hpos Hlt Hself Hx.
    change (10 ^ Z.of_nat 1) with 10.
    assert (0 < 2 ^ Z.pos k) by (apply Z.pow_pos_nonneg; lia).
    apply round_half_even_bounds; lia.
Qed.

(** The clamp [max(0, min(100, x))] yields the [int] 0, the [int] 100,
    or [x] itself when it is strictly between them. *)
Lemma clamp_cases (x : float) :
  let c := py_max2 (PInt 0) (py_min2 (PInt 100) (PFloat x)) in
  c = PInt 0 \/ c = PInt 100 \/
  (c = PFloat x /\ py_lt (PInt 0) (PFloat x) = true /\ py_lt (PFloat x) (PInt 100) = true).
Proof.
  cbn zeta. unfold py_max2, py_min2, py_gt.
  destruct (py_lt (PFloat x) (PInt 100)) eqn:Hlt.
  - destruct (py_lt (PInt 0) (PFloat x)) eqn:Hpos; auto.
  - right; left. reflexivity.
Qed.

Lemma rounded_score_in_range (sc : sentiment_scores) (total_messages : Z) :
  in_0_100 (py_round (sentiment_score sc total_messages) 1) = true.
Proof.
  unfold sentiment_score. destruct (0 <? total_messages); [|reflexivity].
  destruct (clamp_cases (50 + int_truediv (enthusiasm sc - (frustration sc + concern sc))
                                          total_messages * 50)%float)
    as [-> | [-> | (-> & Hpos & Hlt)]]; try reflexivity.
  cbn [py_round]. apply float_round_in_range; assumption.
Qed.

End Clamp.

Section SentimentClaims.
Context `{rt : PyBuiltins}.

(** One message yields at most one pair per category, hence at most
    three. *)
Lemma message_hits_one_per_category (text : pystr) :
  NoDup (List.map fst (message_hits text)) /\ (length (message_hits text) <= 3)%nat.
Proof.
  unfold message_hits, category_hit.
  destruct (first_in frustration_keywords text), (first_in enthusiasm_keywords text),
    (first_in concern_keywords text); cbn [app List.map fst length];
    (split; [apply (bool_decide_unpack _); vm_compute; exact I | lia]).
Qed.

(** C2 (as amended). The three keyword sets are tested one after the
    other and independently of each other: within a category the first
    keyword found wins, so a message adds at most 1 to each of the
    frustration, enthusiasm and concern counters and at most one
    (category, keyword) pair per category, and it may do so in several
    categories at once. A message is neutral only when no category
    matched. When some message has no text the error result is returned. *)
Theorem analyze_sentiment_per_category (messages : list msg_item) :
  match texts_of messages with
  | Some texts =>
    sentiment_breakdown (analyze_sentiment messages) = Some (expected_breakdown texts) /\
    detected_keywords (analyze_sentiment messages) = firstn 10 (flat_map message_hits texts) /\
    Forall (fun text => NoDup (List.map fst (message_hits text)) /\
                        (length (message_hits text) <= 3)%nat) texts
  | None =>
    sentiment_breakdown (analyze_sentiment messages) = None /\
    detected_keywords (analyze_sentiment messages) = []
  end.
Proof.
  unfold analyze_sentiment.
  destruct messages as [|msg rest].
  { split; [reflexivity | split; [reflexivity | constructor]]. }
  set (messages := msg :: rest).
  replace (Z.of_nat (length messages) =? 0) with false
    by (symmetry; apply Z.eqb_neq; cbn; lia).
  destruct (texts_of messages) as [texts|] eqn:Htexts.
  - destruct (sentiment_loop_texts messages
                {| st_scores := no_scores; st_detected := []; has_sentiment := false |}
                texts Htexts) as (st' & -> & Hsc & Hdet).
    cbn [sentiment_breakdown detected_keywords]. rewrite Hsc, Hdet.
    split; [|split].
    + reflexivity.
    + reflexivity.
    + apply Forall_forall. intros text _. apply message_hits_one_per_category.
  - rewrite (sentiment_loop_none messages _ Htexts).
    cbn [sentiment_breakdown detected_keywords]. auto.
Qed.

(** C2 (as stated) fails: one message that contains a frustration
    keyword and an enthusiasm keyword raises both counters and yields a
    pair in each of the two categories. *)
Lemma analyze_sentiment_two_categories :
  let r := analyze_sentiment (rt := example_runtime) [MStr (py "frustrado pero listo")] in
  sentiment_breakdown r =
    Some {| frustration := 1; enthusiasm := 1; concern := 0; neutral := 0 |} /\
  detected_keywords r =
    [(py "frustración", py "frustrado"); (py "entusiasmo", py "listo")].
Proof. split; vm_compute; reflexivity. Qed.

(** C7. Whatever the messages, [overall_score] lies in [0, 100]. *)
Theorem analyze_sentiment_score_in_range (messages : list msg_item) :
  in_0_100 (overall_score (analyze_sentiment messages)) = true.
Proof.
  unfold analyze_sentiment.
  destruct (Z.of_nat (length messages) =? 0); [reflexivity|].
  destruct (sentiment_loop messages _); [|reflexivity].
  cbn [overall_score]. apply rounded_score_in_range.
Qed.

End SentimentClaims.

(** ** The blocker detector on the review scenario *)

Section BlockerScenario.
Context `{rt : PyBuiltins}.

(** C4 (as amended). On the two messages of the scenario, whatever
    their other fields, [detect_blockers] returns exactly one blocker
    record, for the first message, and no unblocker record: none of the
    unblock keywords occurs in either text. *)
Theorem detect_blockers_review_scenario (u1 s1 u2 s2 : option pyval) :
  lower (py "I'm blocked waiting for review") = py "i'm blocked waiting for review" ->
  lower (py "I'll take care of it, unblocking you now") =
    py "i'll take care of it, unblocking you now" ->
  detect_blockers
    [MDict (Some (VStr (py "I'm blocked waiting for review"))) u1 s1;
     MDict (Some (VStr (py "I'll take care of it, unblocking you now"))) u2 s2] =
  {| total_blockers := 1;
     blockers := [{| who_is_blocked := get_default u1 (VStr (py "Unknown"));
                     reason := py "i'm blocked waiting for review";
                     blocked_by := py "Esperando respuesta externa";
                     timestamp := get_default s1 (VStr (py "unknown")) |}];
     unblockers := [] |}.
Proof.
  intros Hl1 Hl2.
  unfold detect_blockers, blocker_pass, unblocker_pass, dict_text.
  cbn [get_default]. rewrite Hl1, Hl2.
  vm_compute. reflexivity.
Qed.

End BlockerScenario.

Lemma detect_blockers_review_scenario_witness :
  detect_blockers (rt := example_runtime)
    [MDict (Some (VStr (py "I'm blocked waiting for review")))
           (Some (VStr (py "Ana"))) (Some (VStr (py "1700000000.000100")));
     MDict (Some (VStr (py "I'll take care of it, unblocking you now")))
           (Some (VStr (py "Luis"))) (Some (VStr (py "1700000001.000200")))] =
  {| total_blockers := 1;
     blockers := [{| who_is_blocked := VStr (py "Ana");
                     reason := py "i'm blocked waiting for review";
                     blocked_by := py "Esperando respuesta externa";
                     timestamp := VStr (py "1700000000.000100") |}];
     unblockers := [] |}.
Proof.
  apply (detect_blockers_review_scenario (rt := example_runtime)
           (Some (VStr (py "Ana"))) (Some (VStr (py "1700000000.000100")))
           (Some (VStr (py "Luis"))) (Some (VStr (py "1700000001.000200"))));
    reflexivity.
Defined.

(** C4 (as stated) fails: the scenario yields one blocker and zero
    unblocker records, not one. *)
Lemma detect_blockers_review_no_unblocker :
  let r := detect_blockers (rt := example_runtime)
             [MDict (Some (VStr (py "I'm blocked waiting for review")))
                    (Some (VStr (py "Ana"))) (Some (VStr (py "1700000000.000100")));
              MDict (Some (VStr (py "I'll take care of it, unblocking you now")))
                    (Some (VStr (py "Luis"))) (Some (VStr (py "1700000001.000200")))] in
  length (blockers r) = 1%nat /\ length (unblockers r) = 0%nat /\
  length (unblockers r) <> 1%nat.
Proof. vm_compute. repeat split. discriminate. Qed.

(** ** The tool-use loop *)

Section RoundLimit.
Context `{rt : PyBuiltins}.
Variable model_call : list turn -> option response.
Variable process_tool_call : pystr -> pyval -> pystr.
Variable channel_info : option pystr.
Variable channel_members : option (list pystr).

Local Abbreviation loop := (agent_loop model_call process_tool_call).

(** The loop ends by its own test: past [max_iterations - iteration]
    unfoldings, more fuel changes nothing. *)
Lemma agent_loop_fuel (n : nat) :
  forall fuel st,
    (max_iterations - iteration st <= n)%nat -> (n <= fuel)%nat ->
    loop fuel st = loop n st.
Proof.
  induction n as [|n IH]; intros fuel st Hleft Hfuel.
  - assert (Hdone : (iteration st <? max_iterations)%nat = false)
      by (apply Nat.ltb_ge; lia).
    destruct fuel; cbn [agent_loop]; [reflexivity | rewrite Hdone; reflexivity].
  - destruct fuel as [|fuel]; [lia|]. cbn [agent_loop].
    destruct (iteration st <? max_iterations)%nat eqn:Hgo; [|reflexivity].
    destruct (model_call (conversation st)) as [r|]; [|reflexivity].
    destruct (eqb (stop_reason r) (py "tool_use")); [|reflexivity].
    apply IH; cbn [iteration]; lia.
Qed.

(** Every iteration sends exactly one request, and there are never more
    than [max_iterations] of them. *)
Lemma agent_loop_requests (fuel : nat) :
  forall st,
    (iteration st <= max_iterations)%nat ->
    length (requests st) = iteration st ->
    let st' := snd (loop fuel st) in
    (iteration st' <= max_iterations)%nat /\ length (requests st') = iteration st'.
Proof.
  induction fuel as [|fuel IH]; intros st Hle Hlen; cbn [agent_loop]; [cbn; auto|].
  destruct (iteration st <? max_iterations)%nat eqn:Hgo; [|cbn; auto].
  apply Nat.ltb_lt in Hgo.
  assert (Hlen1 : length (requests st ++ [conversation st]) = S (iteration st))
    by (rewrite length_app; cbn; lia).
  destruct (model_call (conversation st)) as [r|]; [|cbn; split; [lia | exact Hlen1]].
  destruct (eqb (stop_reason r) (py "tool_use")).
  - apply IH; cbn; [lia | exact Hlen1].
  - destruct (eqb (stop_reason r) (py "end_turn")); cbn; (split; [lia | exact Hlen1]).
Qed.

(** A model that asks for tools every time is called until the limit,
    and no report comes out. *)
Lemma agent_loop_tool_use_forever (fuel : nat) :
  (forall conv, exists r, model_call conv = Some r /\ stop_reason r = py "tool_use") ->
  forall st,
    (iteration st <= max_iterations)%nat ->
    (max_iterations - iteration st <= fuel)%nat ->
    fst (loop fuel st) = None /\ iteration (snd (loop fuel st)) = max_iterations.
Proof.
  intros Htool. induction fuel as [|fuel IH]; intros st Hle Hfuel; cbn [agent_loop].
  - cbn. split; [reflexivity | lia].
  - destruct (iteration st <? max_iterations)%nat eqn:Hgo.
    + apply Nat.ltb_lt in Hgo.
      destruct (Htool (conversation st)) as (r & -> & Hstop).
      unfold eqb at 1. rewrite Hstop, bool_decide_eq_true_2 by reflexivity.
      apply IH; cbn [iteration]; lia.
    + apply Nat.ltb_ge in Hgo. cbn. split; [reflexivity | lia].
Qed.

(** C8. The loop sends at most 10 requests to the model, whatever the
    model answers, and unfolding it further than 10 times changes
    nothing. If the model answers every request with a tool-use request,
    the run returns no report, after exactly 10 requests when there is a
    message to analyse (and none when there is not). *)
Theorem run_agentic_analysis_round_limit (enriched_messages : list enriched) :
  let out := run_agentic_analysis model_call process_tool_call channel_info
               channel_members enriched_messages in
  (length (requests (snd out)) <= 10)%nat /\
  (forall fuel st, (10 <= fuel)%nat -> loop fuel st = loop (10 - iteration st) st) /\
  ((forall conv, exists r, model_call conv = Some r /\ stop_reason r = py "tool_use") ->
   fst out = None /\
   (List.filter is_real_message enriched_messages <> [] ->
    length (requests (snd out)) = 10%nat)).
Proof.
  cbn zeta. unfold run_agentic_analysis.
  set (real := List.filter is_real_message enriched_messages).
  set (st0 := {| iteration := 0; conversation := [UserPrompt (initial_prompt channel_info
                   channel_members real)]; requests := [] |}).
  assert (Hinv := agent_loop_requests max_iterations st0 (Nat.le_0_l _) eq_refl).
  cbn zeta in Hinv. destruct Hinv as [Hle Hlen].
  split; [|split].
  - destruct real; [cbn; lia|]. fold st0. rewrite Hlen. exact Hle.
  - intros fuel st Hfuel. apply agent_loop_fuel; unfold max_iterations; lia.
  - intros Htool.
    destruct (agent_loop_tool_use_forever max_iterations Htool st0) as [Hnone Hiter];
      [unfold st0, max_iterations; cbn [iteration]; lia
      |unfold st0, max_iterations; cbn [iteration]; lia |].
    destruct real; [split; [reflexivity | congruence]|].
    fold st0. split; [exact Hnone|]. intros _. rewrite Hlen. exact Hiter.
Qed.

End RoundLimit.

Lemma run_agentic_analysis_round_limit_witness :
  let msgs := [{| user_id := py "U1"; user_name := py "Ana";
                  text := py "El deploy sigue bloqueado"; ts := py "1700000000.000100" |}] in
  let out := run_agentic_analysis (rt := example_runtime) eager_model
               (fun _ _ => py "{}") None None msgs in
  fst out = None /\ length (requests (snd out)) = 10%nat.
Proof.
  cbn zeta.
  destruct (run_agentic_analysis_round_limit (rt := example_runtime) eager_model
              (fun _ _ => py "{}") None None
              [{| user_id := py "U1"; user_name := py "Ana";
                  text := py "El deploy sigue bloqueado"; ts := py "1700000000.000100" |}])
    as (_ & _ & Htool).
  destruct Htool as [Hnone Hten].
  - intros conv. eexists. split; reflexivity.
  - split; [exact Hnone|]. apply Hten. vm_compute. discriminate.
Defined.

(** ** The workload component of the team health *)

Section Workload.
Context `{rt : PyBuiltins}.

(** The list that survives the filter has as many elements as there
    are entries not dropped: a non-numeric entry became 0 and stays. *)
Lemma convert_entries_kept (l : list pyval) :
  forall converted,
    convert_entries l = Some converted ->
    length (List.filter (fun x => py_ge x (PInt 0)) converted) = kept_entries l.
Proof.
  unfold kept_entries.
  induction l as [|x r IH]; intros converted Hconv; cbn in Hconv.
  - injection Hconv as <-. reflexivity.
  - apply bind_Some in Hconv as (v & Hv & Hconv).
    apply bind_Some in Hconv as (vs & Hvs & Hconv).
    injection Hconv as <-. cbn [List.filter]. specialize (IH vs Hvs).
    assert (Hx : py_ge v (PInt 0) = negb (dropped_entry x)).
    { unfold convert_entry in Hv. unfold dropped_entry.
      destruct (numeric_looking x); cbn [andb negb].
      - destruct (py_float x) as [f|]; [|discriminate]. injection Hv as <-.
        symmetry. apply negb_involutive.
      - injection Hv as <-. reflexivity. }
    rewrite Hx. destruct (negb (dropped_entry x)); cbn [length]; rewrite IH; reflexivity.
Qed.

Lemma workload_default (mpu : option pyval) (w : pynum) :
  workload mpu = Some w ->
  (kept_entries (entries_of mpu) < 2)%nat ->
  w = PInt 50.
Proof.
  unfold workload. intros Hw Hkept.
  destruct (1 <? length (entries_of mpu))%nat; [|congruence].
  apply bind_Some in Hw as (converted & Hconv & Hw).
  rewrite (convert_entries_kept _ _ Hconv) in Hw.
  replace (1 <? kept_entries (entries_of mpu))%nat with false in Hw
    by (symmetry; apply Nat.ltb_ge; lia).
  congruence.
Qed.

Lemma calculate_team_health_workload (td : team_data) (c : health_components) :
  components (calculate_team_health td) = Some c ->
  workload (td_messages_per_user td) = Some (workload_distribution c).
Proof.
  unfold calculate_team_health. intros Hc.
  destruct (calculate_team_health_body td) as [r|] eqn:Hbody; [|discriminate].
  unfold calculate_team_health_body in Hbody.
  apply bind_Some in Hbody as (part & _ & Hbody).
  apply bind_Some in Hbody as (collab & _ & Hbody).
  apply bind_Some in Hbody as (work & Hwork & Hbody).
  apply bind_Some in Hbody as (block & _ & Hbody).
  apply bind_Some in Hbody as (p1 & _ & Hbody).
  apply bind_Some in Hbody as (p2 & _ & Hbody).
  apply bind_Some in Hbody as (p3 & _ & Hbody).
  apply bind_Some in Hbody as (p4 & _ & Hbody).
  apply bind_Some in Hbody as (s & _ & Hbody).
  apply bind_Some in Hbody as (p5 & _ & Hbody).
  destruct (health_status _) as [st em]. injection Hbody as <-.
  cbn in Hc. injection Hc as <-. exact Hwork.
Qed.

(** C1 (as amended). Whenever [calculate_team_health] returns its
    components (it did not end in its error handler), the
    workload-distribution component is exactly 50 if fewer than 2 entries
    of [messages_per_user] are left by the filter. The filter only drops
    the entries that look numeric and convert to a negative number or a
    NaN; an entry that is not numeric is replaced by 0 and kept. *)
Theorem calculate_team_health_workload_default (td : team_data) (c : health_components) :
  components (calculate_team_health td) = Some c ->
  (kept_entries (entries_of (td_messages_per_user td)) < 2)%nat ->
  workload_distribution c = PInt 50.
Proof.
  intros Hc Hkept.
  apply (workload_default (td_messages_per_user td)); [|exact Hkept].
  apply calculate_team_health_workload, Hc.
Qed.

End Workload.

Lemma calculate_team_health_workload_default_witness :
  let td := {| td_total_members := Some (VNum (PInt 10));
               td_active_members := Some (VNum (PInt 8));
               td_total_messages := Some (VNum (PInt 50));
               td_collaborative_messages := Some (VNum (PInt 20));
               td_messages_per_user := Some (VList [VNum (PInt 5); VNum (PInt (-3))]);
               td_total_blockers := Some (VNum (PInt 2));
               td_sentiment_score := Some (VNum (PInt 65)) |} in
  let c := {| participation := PFloat 80; collaboration := PFloat 40;
              workload_distribution := PInt 50; blockers_component := PInt 70;
              sentiment := VNum (PInt 65) |} in
  components (calculate_team_health (rt := example_runtime) td) = Some c /\
  (kept_entries (rt := example_runtime) (entries_of (td_messages_per_user td)) < 2)%nat /\
  workload_distribution c = PInt 50.
Proof.
  cbn zeta.
  assert (Hc : components (calculate_team_health (rt := example_runtime)
            {| td_total_members := Some (VNum (PInt 10));
               td_active_members := Some (VNum (PInt 8));
               td_total_messages := Some (VNum (PInt 50));
               td_collaborative_messages := Some (VNum (PInt 20));
               td_messages_per_user := Some (VList [VNum (PInt 5); VNum (PInt (-3))]);
               td_total_blockers := Some (VNum (PInt 2));
               td_sentiment_score := Some (VNum (PInt 65)) |}) =
          Some {| participation := PFloat 80; collaboration := PFloat 40;
                  workload_distribution := PInt 50; blockers_component := PInt 70;
                  sentiment := VNum (PInt 65) |}) by (vm_compute; reflexivity).
  assert (Hk : (kept_entries (rt := example_runtime)
                  [VNum (PInt 5); VNum (PInt (-3))] < 2)%nat) by (vm_compute; lia).
  exact (conj Hc (conj Hk
           (calculate_team_health_workload_default (rt := example_runtime) _ _ Hc Hk))).
Defined.

(** C1 (as stated) fails: two entries that are not numbers are not
    filtered out but counted as two zeros, and the component is 100. *)
Lemma calculate_team_health_non_numeric_entries :
  let td := {| td_total_members := Some (VNum (PInt 10));
               td_active_members := Some (VNum (PInt 8));
               td_total_messages := Some (VNum (PInt 50));
               td_collaborative_messages := Some (VNum (PInt 20));
               td_messages_per_user := Some (VList [VStr (py "abc"); VNone]);
               td_total_blockers := Some (VNum (PInt 2));
               td_sentiment_score := Some (VNum (PInt 65)) |} in
  valid_counts (rt := example_runtime) (entries_of (td_messages_per_user td)) = 0%nat /\
  components (calculate_team_health (rt := example_runtime) td) =
    Some {| participation := PFloat 80; collaboration := PFloat 40;
            workload_distribution := PInt 100; blockers_component := PInt 70;
            sentiment := VNum (PInt 65) |}.
Proof. split; vm_compute; reflexivity. Qed.

(** ** The project-health scorer *)

Section ProjectHealthClaims.
Context `{rt : PyBuiltins}.

Lemma signals_of_length (kws : list pystr) (msg : scanned) :
  length (signals_of kws msg) = hits kws (sc_text msg).
Proof. unfold signals_of, hits. apply length_map. Qed.

Lemma flat_map_signals_length (kws : list pystr) (l : list scanned) :
  length (flat_map (signals_of kws) l) =
  list_sum (List.map (fun m => hits kws (sc_text m)) l).
Proof.
  induction l as [|m l IH]; [reflexivity|].
  cbn [flat_map List.map]. rewrite length_app, signals_of_length, IH. reflexivity.
Qed.

Lemma signal_count (kws : list pystr) (msgs : list enriched) (updates : list update) :
  length (flat_map (signals_of kws)
            (List.map scanned_of_message msgs ++ List.map scanned_of_update updates)) =
  list_sum (List.map (hits kws) (List.map text msgs ++ List.map upd_text updates)).
Proof.
  rewrite flat_map_signals_length, !List.map_app, !List.map_map. reflexivity.
Qed.

(** C6 (as amended). The numbers of positive and negative signals are
    the numbers of keyword hits over the texts of the messages and of
    the update records. With no signal the score is 75; otherwise it is
    [int(positives / total * 100)]: the floating-point product truncated
    toward zero, not rounded to the nearest integer. *)
Theorem analyze_project_health_score (msgs : list enriched) (updates : list update) :
  let r := analyze_project_health msgs updates in
  let texts := List.map text msgs ++ List.map upd_text updates in
  let positives := list_sum (List.map (hits positive_keywords) texts) in
  let negatives := list_sum (List.map (hits negative_keywords) texts) in
  length (señales_positivas r) = positives /\
  length (señales_negativas r) = negatives /\
  score r =
    if (positives + negatives =? 0)%nat then 75
    else float_trunc (int_truediv (Z.of_nat positives)
                                  (Z.of_nat (positives + negatives)) * 100)%float.
Proof.
  cbn zeta. unfold analyze_project_health. cbn [score señales_positivas señales_negativas].
  rewrite !signal_count. split; [reflexivity|]. split; [reflexivity|].
  unfold health_score_of. rewrite <- Nat2Z.inj_add.
  destruct (_ + _)%nat as [|total]; reflexivity.
Qed.

End ProjectHealthClaims.

(** C6 (as stated) fails: with two positive signals and one negative
    signal the product is 66.66..., which the code truncates to 66 while
    rounding to the nearest integer gives 67. *)
Lemma analyze_project_health_truncates :
  let msg t := {| user_id := py "U1"; user_name := py "Ana"; text := t;
                  ts := py "1700000000.000100" |} in
  let r := analyze_project_health (rt := example_runtime)
             [msg (py "listo"); msg (py "done"); msg (py "bug")] [] in
  length (señales_positivas r) = 2%nat /\ length (señales_negativas r) = 1%nat /\
  score r = 66 /\ score_as_specified 2 1 = 67.
Proof. vm_compute. repeat split. Qed.

(** ** Update records are scanned a second time *)

Section UpdatesTwice.
Context `{rt : PyBuiltins}.

Lemma insert_by_key_perm {A} (k : float) (x : A) (l : list (float * A)) :
  Permutation (insert_by_key k x l) ((k, x) :: l).
Proof.
  induction l as [|[k' y] l IH]; cbn; [reflexivity|].
  destruct (PrimFloat.ltb k' k); [|reflexivity].
  rewrite IH. apply perm_swap.
Qed.

Lemma sort_by_key_perm {A} (l : list (float * A)) : Permutation (sort_by_key l) l.
Proof.
  induction l as [|[k x] l IH]; cbn; [reflexivity|].
  rewrite insert_by_key_perm, IH. reflexivity.
Qed.

Lemma with_keys_snd (us : list update) :
  forall keyed, with_keys us = Some keyed -> List.map snd keyed = us.
Proof.
  induction us as [|u us IH]; intros keyed Hk; cbn in Hk.
  - injection Hk as <-. reflexivity.
  - apply bind_Some in Hk as (k & _ & Hk).
    apply bind_Some in Hk as (kr & Hkr & Hk).
    injection Hk as <-. cbn. f_equal. apply IH, Hkr.
Qed.

(** The extraction returns a list as soon as every timestamp converts. *)
Lemma extract_project_updates_total (msgs : list enriched) :
  Forall (fun m => is_Some (float_of_str (ts m))) msgs ->
  is_Some (extract_project_updates msgs).
Proof.
  intros Hts. unfold extract_project_updates.
  assert (Hk : is_Some (with_keys (List.map update_of (List.filter is_update msgs)))).
  { induction Hts as [|m msgs [k Hm] _ IH]; cbn [List.filter List.map]; [eexists; reflexivity|].
    destruct (is_update m); [|exact IH].
    destruct IH as [kr Hkr]. exists ((k, update_of m) :: kr).
    cbn [List.map with_keys update_of upd_timestamp]. rewrite Hm, Hkr. reflexivity. }
  destruct Hk as [keyed ->]. eexists. reflexivity.
Qed.

(** The update records are the qualifying messages, in another order. *)
Lemma extract_project_updates_perm (msgs : list enriched) (updates : list update) :
  extract_project_updates msgs = Some updates ->
  Permutation updates (List.map update_of (List.filter is_update msgs)).
Proof.
  unfold extract_project_updates. intros Hu.
  apply bind_Some in Hu as (keyed & Hk & Hu). injection Hu as <-.
  rewrite <- (with_keys_snd _ _ Hk).
  apply Permutation_map, sort_by_key_perm.
Qed.

Lemma weighted_hits_split (kws : list pystr) (msgs : list enriched) :
  (list_sum (List.map (fun m => hits kws (sc_text m)) (List.map scanned_of_message msgs)) +
   list_sum (List.map (fun m => hits kws (sc_text m))
               (List.map scanned_of_message (List.filter is_update msgs))))%nat =
  weighted_hits kws (fun m => if is_update m then 2 else 1)%nat msgs.
Proof.
  unfold weighted_hits, list_sum. induction msgs as [|m msgs IH]; [reflexivity|].
  cbn [List.map List.filter fold_right]. rewrite <- IH.
  destruct (is_update m); cbn [List.map fold_right scanned_of_message sc_text]; lia.
Qed.

(** Whatever list [scanned_first] is passed as the first argument (the
    caller [analyze_with_claude] passes the messages it kept as real),
    the update records extracted from [msgs] are scanned after it. *)
Lemma signals_twice (kws : list pystr) (scanned_first msgs : list enriched)
    (updates : list update) :
  Permutation updates (List.map update_of (List.filter is_update msgs)) ->
  Permutation
    (flat_map (signals_of kws)
       (List.map scanned_of_message scanned_first ++ List.map scanned_of_update updates))
    (flat_map (signals_of kws) (List.map scanned_of_message scanned_first) ++
     flat_map (signals_of kws) (List.map scanned_of_message (List.filter is_update msgs))).
Proof.
  intros Hperm. rewrite flat_map_app. apply Permutation_app_head.
  apply Permutation_flat_map.
  rewrite (Permutation_map scanned_of_update Hperm), List.map_map. reflexivity.
Qed.

(** The function called on a list and on the updates extracted from
    that same list: the signals are those of one scan of all the
    messages followed by those of a second scan of the messages that
    qualify as updates (up to the order of the list), so that every
    keyword hit of a qualifying message yields two identical signal
    records. *)
Theorem analyze_project_health_scans_updates_twice
    (msgs : list enriched) (updates : list update) :
  extract_project_updates msgs = Some updates ->
  let r := analyze_project_health msgs updates in
  let twice kws :=
    flat_map (signals_of kws) (List.map scanned_of_message msgs) ++
    flat_map (signals_of kws) (List.map scanned_of_message (List.filter is_update msgs)) in
  let weight m := if is_update m then 2%nat else 1%nat in
  Permutation (señales_positivas r) (twice positive_keywords) /\
  Permutation (señales_negativas r) (twice negative_keywords) /\
  length (señales_positivas r) = weighted_hits positive_keywords weight msgs /\
  length (señales_negativas r) = weighted_hits negative_keywords weight msgs.
Proof.
  intros Hu. cbn zeta. apply extract_project_updates_perm in Hu.
  unfold analyze_project_health. cbn [score señales_positivas señales_negativas].
  pose proof (signals_twice positive_keywords msgs msgs updates Hu) as Hpos.
  pose proof (signals_twice negative_keywords msgs msgs updates Hu) as Hneg.
  repeat split; try assumption.
  - rewrite (Permutation_length Hpos), length_app, !flat_map_signals_length.
    apply weighted_hits_split.
  - rewrite (Permutation_length Hneg), length_app, !flat_map_signals_length.
    apply weighted_hits_split.
Qed.

Lemma weighted_hits_filters (kws : list pystr) (keep also : enriched -> bool)
    (msgs : list enriched) :
  (list_sum (List.map (fun m => hits kws (sc_text m))
               (List.map scanned_of_message (List.filter keep msgs))) +
   list_sum (List.map (fun m => hits kws (sc_text m))
               (List.map scanned_of_message (List.filter also msgs))))%nat =
  weighted_hits kws
    (fun m => (if keep m then 1 else 0) + (if also m then 1 else 0))%nat msgs.
Proof.
  unfold weighted_hits, list_sum. induction msgs as [|m msgs IH]; [reflexivity|].
  cbn [List.map List.filter fold_right]. rewrite <- IH.
  destruct (keep m), (also m); cbn [List.map fold_right scanned_of_message sc_text]; lia.
Qed.

(** C9 (amended). In the report, the scorer is run on the messages
    [analyze_with_claude] kept as real and on the updates extracted from
    all the enriched messages. Its signals are those of one scan of the
    real messages followed by those of one scan of all the messages that
    qualify as updates (up to the order of the list). So a message counts
    twice when it qualifies as an update and is kept as real, once when
    only one of the two holds (in particular a qualifying message that
    the filter drops is scanned once), and not at all otherwise; the
    score is computed from the totals weighted this way. *)
Theorem analyze_project_health_update_weights
    (msgs : list enriched) (updates : list update) (r : project_health) :
  extract_project_updates msgs = Some updates ->
  report_project_health msgs updates = Some r ->
  let scans kws :=
    flat_map (signals_of kws) (List.map scanned_of_message (real_messages msgs)) ++
    flat_map (signals_of kws) (List.map scanned_of_message (List.filter is_update msgs)) in
  let weight m :=
    ((if is_real_for_report m then 1 else 0) + (if is_update m then 1 else 0))%nat in
  Permutation (señales_positivas r) (scans positive_keywords) /\
  Permutation (señales_negativas r) (scans negative_keywords) /\
  length (señales_positivas r) = weighted_hits positive_keywords weight msgs /\
  length (señales_negativas r) = weighted_hits negative_keywords weight msgs /\
  score r = health_score_of (weighted_hits positive_keywords weight msgs)
                            (weighted_hits negative_keywords weight msgs).
Proof.
  intros Hu Hr. cbn zeta. apply extract_project_updates_perm in Hu.
  assert (Hcall : r = analyze_project_health (real_messages msgs) updates).
  { revert Hr. unfold report_project_health.
    destruct (real_messages msgs) as [|m rest]; [discriminate|].
    intros [= <-]. reflexivity. }
  subst r. unfold analyze_project_health.
  cbn [score señales_positivas señales_negativas].
  pose proof (signals_twice positive_keywords (real_messages msgs) msgs updates Hu) as Hpos.
  pose proof (signals_twice negative_keywords (real_messages msgs) msgs updates Hu) as Hneg.
  assert (Hlp : length (flat_map (signals_of positive_keywords)
                          (List.map scanned_of_message (real_messages msgs) ++
                           List.map scanned_of_update updates)) =
                weighted_hits positive_keywords
                  (fun m => (if is_real_for_report m then 1 else 0) +
                            (if is_update m then 1 else 0))%nat msgs).
  { rewrite (Permutation_length Hpos), length_app, !flat_map_signals_length.
    apply weighted_hits_filters. }
  assert (Hln : length (flat_map (signals_of negative_keywords)
                          (List.map scanned_of_message (real_messages msgs) ++
                           List.map scanned_of_update updates)) =
                weighted_hits negative_keywords
                  (fun m => (if is_real_for_report m then 1 else 0) +
                            (if is_update m then 1 else 0))%nat msgs).
  { rewrite (Permutation_length Hneg), length_app, !flat_map_signals_length.
    apply weighted_hits_filters. }
  split; [exact Hpos|]. split; [exact Hneg|]. split; [exact Hlp|]. split; [exact Hln|].
  rewrite Hlp, Hln. reflexivity.
Qed.

End UpdatesTwice.

Lemma analyze_project_health_scans_updates_twice_witness :
  let msg t s := {| user_id := py "U1"; user_name := py "Ana"; text := t; ts := s |} in
  let msgs := [msg (py "El deploy ya está listo y merged") (py "1700000002.000100");
               msg (py "listo") (py "1700000001.000100")] in
  let updates := [{| upd_user_name := py "Ana";
                     upd_text := py "El deploy ya está listo y merged";
                     upd_timestamp := py "1700000002.000100" |}] in
  extract_project_updates (rt := example_runtime) msgs = Some updates /\
  length (señales_positivas (analyze_project_health (rt := example_runtime) msgs updates)) =
    5%nat.
Proof.
  cbn zeta.
  assert (Hu : extract_project_updates (rt := example_runtime)
            [{| user_id := py "U1"; user_name := py "Ana";
                text := py "El deploy ya está listo y merged"; ts := py "1700000002.000100" |};
             {| user_id := py "U1"; user_name := py "Ana";
                text := py "listo"; ts := py "1700000001.000100" |}] =
          Some [{| upd_user_name := py "Ana";
                   upd_text := py "El deploy ya está listo y merged";
                   upd_timestamp := py "1700000002.000100" |}]) by (vm_compute; reflexivity).
  split; [exact Hu|].
  destruct (analyze_project_health_scans_updates_twice (rt := example_runtime) _ _ Hu)
    as (_ & _ & Hlen & _).
  rewrite Hlen. vm_compute. reflexivity.
Defined.

Lemma analyze_project_health_update_weights_witness :
  let msg t s := {| user_id := py "U1"; user_name := py "Ana"; text := t; ts := s |} in
  let msgs := [msg (py "El deploy ya está listo y merged") (py "1700000003.000100");
               msg (py "<@U2> ya quedó listo el release") (py "1700000002.000100");
               msg (py "listo") (py "1700000001.000100")] in
  let updates := [{| upd_user_name := py "Ana";
                     upd_text := py "<@U2> ya quedó listo el release";
                     upd_timestamp := py "1700000002.000100" |};
                  {| upd_user_name := py "Ana";
                     upd_text := py "El deploy ya está listo y merged";
                     upd_timestamp := py "1700000003.000100" |}] in
  extract_project_updates (rt := example_runtime) msgs = Some updates /\
  exists r, report_project_health (rt := example_runtime) msgs updates = Some r /\
            length (señales_positivas r) = 5%nat /\ score r = 100.
Proof.
  cbn zeta.
  match goal with
  | |- ?extract = Some ?updates /\ _ =>
    assert (Hu : extract = Some updates) by (vm_compute; reflexivity)
  end.
  split; [exact Hu|].
  match goal with
  | |- exists r, ?run = _ /\ _ =>
    destruct run as [r|] eqn:Hr; [|vm_compute in Hr; discriminate]
  end.
  exists r. split; [reflexivity|].
  destruct (analyze_project_health_update_weights (rt := example_runtime) _ _ _ Hu Hr)
    as (_ & _ & Hlen & _ & Hscore).
  rewrite Hlen, Hscore. split; vm_compute; reflexivity.
Defined.

(** C9 (as stated) fails: a message that qualifies as an update but
    starts with a mention is dropped by the filter of
    [analyze_with_claude], so in the report it is scanned once, as an
    update record only, and each of its two keyword hits yields one
    signal record. *)
Lemma analyze_project_health_dropped_update_scanned_once :
  let mention := {| user_id := py "U1"; user_name := py "Ana";
                    text := py "<@U2> el deploy ya está listo y merged";
                    ts := py "1700000002.000100" |} in
  let other := {| user_id := py "U2"; user_name := py "Luis";
                  text := py "Seguimos mañana con la revisión";
                  ts := py "1700000001.000100" |} in
  let signal_for keyword := {| sig_user := py "Ana"; sig_keyword := keyword;
                               sig_context := py "<@U2> el deploy ya está listo y merged" |} in
  is_update (rt := example_runtime) mention = true /\
  hits (rt := example_runtime) positive_keywords (text mention) = 2%nat /\
  real_messages (rt := example_runtime) [other; mention] = [other] /\
  exists updates r,
    extract_project_updates (rt := example_runtime) [other; mention] = Some updates /\
    report_project_health (rt := example_runtime) [other; mention] updates = Some r /\
    señales_positivas r = [signal_for (py "listo"); signal_for (py "merged")].
Proof.
  cbn zeta. split; [vm_compute; reflexivity|]. split; [vm_compute; reflexivity|].
  split; [vm_compute; reflexivity|].
  eexists. eexists. split; [vm_compute; reflexivity|]. split; vm_compute; reflexivity.
Qed.

(** ** The participation profiles *)

Section ParticipationClaims.
Context `{rt : PyBuiltins}.

Lemma count_of_snoc (test : enriched -> bool) (l : list enriched) (x : enriched) :
  count_of test (l ++ [x]) = incr_if (test x) (count_of test l).
Proof.
  unfold count_of, incr_if. rewrite List.filter_app, length_app. cbn [List.filter].
  destruct (test x); cbn [length]; lia.
Qed.

Lemma messages_of_snoc (uid : pystr) (l : list enriched) (x : enriched) :
  messages_of uid (l ++ [x]) =
  if bool_decide (user_id x = uid) then messages_of uid l ++ [x] else messages_of uid l.
Proof.
  unfold messages_of. rewrite List.filter_app. cbn [List.filter].
  destruct (bool_decide (user_id x = uid)); [reflexivity | apply app_nil_r].
Qed.

(** The dict built by the first loop, key by key. *)
Lemma first_loop_lookup (msgs : list enriched) (uid : pystr) :
  fold_left count_message msgs ∅ !! uid = counts_for uid msgs.
Proof.
  induction msgs as [|x l IH] using rev_ind; [apply lookup_empty|].
  rewrite fold_left_app. cbn [fold_left].
  set (user_analysis := fold_left count_message l ∅) in *. unfold count_message.
  unfold counts_for. rewrite messages_of_snoc.
  destruct (decide (user_id x = uid)) as [<-|Hne].
  - rewrite lookup_insert_eq, IH, bool_decide_eq_true_2 by reflexivity.
    unfold counts_for. rewrite !count_of_snoc.
    destruct (messages_of (user_id x) l) as [|first rest]; cbn [default app]; reflexivity.
  - rewrite lookup_insert_ne, IH, bool_decide_eq_false_2 by assumption. reflexivity.
Qed.

Lemma analyze_participation_quality_lookup (msgs : list enriched) (uid : pystr) :
  analyze_participation_quality msgs !! uid = classify_user <$> counts_for uid msgs.
Proof.
  unfold analyze_participation_quality. rewrite lookup_fmap, first_loop_lookup. reflexivity.
Qed.

(** C5 (as amended). In every profile the question and response counts
    are those of the user's messages, and the ratio is
    [round(questions / responses, 2)] when the user has a response and
    the question count itself, not 0, when the user has none. *)
Theorem question_ratio_of_profiles (msgs : list enriched) :
  map_Forall
    (fun uid p =>
       let questions := count_of asks_question (messages_of uid msgs) in
       let responses := count_of is_response (messages_of uid msgs) in
       preguntas (counts p) = questions /\
       respuestas (counts p) = responses /\
       ratio_preguntas_respuestas p =
         if 0 <? responses
         then PFloat (float_round (int_truediv questions responses) 2)
         else PInt questions)
    (analyze_participation_quality msgs).
Proof.
  intros uid p Hp. rewrite analyze_participation_quality_lookup in Hp.
  unfold counts_for in Hp.
  destruct (messages_of uid msgs) as [|first rest]; [discriminate|].
  injection Hp as <-. cbn. auto.
Qed.

(** Every profile counts at least one message. *)
Lemma profiles_have_a_message (msgs : list enriched) :
  map_Forall (fun _ p => 1 <= total_messages (counts p))
             (analyze_participation_quality msgs).
Proof.
  intros uid p Hp. rewrite analyze_participation_quality_lookup in Hp.
  unfold counts_for in Hp.
  destruct (messages_of uid msgs) as [|first rest]; [discriminate|].
  injection Hp as <-. cbn. unfold count_of. cbn. lia.
Qed.

(** With at least one message, the cause is never the total absence. *)
Lemma absence_or_low_not_total (msgs : list enriched)
    (users_with_baseline : list baseline_user) (d : user_counts) :
  1 <= total_messages d ->
  fst (absence_or_low msgs users_with_baseline d) <> Some (py "ausencia_total").
Proof.
  intros Htotal. unfold absence_or_low, low_participation.
  replace (total_messages d =? 0) with false by (symmetry; apply Z.eqb_neq; lia).
  destruct (List.find _ users_with_baseline) as [u|]; [|discriminate].
  destruct (has_baseline (bu_comparison u)); [|discriminate].
  destruct (eqb _ _ && py_gt _ _); [|discriminate].
  destruct (existsb _ _); cbn [fst]; intros Heq; vm_compute in Heq; discriminate.
Qed.

Lemma unblocking_team_not_total (d : user_counts) (so_far : option pystr * list pystr) :
  fst so_far <> Some (py "ausencia_total") ->
  fst (unblocking_team d so_far) <> Some (py "ausencia_total").
Proof.
  intros Hso. unfold unblocking_team.
  destruct (_ && _); [|exact Hso].
  cbn [fst]. intros Heq. vm_compute in Heq. discriminate.
Qed.

Lemma possibly_blocked_not_total (d : user_counts) (so_far : option pystr * list pystr) :
  fst so_far <> Some (py "ausencia_total") ->
  fst (possibly_blocked d so_far) <> Some (py "ausencia_total").
Proof.
  intros Hso. unfold possibly_blocked.
  destruct (_ && _); [|exact Hso].
  cbn [fst]. intros Heq. vm_compute in Heq. discriminate.
Qed.

Lemma infer_cause_not_total_absence (msgs : list enriched)
    (users_with_baseline : list baseline_user) (p : user_profile) (c : cause) :
  1 <= total_messages (counts p) ->
  infer_cause msgs users_with_baseline p = Some c ->
  causa_inferida c <> py "ausencia_total".
Proof.
  intros Htotal Hc. unfold infer_cause in Hc. cbn zeta in Hc.
  pose proof (possibly_blocked_not_total (counts p) _
                (unblocking_team_not_total (counts p) _
                   (absence_or_low_not_total msgs users_with_baseline (counts p) Htotal)))
    as Hne.
  destruct (fst (possibly_blocked _ _)) as [causa|]; [|discriminate].
  injection Hc as <-. cbn [causa_inferida]. congruence.
Qed.

(** C10. Every profile of the classifier has [total_messages >= 1], so
    on the classifier's output the test [total_msgs == 0] of the cause
    inference is false for every user and no inferred cause is
    ["ausencia_total"]. *)
Theorem total_absence_unreachable (msgs : list enriched)
    (users_with_baseline : list baseline_user) :
  map_Forall (fun _ p => 1 <= total_messages (counts p) /\
                         (total_messages (counts p) =? 0) = false)
             (analyze_participation_quality msgs) /\
  map_Forall (fun _ c => causa_inferida c <> py "ausencia_total")
             (infer_causes msgs (analyze_participation_quality msgs) users_with_baseline).
Proof.
  split.
  - intros uid p Hp. pose proof (profiles_have_a_message msgs uid p Hp) as Hge.
    cbn in Hge. split; [exact Hge | apply Z.eqb_neq; lia].
  - intros uid c Hc. unfold infer_causes in Hc. rewrite lookup_omap in Hc.
    apply bind_Some in Hc as (p & Hp & Hc).
    apply (infer_cause_not_total_absence msgs users_with_baseline p c); [|exact Hc].
    exact (profiles_have_a_message msgs uid p Hp).
Qed.

End ParticipationClaims.

(** C5 (as stated) fails: a user who asked one question and has no
    response gets the ratio 1, not 0. *)
Lemma question_ratio_without_responses :
  let msgs := [{| user_id := py "U1"; user_name := py "Ana"; text := py "why?";
                  ts := py "1700000000.000100" |}] in
  let p := analyze_participation_quality (rt := example_runtime) msgs !! py "U1" in
  respuestas ∘ counts <$> p = Some 0 /\
  ratio_preguntas_respuestas <$> p = Some (PInt 1) /\
  ratio_preguntas_respuestas <$> p <> Some (PInt 0).
Proof. vm_compute. repeat split. discriminate. Qed.

(** ** Checks of the embedding on concrete inputs *)

Example py_accent : py "crítico" = [99; 114; 237; 116; 105; 99; 111]%N.
Proof. reflexivity. Qed.

Example py_emoji : py "🎉" = [127881]%N.
Proof. reflexivity. Qed.

Example str_of_Z_ex : str_of_Z (-1205) = py "-1205" /\ str_of_Z 0 = py "0" /\ str_of_Z 1000 = py "1000".
Proof. repeat split; reflexivity. Qed.

Example replace_ex : replace (py "**") (py "*") (py "a**b***c****") = py "a*b**c**".
Proof. reflexivity. Qed.

Example truediv_2_3 : int_truediv 2 3 = 0x1.5555555555555p-1%float.
Proof. reflexivity. Qed.

Example round_ex :
  float_round 62.5%float 1 = 62.5%float /\
  float_round 0.25%float 1 = 0.2%float /\
  float_round 2.675%float 2 = 2.67%float /\
  float_round (-0.04)%float 1 = (-0)%float /\
  float_round 1e22%float 2 = 1e22%float.
Proof. repeat split; vm_compute; reflexivity. Qed.

Example trunc_ex :
  float_trunc (int_truediv 2 3 * 100)%float = 66 /\
  float_trunc (int_truediv 29 100 * 100)%float = 28 /\
  float_trunc (-2.5)%float = -2.
Proof. repeat split; vm_compute; reflexivity. Qed.

Example compare_ex :
  py_lt (PInt 0) (PFloat 0.5) = true /\ py_lt (PFloat 99.5) (PInt 100) = true /\
  py_le (PFloat 100) (PInt 100) = true /\ py_lt (PFloat nan) (PInt 100) = false /\
  py_ge (PFloat (-0)) (PInt 0) = true.
Proof. repeat split; vm_compute; reflexivity. Qed.

(** The messages of [test_agent.py]: the first one counts both as
    frustration ("frustrado") and as enthusiasm ("funciona"). *)
Example analyze_sentiment_test_messages :
  let r := analyze_sentiment (rt := example_runtime)
             [MStr (py "Estoy frustrado, esto no funciona otra vez");
              MStr (py "¡Genial! Ya está listo el deploy 🎉");
              MStr (py "Me preocupa el deadline, vamos atrasados");
              MStr (py "Revisé el código y todo está bien");
              MStr (py "Bloqueado esperando revisión")] in
  overall_score r = PFloat 40 /\
  sentiment_breakdown r =
    Some {| frustration := 2; enthusiasm := 2; concern := 1; neutral := 1 |}.
Proof. split; vm_compute; reflexivity. Qed.

(** [int] truncates the product as the floats give it: 29 positive
    signals out of 100 score 28, since [29 / 100 * 100] is
    28.999999999999996. *)
Example health_score_of_29_71 : health_score_of 29 71 = 28.
Proof. vm_compute. reflexivity. Qed.

Example sort_by_key_stable :
  List.map snd (sort_by_key [(2%float, 1%nat); (1%float, 2%nat); (2%float, 3%nat);
                             (1%float, 4%nat)]) = [2; 4; 1; 3]%nat.
Proof. vm_compute. reflexivity. Qed.

(** * Further properties *)

(** ** Substrings *)

Section Substrings.

Lemma starts_with_app (p r : pystr) : starts_with p (p ++ r) = true.
Proof.
  induction p as [|a p IH]; [reflexivity|].
  cbn [app starts_with]. rewrite N.eqb_refl. exact IH.
Qed.

Lemma starts_with_split (p s : pystr) :
  starts_with p s = true -> exists r, s = p ++ r.
Proof.
  revert s. induction p as [|a p IH]; intros s Hs; [exists s; reflexivity|].
  destruct s as [|b s]; [discriminate|]. cbn [starts_with] in Hs.
  apply andb_true_iff in Hs as [Hab Hps]. apply N.eqb_eq in Hab as <-.
  destruct (IH s Hps) as [r ->]. exists r. reflexivity.
Qed.

(** [needle in hay] holds exactly when [hay] is some text, the needle,
    and some more text. *)
Lemma contains_split (needle hay : pystr) :
  contains needle hay = true <-> exists pre post, hay = pre ++ needle ++ post.
Proof.
  split.
  - induction hay as [|c hay IH]; cbn [contains]; intros Hc.
    + rewrite orb_false_r in Hc. destruct (starts_with_split _ _ Hc) as [r Hr].
      exists [], r. exact Hr.
    + apply orb_true_iff in Hc as [Hs | Hc].
      * destruct (starts_with_split _ _ Hs) as [r Hr]. exists [], r. exact Hr.
      * destruct (IH Hc) as (pre & post & ->). exists (c :: pre), post. reflexivity.
  - intros (pre & post & ->). induction pre as [|c pre IH].
    + cbn [app]. destruct (needle ++ post) eqn:Heq; cbn [contains];
        rewrite <- ?Heq, starts_with_app; reflexivity.
    + cbn [app contains]. rewrite IH. apply orb_true_r.
Qed.

(** A text that contains a phrase contains every part of the phrase. *)
Lemma contains_trans (a b c : pystr) :
  contains a b = true -> contains b c = true -> contains a c = true.
Proof.
  intros Hab Hbc. apply contains_split in Hab as (p1 & q1 & ->).
  apply contains_split in Hbc as (p2 & q2 & ->).
  apply contains_split. exists (p2 ++ p1), (q1 ++ q2).
  rewrite <- !app_assoc. reflexivity.
Qed.

End Substrings.

Lemma in_firstn {A} (n : nat) (l : list A) (x : A) : In x (firstn n l) -> In x l.
Proof.
  intros Hx. rewrite <- (firstn_skipn n l). apply in_or_app. left. exact Hx.
Qed.

(** ** The urgency classifier *)

Section UrgencyProps.
Context `{rt : PyBuiltins}.
Variable exception_text : pyval -> pystr.

Lemma scan_indicators_grade indicators level points note context_lower u :
  (urgency_level (scan_indicators indicators level points note context_lower u),
   urgency_score (scan_indicators indicators level points note context_lower u)) =
  if any_in indicators context_lower then (level, points)
  else (urgency_level u, urgency_score u).
Proof.
  rewrite first_in_any_in. unfold scan_indicators.
  destruct (first_in indicators context_lower); reflexivity.
Qed.

Lemma scan_high_grade context_lower u :
  (urgency_level (scan_high context_lower u), urgency_score (scan_high context_lower u)) =
  if negb (eqb (urgency_level u) (py "crítico")) && any_in high_indicators context_lower
  then (py "alto", 75) else (urgency_level u, urgency_score u).
Proof.
  unfold scan_high. destruct (negb _); cbn [andb]; [apply scan_indicators_grade | reflexivity].
Qed.

Lemma scan_medium_grade context_lower u :
  (urgency_level (scan_medium context_lower u), urgency_score (scan_medium context_lower u)) =
  if negb (eqb (urgency_level u) (py "crítico") || eqb (urgency_level u) (py "alto")) &&
     any_in medium_indicators context_lower
  then (py "medio", 50) else (urgency_level u, urgency_score u).
Proof.
  unfold scan_medium. destruct (negb _); cbn [andb]; [apply scan_indicators_grade | reflexivity].
Qed.

Lemma scan_low_grade context_lower u :
  (urgency_level (scan_low context_lower u), urgency_score (scan_low context_lower u)) =
  (urgency_level u, urgency_score u).
Proof.
  unfold scan_low. destruct (eqb _ _); [|reflexivity].
  destruct (first_in low_indicators context_lower); reflexivity.
Qed.

Lemma raise_to_alto_grade mentioned note u :
  (urgency_level (raise_to_alto mentioned note u),
   urgency_score (raise_to_alto mentioned note u)) =
  if mentioned && (urgency_score u <? 75) then (py "alto", 75)
  else (urgency_level u, urgency_score u).
Proof.
  unfold raise_to_alto. destruct mentioned; [|reflexivity].
  destruct (urgency_score u <? 75); reflexivity.
Qed.

Lemma default_reasoning_grade u :
  (urgency_level (default_reasoning u), urgency_score (default_reasoning u)) =
  (urgency_level u, urgency_score u).
Proof. unfold default_reasoning. destruct (urgency_reasoning u); reflexivity. Qed.

(** The level and the score of a text, from the tests that decide
    them: a critical indicator, a high indicator, a medium indicator,
    and the mention of a deadline or of a client. *)
Lemma classify_text_level_score (context_lower : pystr) :
  let deadline :=
    contains (py "deadline") context_lower || contains (py "fecha límite") context_lower in
  let client :=
    contains (py "cliente") context_lower || contains (py "client") context_lower in
  (urgency_level (classify_text context_lower), urgency_score (classify_text context_lower)) =
  if any_in critical_indicators context_lower then (py "crítico", 100)
  else if any_in high_indicators context_lower || (deadline || client) then (py "alto", 75)
  else if any_in medium_indicators context_lower then (py "medio", 50)
  else (py "bajo", 25).
Proof.
  cbn zeta. unfold classify_text.
  set (deadline := contains (py "deadline") context_lower || _).
  set (client := contains (py "cliente") context_lower || _).
  pose proof (scan_indicators_grade critical_indicators (py "crítico") 100
                (py "impacto inmediato") context_lower initial_urgency) as H1.
  destruct (scan_indicators critical_indicators _ _ _ _ _) as [l1 s1 r1].
  pose proof (scan_high_grade context_lower {| urgency_level := l1; urgency_score := s1;
                urgency_reasoning := r1 |}) as H2.
  destruct (scan_high context_lower _) as [l2 s2 r2].
  pose proof (scan_medium_grade context_lower {| urgency_level := l2; urgency_score := s2;
                urgency_reasoning := r2 |}) as H3.
  destruct (scan_medium context_lower _) as [l3 s3 r3].
  pose proof (scan_low_grade context_lower {| urgency_level := l3; urgency_score := s3;
                urgency_reasoning := r3 |}) as H4.
  destruct (scan_low context_lower _) as [l4 s4 r4].
  pose proof (raise_to_alto_grade deadline (py "Deadline explícito mencionado")
                {| urgency_level := l4; urgency_score := s4; urgency_reasoning := r4 |}) as H5.
  destruct (raise_to_alto deadline _ _) as [l5 s5 r5].
  pose proof (raise_to_alto_grade client (py "Impacto en clientes mencionado")
                {| urgency_level := l5; urgency_score := s5; urgency_reasoning := r5 |}) as H6.
  destruct (raise_to_alto client _ _) as [l6 s6 r6].
  rewrite default_reasoning_grade.
  cbn [urgency_level urgency_score] in *.
  clearbody deadline client.
  revert H1 H2 H3.
  generalize (any_in critical_indicators context_lower)
             (any_in high_indicators context_lower)
             (any_in medium_indicators context_lower).
  intros c h m H1 H2 H3.
  destruct c, h, m, deadline, client;
    vm_compute in H1; injection H1 as -> ->;
    vm_compute in H2; injection H2 as -> ->;
    vm_compute in H3; injection H3 as -> ->;
    injection H4 as -> ->;
    vm_compute in H5; injection H5 as -> ->;
    vm_compute in H6; injection H6 as -> ->;
    reflexivity.
Qed.

Lemma classify_text_reasoning (context_lower : pystr) :
  urgency_reasoning (classify_text context_lower) <> [].
Proof.
  unfold classify_text.
  unfold default_reasoning.
  destruct (urgency_reasoning (raise_to_alto _ _ _)) eqn:Hr; cbn [urgency_reasoning].
  - discriminate.
  - rewrite Hr. discriminate.
Qed.

(** X1. Whatever its argument, [classify_urgency] returns a level and a
    score that go together (crítico 100, alto 75, medio 50, bajo 25, or
    desconocido 50 from the error handler), and at least one line of
    reasoning: raising the score to 75 for a deadline or a client also
    sets the level to alto. *)
Theorem classify_urgency_level_matches_score (context_value : pyval) :
  let u := classify_urgency exception_text context_value in
  ((urgency_level u = py "crítico" /\ urgency_score u = 100) \/
   (urgency_level u = py "alto" /\ urgency_score u = 75) \/
   (urgency_level u = py "medio" /\ urgency_score u = 50) \/
   (urgency_level u = py "bajo" /\ urgency_score u = 25) \/
   (urgency_level u = py "desconocido" /\ urgency_score u = 50)) /\
  urgency_reasoning u <> [].
Proof.
  cbn zeta. destruct context_value as [|b|n|s|l|];
    try (split; [do 4 right; split; reflexivity | discriminate]).
  cbn [classify_urgency]. split; [|apply classify_text_reasoning].
  pose proof (classify_text_level_score (lower s)) as H. cbn zeta in H.
  destruct (any_in critical_indicators (lower s)).
  { injection H as -> ->. left. split; reflexivity. }
  destruct (any_in high_indicators (lower s) || _).
  { injection H as -> ->. right; left. split; reflexivity. }
  destruct (any_in medium_indicators (lower s)).
  { injection H as -> ->. right; right; left. split; reflexivity. }
  injection H as -> ->. right; right; right; left. split; reflexivity.
Qed.

(** X2. A text is classified crítico exactly when its lowered form
    contains one of the six critical indicators; nothing else in the
    text can raise it to that level or take the level away. *)
Theorem classify_urgency_critical_iff (s : pystr) :
  urgency_level (classify_urgency exception_text (VStr s)) = py "crítico" <->
  any_in critical_indicators (lower s) = true.
Proof.
  cbn [classify_urgency].
  pose proof (classify_text_level_score (lower s)) as H. cbn zeta in H.
  destruct (any_in critical_indicators (lower s)).
  { injection H as -> _. split; reflexivity. }
  split; [|discriminate]. intros Hc. exfalso.
  destruct (any_in high_indicators (lower s) || _);
    [|destruct (any_in medium_indicators (lower s))];
    injection H as Hl _; rewrite Hc in Hl; vm_compute in Hl; discriminate.
Qed.

(** X3. A text never scores below 75 when its lowered form contains a
    phrase in which a high indicator, "deadline", "fecha límite",
    "cliente" or "client" occurs: the level is then alto or crítico.
    In particular the medium indicator "deadline próximo" can never
    yield the level medio, and the low indicator "no urgente", which
    contains the high indicator "urgente", can never yield the level
    bajo. *)
Theorem classify_urgency_never_below_alto (s phrase word : pystr) :
  In word (high_indicators ++
           [py "deadline"; py "fecha límite"; py "cliente"; py "client"]) ->
  contains word phrase = true ->
  contains phrase (lower s) = true ->
  let u := classify_urgency exception_text (VStr s) in
  75 <= urgency_score u /\
  (urgency_level u = py "alto" \/ urgency_level u = py "crítico") /\
  urgency_level u <> py "medio" /\ urgency_level u <> py "bajo".
Proof.
  intros Hword Hin Hphrase. cbn zeta. cbn [classify_urgency].
  pose proof (contains_trans _ _ _ Hin Hphrase) as Hw.
  pose proof (classify_text_level_score (lower s)) as H. cbn zeta in H.
  assert (Hm : any_in high_indicators (lower s) ||
               (contains (py "deadline") (lower s) || contains (py "fecha límite") (lower s) ||
                (contains (py "cliente") (lower s) || contains (py "client") (lower s))) = true).
  { apply in_app_or in Hword as [Hhigh|Hfloor].
    - apply orb_true_iff. left. unfold any_in. apply existsb_exists.
      exists word. split; [exact Hhigh | exact Hw].
    - apply orb_true_iff. right. cbn [In] in Hfloor.
      destruct Hfloor as [<-|[<-|[<-|[<-|[]]]]]; rewrite Hw;
        rewrite ?orb_true_r; reflexivity. }
  rewrite Hm in H.
  destruct (any_in critical_indicators (lower s)); injection H as -> ->;
    (split; [lia | split; [auto | split; intros Hne; vm_compute in Hne; discriminate]]).
Qed.

End UrgencyProps.

Lemma classify_urgency_never_below_alto_witness :
  let u := classify_urgency (rt := example_runtime) (fun _ => [])
             (VStr (py "Cuando puedas, revisa este PR no urgente")) in
  urgency_level u = py "alto" /\ urgency_score u = 75.
Proof.
  cbn zeta.
  destruct (classify_urgency_never_below_alto (rt := example_runtime) (fun _ => [])
              (py "Cuando puedas, revisa este PR no urgente") (py "no urgente") (py "urgente"))
    as (_ & Hlevel & _).
  - apply in_or_app. left. unfold high_indicators. cbn [In]. auto.
  - reflexivity.
  - reflexivity.
  - split; reflexivity.
Defined.

(** ** The decision extractor *)

Section KeyDecisionProps.
Context `{rt : PyBuiltins}.

(** Each dict element adds at most one record, to one of the two lists. *)
Lemma decisions_loop_lengths (messages : list msg_item) :
  forall made pending made' pending',
    decisions_loop messages made pending = Some (made', pending') ->
    (length made <= length made')%nat /\
    (length pending <= length pending')%nat /\
    (length made' + length pending' <= length made + length pending + length messages)%nat.
Proof.
  induction messages as [|msg rest IH]; intros made pending made' pending' Hloop.
  - injection Hloop as <- <-. cbn. lia.
  - cbn [decisions_loop] in Hloop. destruct msg as [s|t u s|]; [| |discriminate].
    + apply IH in Hloop. cbn [length]. lia.
    + destruct (raw_text t) as [msg_text|]; [|discriminate].
      cbn zeta in Hloop. apply IH in Hloop.
      destruct (any_in decision_indicators (lower msg_text)),
        (any_in question_indicators (lower msg_text));
        cbn [andb negb] in Hloop; rewrite ?length_app in Hloop; cbn [length] in *; lia.
Qed.

(** The loop is a filter over the elements: it appends, in order, what
    each element contributes, and raises as soon as one element is
    neither a text nor a dict with a readable text. *)
Lemma decisions_loop_omap (messages : list msg_item) :
  forall made pending,
    decisions_loop messages made pending =
    if forallb (fun m => bool_decide (is_Some (sentiment_text m))) messages
    then Some (made ++ omap decision_in messages, pending ++ omap pending_in messages)
    else None.
Proof.
  induction messages as [|msg rest IH]; intros made pending.
  - cbn. rewrite !app_nil_r. reflexivity.
  - cbn [decisions_loop forallb]. destruct msg as [s|t u s|].
    + rewrite IH. cbn [sentiment_text]. rewrite bool_decide_eq_true_2 by (eexists; reflexivity).
      reflexivity.
    + cbn [sentiment_text]. unfold dict_text, raw_text at 1.
      change (omap decision_in (MDict t u s :: rest)) with
        (match decision_in (MDict t u s) with
         | Some y => y :: omap decision_in rest | None => omap decision_in rest end).
      change (omap pending_in (MDict t u s :: rest)) with
        (match pending_in (MDict t u s) with
         | Some y => y :: omap pending_in rest | None => omap pending_in rest end).
      unfold decision_in, pending_in, raw_text.
      destruct (get_default t (VStr [])) as [| | |msg_text| |];
        try (rewrite bool_decide_eq_false_2 by (intros [? [=]]); reflexivity).
      rewrite bool_decide_eq_true_2 by (eexists; reflexivity).
      cbn [andb mbind option_bind]. rewrite IH.
      destruct (forallb _ rest); [|reflexivity].
      destruct (any_in decision_indicators (lower msg_text)),
        (any_in question_indicators (lower msg_text));
        cbn [andb negb]; rewrite <- ?app_assoc; reflexivity.
    + cbn [sentiment_text]. rewrite bool_decide_eq_false_2 by (intros [? [=]]). reflexivity.
Qed.

(** X4. The two totals of [extract_key_decisions] count all the
    elements that state a decision and all those that ask for one, while
    the two lists hold the first five of each, in the order of the
    messages; an element is never counted both as a decision made and as
    a pending one, so the two totals together never exceed the number of
    messages. When an element cannot be read, the totals are 0 and the
    lists are empty. *)
Theorem extract_key_decisions_bounds (messages : list msg_item) :
  let r := extract_key_decisions messages in
  let made := omap decision_in messages in
  let pending := omap pending_in messages in
  extract_key_decisions messages =
    (if forallb (fun m => bool_decide (is_Some (sentiment_text m))) messages
     then {| total_decisions_made := Z.of_nat (length made);
             total_decisions_pending := Z.of_nat (length pending);
             decisions_made := firstn 5 made;
             decisions_pending := firstn 5 pending |}
     else {| total_decisions_made := 0; total_decisions_pending := 0;
             decisions_made := []; decisions_pending := [] |}) /\
  (forall m, decision_in m = None \/ pending_in m = None) /\
  (length (decisions_made r) <= 5)%nat /\
  (length (decisions_pending r) <= 5)%nat /\
  Z.of_nat (length (decisions_made r)) <= total_decisions_made r /\
  Z.of_nat (length (decisions_pending r)) <= total_decisions_pending r /\
  0 <= total_decisions_made r /\ 0 <= total_decisions_pending r /\
  total_decisions_made r + total_decisions_pending r <= Z.of_nat (length messages).
Proof.
  cbn zeta. split; [|split].
  - unfold extract_key_decisions. rewrite decisions_loop_omap.
    destruct (forallb _ messages); reflexivity.
  - intros [s|t u s|]; [left; reflexivity | | left; reflexivity].
    unfold decision_in, pending_in. destruct (raw_text t) as [msg_text|]; [|left; reflexivity].
    cbn [mbind option_bind].
    destruct (any_in decision_indicators (lower msg_text));
      [right; rewrite andb_false_r; reflexivity | left; reflexivity].
  - unfold extract_key_decisions.
    destruct (decisions_loop messages [] []) as [[made pending]|] eqn:Hloop.
    + apply decisions_loop_lengths in Hloop as (_ & _ & Hsum). cbn [length] in Hsum.
      cbn [decisions_made decisions_pending total_decisions_made total_decisions_pending].
      rewrite !length_firstn. lia.
    + cbn. lia.
Qed.

End KeyDecisionProps.

(** ** The conversation sent to the model *)

Section ConversationShape.
Context `{rt : PyBuiltins}.
Variable model_call : list turn -> option response.
Variable process_tool_call : pystr -> pyval -> pystr.
Variable channel_info : option pystr.
Variable channel_members : option (list pystr).

Lemma tool_exchanges_app (l l' : list turn) :
  tool_exchanges l = true -> tool_exchanges (l ++ l') = tool_exchanges l'.
Proof.
  remember (length l) as n eqn:Hn. revert l Hn.
  induction n as [n IH] using lt_wf_ind. intros l Hn Hl.
  destruct l as [|[p|blocks|results] l]; try discriminate; [reflexivity|].
  destruct l as [|[p|blocks2|results] l]; try discriminate.
  cbn [tool_exchanges app] in *. apply andb_true_iff in Hl as [Hids Hl].
  rewrite Hids. cbn [andb]. apply (IH (length l)); [cbn in Hn; lia | reflexivity | exact Hl].
Qed.

(** Each [tool_use] block is answered by one result with its id. *)
Lemma run_tools_ids (blocks : list content_block) :
  List.map tool_use_id (run_tools process_tool_call blocks) = tool_use_ids blocks.
Proof.
  unfold run_tools, tool_use_ids.
  induction blocks as [|b blocks IH]; [reflexivity|].
  cbn [flat_map]. rewrite List.map_app, IH. destruct b; reflexivity.
Qed.

Lemma agent_loop_well_formed (fuel : nat) :
  forall st,
    well_formed_request (conversation st) = true ->
    Forall (fun conv => well_formed_request conv = true) (requests st) ->
    Forall (fun conv => well_formed_request conv = true)
           (requests (snd (agent_loop model_call process_tool_call fuel st))).
Proof.
  induction fuel as [|fuel IH]; intros st Hconv Hreq; cbn [agent_loop]; [exact Hreq|].
  destruct (iteration st <? max_iterations)%nat; [|exact Hreq].
  assert (Hreq1 : Forall (fun conv => well_formed_request conv = true)
                         (requests st ++ [conversation st])).
  { apply Forall_app. split; [exact Hreq | constructor; [exact Hconv | constructor]]. }
  destruct (model_call (conversation st)) as [r|]; [|exact Hreq1].
  destruct (eqb (stop_reason r) (py "tool_use")).
  - apply IH; cbn [conversation requests]; [|exact Hreq1].
    destruct (conversation st) as [|[p|blocks|results] rest]; try discriminate.
    cbn [app well_formed_request] in *. rewrite tool_exchanges_app by exact Hconv.
    cbn [tool_exchanges]. rewrite run_tools_ids, andb_true_r.
    apply bool_decide_eq_true. reflexivity.
  - destruct (eqb (stop_reason r) (py "end_turn")); exact Hreq1.
Qed.

(** X5. Every request [run_agentic_analysis] sends to the model is a
    well-formed conversation: the initial prompt, followed by pairs of
    an assistant turn and a user turn that carries, for each [tool_use]
    block of that assistant turn and in the same order, one
    [tool_result] with the block's id. *)
Theorem run_agentic_analysis_requests_well_formed (enriched_messages : list enriched) :
  Forall (fun conv => well_formed_request conv = true)
         (requests (snd (run_agentic_analysis model_call process_tool_call channel_info
                           channel_members enriched_messages))).
Proof.
  unfold run_agentic_analysis.
  destruct (List.filter is_real_message enriched_messages) as [|m real]; [constructor|].
  apply agent_loop_well_formed; [reflexivity | constructor].
Qed.

End ConversationShape.

(** ** The comparison with a baseline *)

Section BaselineComparison.

Lemma py_abs_not_negative (n : pynum) : py_lt (py_abs n) (PInt 0) = false.
Proof.
  destruct n as [z|f]; cbn [py_abs py_lt].
  - apply Z.ltb_ge. apply Z.abs_nonneg.
  - unfold float_compare_int. rewrite abs_spec.
    destruct (Prim2SF f) as [s|s| |s m e]; cbn [SFabs SF_compare_Z]; try reflexivity.
    destruct e as [|e|k].
    + reflexivity.
    + assert (0 < 2 ^ Z.pos e) by (apply Z.pow_pos_nonneg; lia).
      destruct (Z.pos m * 2 ^ Z.pos e ?= 0) eqn:Hc; try reflexivity.
      change (Z.pos m * 2 ^ Z.pos e < 0) in Hc. nia.
    + reflexivity.
Qed.

(** X6. Whenever [compare_to_baseline] returns, [diff_percentage] is a
    magnitude, never a negative number (the sign is carried by
    [direction] alone), and [has_baseline] is false exactly when the
    baseline is zero, in which case the direction is "sin datos" and the
    percentage 0. *)
Theorem compare_to_baseline_percentage (current_value baseline_value : pynum)
    (c : comparison) :
  compare_to_baseline current_value baseline_value = Some c ->
  py_lt (diff_percentage c) (PInt 0) = false /\
  has_baseline c = negb (is_zero_num baseline_value) /\
  (is_zero_num baseline_value = true ->
   direction c = py "sin datos" /\ diff_percentage c = PInt 0).
Proof.
  unfold compare_to_baseline. intros Hc.
  destruct (is_zero_num baseline_value).
  - injection Hc as <-. cbn. auto.
  - apply bind_Some in Hc as (diff & _ & Hc).
    apply bind_Some in Hc as (quotient & _ & Hc).
    apply bind_Some in Hc as (percentage & _ & Hc).
    injection Hc as <-. cbn [diff_percentage has_baseline negb].
    split; [apply py_abs_not_negative | split; [reflexivity | discriminate]].
Qed.

End BaselineComparison.

Lemma compare_to_baseline_percentage_witness :
  compare_to_baseline (PInt 2) (PFloat 8) =
    Some {| has_baseline := true; direction := py "por debajo";
            diff_percentage := PFloat 75 |} /\
  py_lt (PFloat 75) (PInt 0) = false.
Proof.
  assert (H : compare_to_baseline (PInt 2) (PFloat 8) =
              Some {| has_baseline := true; direction := py "por debajo";
                      diff_percentage := PFloat 75 |}) by (vm_compute; reflexivity).
  split; [exact H|].
  exact (proj1 (compare_to_baseline_percentage _ _ _ H)).
Defined.

(** ** The project status *)

Section ProjectStatusProps.
Context `{rt : PyBuiltins}.

Lemma count_status_blocked (msgs : list enriched) :
  forall c, blocked_count c <= blocked_count (fold_left count_status msgs c).
Proof.
  induction msgs as [|m msgs IH]; intros c; cbn [fold_left]; [lia|].
  etransitivity; [|apply IH]. unfold count_status. cbn [blocked_count].
  unfold incr_if. destruct (any_in blocked_keywords _); lia.
Qed.

Lemma status_of_blocked (c : status_counts) (n : Z) (b : option pynum) (st : pystr) :
  status_of c n b = Some st -> st = py "blocked" -> 2 < blocked_count c.
Proof.
  unfold status_of. intros Hst ->.
  destruct (2 <? blocked_count c) eqn:Hb; [apply Z.ltb_lt, Hb|].
  exfalso. destruct (1 <? delayed_count c).
  { injection Hst as Hst. vm_compute in Hst. discriminate. }
  destruct b as [avg|].
  - apply bind_Some in Hst as (limit & _ & Hst).
    destruct (py_gt _ _); injection Hst as Hst; vm_compute in Hst; discriminate.
  - injection Hst as Hst. vm_compute in Hst. discriminate.
Qed.

(** The conversion of the baseline is the only step that can raise, and
    it does not depend on the number of messages. *)
Lemma py_mul_float_total (avg : pynum) (x y : float) :
  is_Some (py_mul avg (PFloat x)) -> is_Some (py_mul avg (PFloat y)).
Proof.
  unfold py_mul, float_binop. destruct avg as [z|f]; cbn [to_float].
  - destruct (float_of_int z); [eauto | intros [? [=]]].
  - eauto.
Qed.

Lemma resources_of_total (n n' : Z) (b : option pynum) :
  is_Some (resources_of n b) -> is_Some (resources_of n' b).
Proof.
  unfold resources_of. destruct b as [avg|]; [|eauto].
  intros [res Hres]. apply bind_Some in Hres as (low & Hlow & _).
  rewrite Hlow. cbn [mbind option_bind].
  destruct (py_lt (PInt n') low); [eauto|].
  destruct (py_mul_float_total avg _ 1.3 (ex_intro _ low Hlow)) as [high ->].
  cbn [mbind option_bind]. eauto.
Qed.

(** X7. In the pipeline the channel baseline is always absent
    ([get_channel_baseline] returns [None] on both of its paths), so
    [classify_project_status] never reports "fast_track" and always
    reports the resources as "unknown": the status is "blocked" with
    more than two blocked messages, else "delayed" with more than one
    delayed message, else "on_track". *)
Theorem classify_project_status_without_baseline (msgs : list enriched) :
  exists r,
    classify_project_status msgs get_channel_baseline = Some r /\
    resources r = py "unknown" /\
    status_code r <> py "fast_track" /\
    (status_code r = py "blocked" \/ status_code r = py "delayed" \/
     status_code r = py "on_track").
Proof.
  unfold classify_project_status, get_channel_baseline, status_of, resources_of.
  cbn zeta. destruct (2 <? blocked_count _); [|destruct (1 <? delayed_count _)];
    cbn [mbind option_bind]; eexists; (split; [reflexivity|]);
    cbn [resources status_code];
    (split; [reflexivity | split; [intros H; vm_compute in H; discriminate | auto]]).
Qed.

(** X8. A project reported as "blocked" stays "blocked" when more
    messages are appended to the list, whatever the baseline: the count
    of blocked messages only grows, and its test comes first. *)
Theorem classify_project_status_stays_blocked (msgs more : list enriched)
    (channel_baseline : option pynum) (r : project_status) :
  classify_project_status msgs channel_baseline = Some r ->
  status_code r = py "blocked" ->
  exists r',
    classify_project_status (msgs ++ more) channel_baseline = Some r' /\
    status_code r' = py "blocked".
Proof.
  unfold classify_project_status. cbn zeta. intros Hr Hblocked.
  apply bind_Some in Hr as (st & Hst & Hr).
  apply bind_Some in Hr as (res & Hres & Hr). injection Hr as <-.
  cbn [status_code] in Hblocked.
  pose proof (status_of_blocked _ _ _ _ Hst Hblocked) as Hcount.
  rewrite fold_left_app.
  pose proof (count_status_blocked more
                (fold_left count_status msgs
                   {| delayed_count := 0; blocked_count := 0; sensitivity_count := 0 |}))
    as Hmono.
  destruct (resources_of_total _ (Z.of_nat (length (msgs ++ more))) _
              (ex_intro _ res Hres)) as [res' Hres'].
  unfold status_of at 1.
  replace (2 <? blocked_count _) with true by (symmetry; apply Z.ltb_lt; lia).
  cbn [mbind option_bind]. rewrite Hres'. cbn [mbind option_bind].
  eexists. split; reflexivity.
Qed.

End ProjectStatusProps.

Lemma classify_project_status_stays_blocked_witness :
  let say t := {| user_id := py "U1"; user_name := py "Ana"; text := t;
                  ts := py "1700000000.000100" |} in
  let msgs := [say (py "Sigo bloqueado"); say (py "stuck con el deploy");
               say (py "esperando acceso")] in
  exists r',
    classify_project_status (rt := example_runtime) (msgs ++ [say (py "todo listo")]) None =
      Some r' /\
    status_code r' = py "blocked".
Proof.
  cbn zeta.
  apply (classify_project_status_stays_blocked (rt := example_runtime) _ _ None
           {| status_code := py "blocked"; sensitivity := py "non_time_sensitive";
              resources := py "unknown" |}).
  - vm_compute. reflexivity.
  - reflexivity.
Defined.

(** ** The critical risks *)

Section RiskProps.
Context `{rt : PyBuiltins}.

(** The five critical keywords in which neither "crítico", "critical",
    "cliente" nor "client" occurs. *)
Lemma risk_of_grades (msg : enriched) :
  reports_risk msg = true ->
  (impacto (risk_of msg) = py "ALTO" /\ probabilidad (risk_of msg) = py "ALTA") \/
  (impacto (risk_of msg) = py "ALTO" /\ probabilidad (risk_of msg) = py "MEDIA") \/
  (impacto (risk_of msg) = py "MEDIO-ALTO" /\ probabilidad (risk_of msg) = py "MEDIA" /\
   any_in [py "urgente"; py "problema grave"; py "vamos a perder"; py "urgent"; py "severe"]
          (lower (text msg)) = true).
Proof.
  unfold reports_risk, risk_of, risk_grade. cbn zeta. cbn [impacto probabilidad]. intros Hrisk.
  destruct (contains (py "crítico") (lower (text msg))) eqn:H1; [left; split; reflexivity|].
  destruct (contains (py "critical") (lower (text msg))) eqn:H2; [left; split; reflexivity|].
  destruct (contains (py "cliente") (lower (text msg))) eqn:H3;
    [right; left; split; reflexivity|].
  destruct (contains (py "client") (lower (text msg))) eqn:H4;
    [right; left; split; reflexivity|].
  right; right. split; [reflexivity | split; [reflexivity|]].
  assert (H5 : contains (py "cliente en riesgo") (lower (text msg)) = false).
  { destruct (contains (py "cliente en riesgo") _) eqn:H; [|reflexivity].
    rewrite <- H3. symmetry. apply (contains_trans _ (py "cliente en riesgo")); [|exact H].
    vm_compute. reflexivity. }
  assert (H6 : contains (py "losing client") (lower (text msg)) = false).
  { destruct (contains (py "losing client") _) eqn:H; [|reflexivity].
    rewrite <- H4. symmetry. apply (contains_trans _ (py "losing client")); [|exact H].
    vm_compute. reflexivity. }
  unfold any_in, critical_keywords in Hrisk. cbn [existsb] in Hrisk.
  rewrite H1, H2, H5, H6 in Hrisk. cbn [orb] in Hrisk.
  unfold any_in. cbn [existsb].
  destruct (contains (py "urgente") _), (contains (py "problema grave") _),
    (contains (py "vamos a perder") _), (contains (py "urgent") _),
    (contains (py "severe") _); cbn [orb] in *; congruence.
Qed.

(** X9. [extract_critical_risks] returns at most three risks, each
    graded ALTO/ALTA, ALTO/MEDIA or MEDIO-ALTO/MEDIA. The lowest grade
    is only given to a message that says "urgente", "problema grave",
    "vamos a perder", "urgent" or "severe": the keywords "cliente en
    riesgo" and "losing client" contain "cliente" and "client" and so
    always give the impact ALTO. *)
Theorem extract_critical_risks_grades (msgs : list enriched) :
  (length (extract_critical_risks msgs) <= 3)%nat /\
  Forall (fun r =>
            (impacto r = py "ALTO" /\ probabilidad r = py "ALTA") \/
            (impacto r = py "ALTO" /\ probabilidad r = py "MEDIA") \/
            (impacto r = py "MEDIO-ALTO" /\ probabilidad r = py "MEDIA" /\
             exists msg, In msg msgs /\ riesgo r = str_prefix 200 (text msg) /\
               any_in [py "urgente"; py "problema grave"; py "vamos a perder";
                       py "urgent"; py "severe"] (lower (text msg)) = true))
         (extract_critical_risks msgs).
Proof.
  unfold extract_critical_risks. split; [rewrite length_firstn; lia|].
  apply List.Forall_forall. intros r Hr. apply in_firstn, in_map_iff in Hr as (msg & <- & Hmsg).
  apply filter_In in Hmsg as [Hin Hrisk].
  destruct (risk_of_grades msg Hrisk) as [H|[H|(Hi & Hp & Hkw)]]; auto.
  right; right. split; [exact Hi | split; [exact Hp|]].
  exists msg. split; [exact Hin | split; [reflexivity | exact Hkw]].
Qed.

End RiskProps.

(** ** Meeting attendance *)

Section MeetingProps.
Context `{rt : PyBuiltins}.

Lemma note_meeting_lengths (msgs : list enriched) :
  forall found,
    let found' := fold_left note_meeting msgs found in
    length (mentions_found found') =
      (length (mentions_found found) + length (List.filter mentions_meeting msgs))%nat /\
    length (attendees_found found') =
      (length (attendees_found found) +
       length (List.filter (fun m => mentions_meeting m && says_attending m) msgs))%nat /\
    length (absences_found found') =
      (length (absences_found found) +
       length (List.filter (fun m => mentions_meeting m && says_absent m) msgs))%nat.
Proof.
  induction msgs as [|m msgs IH]; intros found; cbn zeta; cbn [fold_left List.filter].
  - cbn [length]. lia.
  - specialize (IH (note_meeting found m)). cbn zeta in IH.
    destruct IH as (IH1 & IH2 & IH3). rewrite IH1, IH2, IH3.
    unfold note_meeting.
    destruct (mentions_meeting m); cbn [andb]; [|lia].
    cbn [mentions_found attendees_found absences_found].
    destruct (says_attending m), (says_absent m);
      rewrite ?length_app; cbn [length]; lia.
Qed.

(** X10. [detect_meeting_attendance] counts as meetings the messages
    that contain a meeting keyword, and only those messages can add an
    attendee (with an attendance keyword) or an absence (with an absence
    keyword): a message saying "me uno" without naming a meeting is
    ignored, and there are never more attendees or absences than
    meetings. *)
Theorem detect_meeting_attendance_counts (msgs : list enriched) :
  let r := detect_meeting_attendance msgs in
  num_meetings r = Z.of_nat (length (List.filter mentions_meeting msgs)) /\
  meetings_detected r = (0 <? num_meetings r) /\
  length (attendees r) =
    length (List.filter (fun m => mentions_meeting m && says_attending m) msgs) /\
  length (absences r) =
    length (List.filter (fun m => mentions_meeting m && says_absent m) msgs) /\
  Z.of_nat (length (attendees r)) <= num_meetings r /\
  Z.of_nat (length (absences r)) <= num_meetings r.
Proof.
  assert (Hsub : forall test : enriched -> bool,
             (length (List.filter (fun m => mentions_meeting m && test m) msgs) <=
              length (List.filter mentions_meeting msgs))%nat).
  { intros test. induction msgs as [|m l IH]; [cbn; lia|]. cbn [List.filter].
    destruct (mentions_meeting m); cbn [andb]; [destruct (test m)|]; cbn [length]; lia. }
  pose proof (Hsub says_attending). pose proof (Hsub says_absent).
  cbn zeta. unfold detect_meeting_attendance.
  cbn [num_meetings meetings_detected attendees absences].
  destruct (note_meeting_lengths msgs
              {| mentions_found := []; attendees_found := []; absences_found := [] |})
    as (H1 & H2 & H3).
  cbn zeta in H1, H2, H3. cbn [mentions_found attendees_found absences_found length] in *.
  rewrite H1, H2, H3. cbn [Nat.add].
  repeat split; try lia.
  destruct (length (List.filter mentions_meeting msgs)); reflexivity.
Qed.

Lemma join_values_dicts (sep : pystr) (a : attendee) (l : list attendee) :
  join_values sep (List.map (fun _ => VDict) (a :: l)) = None.
Proof. reflexivity. Qed.

Lemma absence_lines_raise (a : absence) (l : list absence) :
  absence_lines (a :: l) = None.
Proof.
  cbn [absence_lines]. unfold dict_item, absence_dict. cbn [List.find fst snd].
  replace (eqb (py "name") (py "name")) with true by (vm_compute; reflexivity).
  replace (eqb (py "name") (py "reason")) with false by (vm_compute; reflexivity).
  replace (eqb (py "razon") (py "reason")) with false by (vm_compute; reflexivity).
  reflexivity.
Qed.

(** X11. The meeting block of the prompt cannot be built as soon as an
    attendee or an absence was detected: the attendees are dicts, which
    [', '.join] rejects, and an absence is written with the key "razon"
    but read with the key "reason". So whenever some message names a
    sync meeting and says that its author joins or cannot come, building
    the block raises, outside of any [try] of [analyze_with_claude]. *)
Theorem meeting_section_raises (msgs : list enriched) :
  Exists (fun m => mentions_meeting m && (says_attending m || says_absent m) = true) msgs ->
  meeting_section (detect_meeting_attendance msgs) = None.
Proof.
  intros Hex.
  assert (Hsome : (0 < length (List.filter
                     (fun m => mentions_meeting m && says_attending m) msgs) +
                   length (List.filter
                     (fun m => mentions_meeting m && says_absent m) msgs))%nat /\
                  (0 < length (List.filter mentions_meeting msgs))%nat).
  { induction Hex as [m l Hm | m l _ IH]; cbn [List.filter].
    - apply andb_true_iff in Hm as [-> Hm]. cbn [andb length].
      split; [|lia]. apply orb_true_iff in Hm as [-> | ->]; cbn [length]; lia.
    - destruct IH. destruct (mentions_meeting m); cbn [andb];
        [destruct (says_attending m), (says_absent m)|]; cbn [length]; split; lia. }
  destruct Hsome as [Hsome Hmeet].
  destruct (detect_meeting_attendance_counts msgs) as (Hn & Hd & Ha & Hb & _).
  cbn zeta in *.
  unfold meeting_section. rewrite Hd, Hn.
  replace (0 <? Z.of_nat _) with true by (symmetry; apply Z.ltb_lt; lia).
  destruct (attendees (detect_meeting_attendance msgs)) as [|a la].
  - destruct (absences (detect_meeting_attendance msgs)) as [|b lb];
      [cbn [length] in Ha, Hb; lia|].
    rewrite absence_lines_raise. reflexivity.
  - rewrite join_values_dicts. reflexivity.
Qed.

End MeetingProps.

Lemma meeting_section_raises_witness :
  let msgs := [{| user_id := py "U1"; user_name := py "Ana (@ana)";
                  text := py "Me uno al daily en cinco minutos";
                  ts := py "1700000000.000100" |}] in
  attendees (detect_meeting_attendance (rt := example_runtime) msgs) =
    [{| attendee_name := py "Ana (@ana)";
        attendee_context := py "Me uno al daily en cinco minutos" |}] /\
  meeting_section (detect_meeting_attendance (rt := example_runtime) msgs) = None.
Proof.
  cbn zeta. split; [vm_compute; reflexivity|].
  apply (meeting_section_raises (rt := example_runtime)).
  apply Exists_cons_hd. vm_compute. reflexivity.
Defined.

(** ** The links to threads *)

Section LinkProps.
Context `{rt : PyBuiltins}.

(** The loop with its [break] collects the first messages that pass the
    test, until there are three links. *)
Lemma collect_links_firstn (test : enriched -> bool) (channel_id : pystr)
    (msgs : list enriched) :
  forall found,
    (length found < 3)%nat ->
    collect_links test channel_id msgs found =
    found ++ List.map (fun m => link_to channel_id (text m) (user_name m) (ts m))
                      (firstn (3 - length found) (List.filter test msgs)).
Proof.
  induction msgs as [|m msgs IH]; intros found Hlen; cbn [collect_links List.filter].
  - rewrite firstn_nil. cbn. rewrite app_nil_r. reflexivity.
  - destruct (test m); [|apply IH, Hlen].
    cbn zeta. rewrite length_app. cbn [length].
    destruct (3 - length found)%nat as [|k] eqn:Hk; [lia|]. cbn [firstn List.map].
    destruct (3 <=? length found + 1)%nat eqn:Hfull.
    + apply Nat.leb_le in Hfull. assert (k = 0)%nat as -> by lia. reflexivity.
    + apply Nat.leb_gt in Hfull. rewrite IH by (rewrite length_app; cbn; lia).
      rewrite length_app. cbn [length].
      replace (3 - (length found + 1))%nat with k by lia.
      rewrite <- app_assoc. reflexivity.
Qed.

(** X12. [get_slack_thread_links] links the first five updates, the
    first three messages that contain a question mark and the first
    three messages that contain a risk keyword, each group in the order
    of its list; every link text is the first 50 characters followed by
    three dots, also when the text was shorter. *)
Theorem get_slack_thread_links_first (msgs : list enriched) (updates : list update)
    (channel_id : pystr) :
  let r := get_slack_thread_links msgs updates channel_id in
  let link_of m := link_to channel_id (text m) (user_name m) (ts m) in
  let link_of_update u :=
    link_to channel_id (upd_text u) (upd_user_name u) (upd_timestamp u) in
  updates_links r = List.map link_of_update (firstn 5 updates) /\
  decisions_links r = List.map link_of (firstn 3 (List.filter asks_question msgs)) /\
  risks_links r = List.map link_of (firstn 3 (List.filter mentions_risk msgs)) /\
  length (updates_links r) = Nat.min 5 (length updates) /\
  length (decisions_links r) = Nat.min 3 (length (List.filter asks_question msgs)) /\
  length (risks_links r) = Nat.min 3 (length (List.filter mentions_risk msgs)) /\
  (length (updates_links r) <= 5)%nat /\
  (length (decisions_links r) <= 3)%nat /\
  (length (risks_links r) <= 3)%nat /\
  Forall (fun l => exists body, link_text l = str_prefix 50 body ++ py "...")
         (updates_links r ++ decisions_links r ++ risks_links r).
Proof.
  cbn zeta. unfold get_slack_thread_links.
  cbn [updates_links decisions_links risks_links].
  rewrite !collect_links_firstn by (cbn; lia). cbn [length app Nat.sub].
  repeat split; rewrite ?length_map, ?length_firstn; try lia.
  rewrite !Forall_app. repeat split; apply List.Forall_forall; intros l Hl;
    apply in_map_iff in Hl as (x & <- & _); eexists; reflexivity.
Qed.

End LinkProps.

(** ** The start of the window of business days *)

Section BusinessDays.

Lemma business_days_between_refl (d : Z) : business_days_between d d = 0.
Proof. unfold business_days_between. rewrite seqZ_nil by lia. reflexivity. Qed.

Lemma business_days_between_last (first last : Z) :
  first <= last ->
  business_days_between first (last + 1) =
  business_days_between first last + (if weekday last <? 5 then 1 else 0).
Proof.
  intros Hle. unfold business_days_between.
  replace (last + 1 - first) with ((last - first) + 1) by lia.
  rewrite seqZ_app by lia. replace (first + (last - first)) with last by lia.
  rewrite (seqZ_cons last 1) by lia. rewrite (seqZ_nil _ (Z.pred 1)) by lia.
  rewrite List.filter_app, length_app. cbn [List.filter].
  destruct (weekday last <? 5); cbn [length]; lia.
Qed.

(** A weekend has two days: of three days in a row, one is a business
    day. *)
Lemma weekend_is_two_days (d : Z) :
  (weekday (d - 1) <? 5) = false -> (weekday (d - 2) <? 5) = false ->
  (weekday (d - 3) <? 5) = true.
Proof.
  unfold weekday. intros H1 H2. apply Z.ltb_ge in H1, H2. apply Z.ltb_lt.
  pose proof (Z.mod_pos_bound (d - 1 + 6) 7 ltac:(lia)).
  pose proof (Z.mod_pos_bound (d - 2 + 6) 7 ltac:(lia)).
  pose proof (Z.mod_pos_bound (d - 3 + 6) 7 ltac:(lia)).
  pose proof (Z.div_mod (d - 1 + 6) 7 ltac:(lia)).
  pose proof (Z.div_mod (d - 2 + 6) 7 ltac:(lia)).
  pose proof (Z.div_mod (d - 3 + 6) 7 ltac:(lia)).
  lia.
Qed.

Lemma business_days_loop_step (fuel : nat) (days current_date count : Z) :
  count < days ->
  business_days_loop (S fuel) days current_date count =
  business_days_loop fuel days (current_date - 1)
    (if weekday (current_date - 1) <? 5 then count + 1 else count).
Proof.
  intros Hlt. cbn [business_days_loop].
  replace (count <? days) with true by (symmetry; apply Z.ltb_lt; lia). reflexivity.
Qed.

(** With three units of fuel for each business day still to find, and
    one more, the loop ends. *)
Lemma business_days_loop_spec (n : nat) :
  forall (fuel : nat) (days current_date count : Z),
    days - count = Z.of_nat n ->
    (3 * n < fuel)%nat ->
    exists start,
      business_days_loop fuel days current_date count = Some start /\
      current_date - 3 * Z.of_nat n <= start <= current_date - Z.of_nat n /\
      business_days_between start current_date = Z.of_nat n /\
      (n = 0%nat -> start = current_date) /\
      (n <> 0%nat -> weekday start < 5).
Proof.
  induction n as [|n IH]; intros fuel days current_date count Hn Hfuel.
  - destruct fuel as [|fuel]; [lia|]. cbn [business_days_loop].
    replace (count <? days) with false by (symmetry; apply Z.ltb_ge; lia).
    exists current_date. rewrite business_days_between_refl.
    repeat split; try lia.
  - assert (Hfound : forall f cur,
              (3 * n < f)%nat -> cur < current_date -> current_date - 3 <= cur ->
              (weekday cur <? 5) = true ->
              business_days_between cur current_date = 1 ->
              exists start,
                business_days_loop f days cur (count + 1) = Some start /\
                current_date - 3 * Z.of_nat (S n) <= start <= current_date - Z.of_nat (S n) /\
                business_days_between start current_date = Z.of_nat (S n) /\
                (S n = 0%nat -> start = current_date) /\
                (S n <> 0%nat -> weekday start < 5)).
    { intros f cur Hf Hlt Hge Hwd Hnone.
      destruct (IH f days cur (count + 1) ltac:(lia) Hf)
        as (start & Hloop & Hrange & Hcount & Hzero & Hday).
      exists start. split; [exact Hloop|]. split; [lia|]. split; [|split; [lia|]].
      - assert (Hsplit : business_days_between start current_date =
                         business_days_between start cur +
                         business_days_between cur current_date).
        { unfold business_days_between.
          replace (current_date - start) with ((cur - start) + (current_date - cur)) by lia.
          rewrite seqZ_app by lia. replace (start + (cur - start)) with cur by lia.
          rewrite List.filter_app, length_app. lia. }
        rewrite Hsplit, Hcount, Hnone. lia.
      - intros _. destruct n as [|n'].
        + rewrite (Hzero eq_refl). apply Z.ltb_lt, Hwd.
        + apply Hday. discriminate. }
    assert (Hone : forall d, business_days_between d (d + 1) =
                             if weekday d <? 5 then 1 else 0).
    { intros d. rewrite business_days_between_last, business_days_between_refl by lia.
      reflexivity. }
    assert (Htwo : forall d, business_days_between d (d + 2) =
                             (if weekday d <? 5 then 1 else 0) +
                             (if weekday (d + 1) <? 5 then 1 else 0)).
    { intros d. replace (d + 2) with (d + 1 + 1) by lia.
      rewrite business_days_between_last, Hone by lia. reflexivity. }
    assert (Hthree : forall d, business_days_between d (d + 3) =
                               (if weekday d <? 5 then 1 else 0) +
                               (if weekday (d + 1) <? 5 then 1 else 0) +
                               (if weekday (d + 2) <? 5 then 1 else 0)).
    { intros d. replace (d + 3) with (d + 2 + 1) by lia.
      rewrite business_days_between_last, Htwo by lia. reflexivity. }
    destruct fuel as [|f1]; [lia|]. rewrite business_days_loop_step by lia.
    destruct (weekday (current_date - 1) <? 5) eqn:H1.
    { apply Hfound; try lia.
      replace current_date with (current_date - 1 + 1) at 2 by lia.
      rewrite Hone, H1. reflexivity. }
    destruct f1 as [|f2]; [lia|]. rewrite business_days_loop_step by lia.
    replace (current_date - 1 - 1) with (current_date - 2) by lia.
    destruct (weekday (current_date - 2) <? 5) eqn:H2.
    { apply Hfound; try lia.
      replace current_date with (current_date - 2 + 2) at 2 by lia.
      rewrite Htwo, H2. replace (current_date - 2 + 1) with (current_date - 1) by lia.
      rewrite H1. reflexivity. }
    destruct f2 as [|f3]; [lia|]. rewrite business_days_loop_step by lia.
    replace (current_date - 2 - 1) with (current_date - 3) by lia.
    pose proof (weekend_is_two_days current_date H1 H2) as H3. rewrite H3.
    apply Hfound; try lia.
    replace current_date with (current_date - 3 + 3) at 2 by lia.
    rewrite Hthree, H3.
    replace (current_date - 3 + 1) with (current_date - 2) by lia.
    replace (current_date - 3 + 2) with (current_date - 1) by lia.
    rewrite H1, H2. reflexivity.
Qed.

(** X13. For every date and every number of days, the loop of
    [calculate_business_days] ends (three rounds for each business day
    asked for are enough). The date it returns is at least [days] and at
    most [3 * days] calendar days back; exactly [days] of the dates from
    it up to yesterday fall between Monday and Friday; and it is itself
    such a date when [days] is positive. *)
Theorem calculate_business_days_spec (fuel : nat) (today days : Z) :
  0 <= days ->
  3 * days < Z.of_nat fuel ->
  exists start,
    calculate_business_days fuel today days = Some start /\
    today - 3 * days <= start <= today - days /\
    business_days_between start today = days /\
    (0 < days -> weekday start < 5).
Proof.
  intros Hdays Hfuel. unfold calculate_business_days.
  destruct (business_days_loop_spec (Z.to_nat days) fuel days today 0)
    as (start & Hloop & Hrange & Hcount & _ & Hday); [lia | lia |].
  rewrite Z2Nat.id in * by lia.
  exists start. split; [exact Hloop|]. split; [lia|]. split; [exact Hcount|].
  intros Hpos. apply Hday. lia.
Qed.

End BusinessDays.

Lemma calculate_business_days_spec_witness :
  exists start,
    calculate_business_days 31 739558 10 = Some start /\
    739558 - 3 * 10 <= start <= 739558 - 10 /\
    business_days_between start 739558 = 10 /\
    (0 < 10 -> weekday start < 5).
Proof. apply calculate_business_days_spec; lia. Defined.

(** With the default of 10 days only the day of the week matters. *)
Section TenBusinessDays.

Lemma weekday_shift (d k : Z) : weekday (d + 7 * k) = weekday d.
Proof.
  unfold weekday. replace (d + 7 * k + 6) with (d + 6 + k * 7) by lia.
  apply Z_mod_plus_full.
Qed.

Lemma business_days_loop_shift (fuel : nat) (days k : Z) :
  forall current_date count,
    business_days_loop fuel days (current_date + 7 * k) count =
    (fun start => start + 7 * k) <$> business_days_loop fuel days current_date count.
Proof.
  induction fuel as [|fuel IH]; intros current_date count; [reflexivity|].
  cbn [business_days_loop]. destruct (count <? days); [|reflexivity].
  replace (current_date + 7 * k - 1) with (current_date - 1 + 7 * k) by lia.
  rewrite weekday_shift. apply IH.
Qed.

Lemma business_days_loop_more_fuel (fuel : nat) (days : Z) :
  forall current_date count start,
    business_days_loop fuel days current_date count = Some start ->
    business_days_loop (S fuel) days current_date count = Some start.
Proof.
  induction fuel as [|fuel IH]; intros current_date count start Hloop; [discriminate|].
  cbn [business_days_loop] in Hloop.
  change (business_days_loop (S (S fuel)) days current_date count)
    with (if count <? days
          then business_days_loop (S fuel) days (current_date - 1)
                 (if weekday (current_date - 1) <? 5 then count + 1 else count)
          else Some current_date).
  destruct (count <? days); [apply IH, Hloop | exact Hloop].
Qed.

(** X14. With the 10 business days every caller asks for, the window
    starts 14 calendar days back when today is a day from Monday to
    Friday, 12 days back on a Saturday and 13 days back on a Sunday,
    whatever the date. *)
Theorem calculate_business_days_ten (fuel : nat) (today : Z) :
  (30 < fuel)%nat ->
  calculate_business_days fuel today 10 =
  Some (today - (if weekday today <? 5 then 14 else if weekday today =? 5 then 12 else 13)).
Proof.
  intros Hfuel. unfold calculate_business_days.
  assert (H31 : business_days_loop 31 10 today 0 =
                Some (today - (if weekday today <? 5 then 14
                               else if weekday today =? 5 then 12 else 13))).
  { pose proof (Z.div_mod today 7 ltac:(lia)) as Hdiv.
    pose proof (Z.mod_pos_bound today 7 ltac:(lia)) as Hmod.
    set (q := today / 7) in *. set (r := today mod 7) in *.
    replace today with (r + 7 * q) by lia.
    rewrite business_days_loop_shift, weekday_shift.
    assert (Hr : r = 0 \/ r = 1 \/ r = 2 \/ r = 3 \/ r = 4 \/ r = 5 \/ r = 6) by lia.
    clearbody q r. clear Hdiv Hmod.
    destruct Hr as [->|[->|[->|[->|[->|[->| ->]]]]]];
      vm_compute business_days_loop; vm_compute weekday; cbn [fmap option_fmap option_map
        Z.ltb Z.eqb Z.compare Pos.compare Pos.compare_cont Pos.eqb]; f_equal; lia. }
  clear -H31 Hfuel. 
  replace fuel with ((fuel - 31) + 31)%nat by lia.
  induction (fuel - 31)%nat as [|k IH]; [exact H31|].
  cbn [Nat.add]. apply business_days_loop_more_fuel, IH.
Qed.

End TenBusinessDays.

Lemma calculate_business_days_ten_witness :
  calculate_business_days 40 739558 10 = Some 739544 /\ weekday 739558 = 0.
Proof.
  split; [|reflexivity].
  apply (calculate_business_days_ten 40 739558). lia.
Defined.

(** ** The cache of user names *)

Section EnrichProps.
Variable users_info : nat -> pystr -> option (pystr * pystr).

(** The users whose lookup succeeded are those in the cache, each
    looked up once. *)
Local Abbreviation cached_once st :=
  (NoDup (List.map fst (List.filter snd (users_info_calls st))) /\
   forall uid, In uid (List.map fst (List.filter snd (users_info_calls st))) <->
               is_Some (user_cache st !! uid)).

Lemma get_user_name_cached_once (uid : pystr) (st : name_lookups) :
  cached_once st -> cached_once (snd (get_user_name users_info uid st)).
Proof.
  intros [Hnd Hin]. unfold get_user_name.
  destruct (user_cache st !! uid) as [cached|] eqn:Hc; [split; assumption|].
  destruct (users_info _ uid) as [[real_name username]|];
    cbn [snd users_info_calls user_cache]; rewrite List.filter_app, List.map_app;
    cbn [List.filter List.map snd fst].
  - split.
    + apply NoDup_app. split; [exact Hnd|]. split; [|apply NoDup_singleton].
      intros x Hx Hx'. apply list_elem_of_singleton in Hx' as ->.
      apply list_elem_of_In, Hin in Hx. rewrite Hc in Hx. destruct Hx as [? [=]].
    + intros x. rewrite in_app_iff. cbn [In].
      destruct (decide (x = uid)) as [->|Hne].
      * rewrite lookup_insert_eq. split; [eauto | auto].
      * rewrite lookup_insert_ne by congruence. rewrite <- Hin. intuition congruence.
  - rewrite app_nil_r. split; assumption.
Qed.

Lemma get_user_name_calls (uid : pystr) (st : name_lookups) :
  (length (users_info_calls (snd (get_user_name users_info uid st))) <=
   S (length (users_info_calls st)))%nat.
Proof.
  unfold get_user_name. destruct (user_cache st !! uid); [cbn; lia|].
  destruct (users_info _ uid) as [[real_name username]|];
    cbn [snd users_info_calls]; rewrite length_app; cbn; lia.
Qed.

Lemma enrich_messages_with_names_invariant (messages : list slack_message) :
  forall st out st',
    enrich_messages_with_names users_info messages st = Some (out, st') ->
    cached_once st ->
    cached_once st' /\
    length out = length (List.filter (fun msg => bool_decide (is_Some (msg_user msg))) messages) /\
    (length (users_info_calls st') <= length (users_info_calls st) + length out)%nat.
Proof.
  induction messages as [|msg rest IH]; intros st out st' Hrun Hst;
    cbn [enrich_messages_with_names List.filter] in *.
  - injection Hrun as <- <-. cbn. split; [exact Hst | lia].
  - destruct (msg_user msg) as [uid|].
    + pose proof (get_user_name_cached_once uid st Hst) as Hst1.
      pose proof (get_user_name_calls uid st) as Hcalls.
      destruct (get_user_name users_info uid st) as [display st1]. cbn [snd] in *.
      apply bind_Some in Hrun as (stamp & _ & Hrun).
      apply bind_Some in Hrun as ([enriched_rest st2] & Hrest & Hrun).
      injection Hrun as <- <-.
      destruct (IH _ _ _ Hrest Hst1) as (Hst2 & Hlen & Hcalls2).
      rewrite bool_decide_eq_true_2 by eauto. cbn [length]. rewrite Hlen.
      split; [exact Hst2 | lia].
    + rewrite bool_decide_eq_false_2 by (intros [? [=]]).
      apply (IH _ _ _ Hrun Hst).
Qed.

(** X15. Starting from an empty cache, [enrich_messages_with_names]
    keeps one message for each input message that has a user, and never
    asks Slack twice for a user whose lookup succeeded: the successful
    lookups are for distinct users, exactly those the cache holds at the
    end (a failed lookup is not cached). In all there are at most as
    many calls as messages kept. *)
Theorem enrich_messages_with_names_lookups (messages : list slack_message)
    (out : list enriched) (st' : name_lookups) :
  enrich_messages_with_names users_info messages
    {| user_cache := ∅; users_info_calls := [] |} = Some (out, st') ->
  NoDup (List.map fst (List.filter snd (users_info_calls st'))) /\
  (forall uid, In uid (List.map fst (List.filter snd (users_info_calls st'))) <->
               is_Some (user_cache st' !! uid)) /\
  length out = length (List.filter (fun msg => bool_decide (is_Some (msg_user msg))) messages) /\
  (length (users_info_calls st') <= length out)%nat.
Proof.
  intros Hrun.
  destruct (enrich_messages_with_names_invariant messages _ _ _ Hrun)
    as ((Hnd & Hin) & Hlen & Hcalls).
  - cbn. split; [constructor|]. intros uid. rewrite lookup_empty.
    split; [intros [] | intros [? [=]]].
  - cbn [users_info_calls length Nat.add] in Hcalls. auto.
Qed.

End EnrichProps.

Section EnrichNames.
Variable directory : pystr -> option (pystr * pystr).

Local Abbreviation cache_agrees st :=
  (forall uid cached, user_cache st !! uid = Some cached ->
                      cached = display_name (directory uid) uid).

Lemma get_user_name_agrees (uid : pystr) (st : name_lookups) :
  cache_agrees st ->
  fst (get_user_name (fun _ => directory) uid st) = display_name (directory uid) uid /\
  cache_agrees (snd (get_user_name (fun _ => directory) uid st)).
Proof.
  intros Hst. unfold get_user_name.
  destruct (user_cache st !! uid) as [cached|] eqn:Hc.
  - split; [apply Hst, Hc | exact Hst].
  - destruct (directory uid) as [[real_name username]|] eqn:Hd; cbn [fst snd user_cache].
    + split; [reflexivity|]. intros x cached.
      destruct (decide (x = uid)) as [->|Hne].
      * rewrite lookup_insert_eq, Hd. intros [= <-]. reflexivity.
      * rewrite lookup_insert_ne by congruence. apply Hst.
    + split; [reflexivity | exact Hst].
Qed.

Lemma enrich_messages_with_names_agrees (messages : list slack_message) :
  forall st out st',
    enrich_messages_with_names (fun _ => directory) messages st = Some (out, st') ->
    cache_agrees st ->
    Forall (fun m => user_name m = display_name (directory (user_id m)) (user_id m)) out.
Proof.
  induction messages as [|msg rest IH]; intros st out st' Hrun Hst;
    cbn [enrich_messages_with_names] in Hrun.
  - injection Hrun as <- <-. constructor.
  - destruct (msg_user msg) as [uid|]; [|apply (IH _ _ _ Hrun Hst)].
    destruct (get_user_name_agrees uid st Hst) as [Hname Hst1].
    destruct (get_user_name (fun _ => directory) uid st) as [display st1]. cbn [fst snd] in *.
    apply bind_Some in Hrun as (stamp & _ & Hrun).
    apply bind_Some in Hrun as ([enriched_rest st2] & Hrest & Hrun).
    injection Hrun as <- <-. constructor; [exact Hname | apply (IH _ _ _ Hrest Hst1)].
Qed.

(** X16. The cache does not change the names: when the answers of
    [users_info] do not change during the run, every enriched message
    carries the name that a fresh lookup of its user gives, "real name
    (@name)" or "Usuario id" when the lookup fails. *)
Theorem enrich_messages_with_names_names (messages : list slack_message)
    (out : list enriched) (st' : name_lookups) :
  enrich_messages_with_names (fun _ => directory) messages
    {| user_cache := ∅; users_info_calls := [] |} = Some (out, st') ->
  Forall (fun m => user_name m = display_name (directory (user_id m)) (user_id m)) out.
Proof.
  intros Hrun. apply (enrich_messages_with_names_agrees messages _ _ _ Hrun).
  intros uid cached. cbn [user_cache]. rewrite lookup_empty. discriminate.
Qed.

End EnrichNames.

(** ** The channel metrics *)

Section MetricsProps.
Variable conversations_members : option (list pystr).

Local Abbreviation at_least := (fun a b : pystr * Z => snd b <= snd a).

Lemma insert_desc_perm (x : pystr * Z) (l : list (pystr * Z)) :
  Permutation (insert_desc x l) (x :: l).
Proof.
  induction l as [|y l IH]; cbn [insert_desc]; [reflexivity|].
  destruct (snd x <? snd y); [|reflexivity].
  rewrite IH. apply perm_swap.
Qed.

Lemma sorted_desc_perm (l : list (pystr * Z)) : Permutation (sorted_desc l) l.
Proof.
  induction l as [|x l IH]; cbn [sorted_desc]; [reflexivity|].
  rewrite insert_desc_perm, IH. reflexivity.
Qed.

Lemma insert_desc_sorted (x : pystr * Z) (l : list (pystr * Z)) :
  StronglySorted at_least l -> StronglySorted at_least (insert_desc x l).
Proof.
  induction 1 as [|y l Hl IH Hy]; cbn [insert_desc].
  - constructor; constructor.
  - destruct (snd x <? snd y) eqn:Hlt.
    + apply Z.ltb_lt in Hlt. constructor; [exact IH|].
      rewrite insert_desc_perm. constructor; [lia | exact Hy].
    + apply Z.ltb_ge in Hlt. constructor; [constructor; assumption|].
      constructor; [exact Hlt|].
      eapply Forall_impl; [exact Hy|]. cbn. intros z Hz. lia.
Qed.

Lemma sorted_desc_sorted (l : list (pystr * Z)) : StronglySorted at_least (sorted_desc l).
Proof.
  induction l as [|x l IH]; cbn [sorted_desc]; [constructor | apply insert_desc_sorted, IH].
Qed.

Lemma sorted_app_inv (l1 l2 : list (pystr * Z)) :
  StronglySorted at_least (l1 ++ l2) ->
  StronglySorted at_least l1 /\
  forall x y, In x l1 -> In y l2 -> snd y <= snd x.
Proof.
  induction l1 as [|a l1 IH]; cbn [app]; intros Hs.
  - split; [constructor | intros x y []].
  - apply StronglySorted_inv in Hs as [Hs Ha]. destruct (IH Hs) as [Hs1 Hcross].
    apply Forall_app in Ha as [Ha1 Ha2]. split; [constructor; assumption|].
    intros x y [<-|Hx] Hy; [|apply Hcross; assumption].
    rewrite List.Forall_forall in Ha2. apply Ha2, Hy.
Qed.

Lemma bump_count_spec (key : pystr) (d : list (pystr * Z)) :
  NoDup (List.map fst d) ->
  NoDup (List.map fst (bump_count key d)) /\
  (forall k, In k (List.map fst (bump_count key d)) <-> k = key \/ In k (List.map fst d)) /\
  Zsum (List.map snd (bump_count key d)) = Zsum (List.map snd d) + 1 /\
  (Forall (fun kv => 1 <= snd kv) d -> Forall (fun kv => 1 <= snd kv) (bump_count key d)).
Proof.
  induction d as [|[k v] d IH]; cbn [bump_count List.map fst snd]; intros Hnd.
  - split; [apply NoDup_singleton|]. split; [intros k; cbn; intuition congruence|].
    split; [reflexivity|]. intros _. repeat constructor. cbn. lia.
  - apply NoDup_cons in Hnd as [Hk Hnd]. destruct (IH Hnd) as (IH1 & IH2 & IH3 & IH4).
    unfold eqb. destruct (decide (k = key)) as [->|Hne].
    + rewrite bool_decide_eq_true_2 by reflexivity. cbn [List.map fst snd].
      split; [apply NoDup_cons; split; assumption|].
      split; [intros x; cbn [In]; intuition congruence|].
      split; [unfold Zsum; cbn [fold_right]; lia|].
      intros Hall. apply Forall_cons in Hall as [Hv Hall]. cbn in Hv.
      constructor; [cbn; lia | exact Hall].
    + rewrite bool_decide_eq_false_2 by assumption. cbn [List.map fst snd].
      split.
      { apply NoDup_cons. split; [|exact IH1].
        intros Hin. apply list_elem_of_In, IH2 in Hin as [Hin|Hin]; [congruence|].
        apply Hk, list_elem_of_In, Hin. }
      split; [intros x; cbn [In]; rewrite IH2; intuition congruence|].
      split; [unfold Zsum in *; cbn [fold_right]; lia|].
      intros Hall. apply Forall_cons in Hall as [Hv Hall].
      constructor; [exact Hv | apply IH4, Hall].
Qed.

(** The dict of counts: one key for every name that wrote. *)
Lemma user_message_count_keys (msgs : list enriched) :
  let d := user_message_count msgs in
  NoDup (List.map fst d) /\
  (forall name0, In name0 (List.map fst d) <-> In name0 (List.map user_name msgs)) /\
  Forall (fun kv => 1 <= snd kv) d /\
  Zsum (List.map snd d) = Z.of_nat (length msgs).
Proof.
  cbn zeta. unfold user_message_count.
  induction msgs as [|m msgs IH] using rev_ind.
  - cbn. split; [constructor|]. split; [tauto|]. split; [constructor | reflexivity].
  - rewrite fold_left_app. cbn [fold_left].
    destruct IH as (IH1 & IH2 & IH3 & IH4).
    destruct (bump_count_spec (user_name m) _ IH1) as (H1 & H2 & H3 & H4).
    split; [exact H1|]. split; [|split; [apply H4, IH3|]].
    + intros name0. rewrite H2, IH2, List.map_app, in_app_iff. cbn [List.map In].
      intuition.
    + rewrite H3, IH4, length_app. cbn [length]. lia.
Qed.

Local Abbreviation written name msgs :=
  (Z.of_nat (length (List.filter (fun msg : enriched => eqb (user_name msg) name) msgs))).

Lemma written_none (name0 : pystr) (msgs : list enriched) :
  ~ In name0 (List.map user_name msgs) ->
  List.filter (fun msg : enriched => eqb (user_name msg) name0) msgs = [].
Proof.
  induction msgs as [|x l IH]; [reflexivity|]. cbn [List.filter List.map In]. intros Hout.
  unfold eqb. destruct (decide (user_name x = name0)) as [Heq|Hne].
  - exfalso. apply Hout. left. exact Heq.
  - rewrite bool_decide_eq_false_2 by assumption.
    apply IH. intros H'. apply Hout. right. exact H'.
Qed.

(** One update of the dict, entry by entry. *)
Lemma bump_count_entry (key : pystr) (d : list (pystr * Z)) (f : pystr -> Z) :
  NoDup (List.map fst d) ->
  (forall k v, In (k, v) d -> v = f k) ->
  (~ In key (List.map fst d) -> f key = 0) ->
  forall k v, In (k, v) (bump_count key d) -> v = f k + (if eqb k key then 1 else 0).
Proof.
  induction d as [|[k0 v0] d IH]; cbn [bump_count List.map fst]; intros Hnd Hd Hkey k v Hin.
  - destruct Hin as [[= <- <-]|[]]. unfold eqb. rewrite bool_decide_eq_true_2 by reflexivity.
    rewrite Hkey by (intros []). lia.
  - apply NoDup_cons in Hnd as [Hk0 Hnd]. unfold eqb in *.
    destruct (decide (k0 = key)) as [->|Hne].
    + rewrite bool_decide_eq_true_2 in Hin by reflexivity.
      destruct Hin as [[= <- <-]|Hin].
      * rewrite bool_decide_eq_true_2 by reflexivity.
        rewrite (Hd key v0) by (left; reflexivity). reflexivity.
      * assert (k <> key).
        { intros ->. apply Hk0, list_elem_of_In, in_map_iff. exists (key, v). auto. }
        rewrite bool_decide_eq_false_2 by assumption.
        rewrite (Hd k v) by (right; exact Hin). lia.
    + rewrite bool_decide_eq_false_2 in Hin by assumption.
      destruct Hin as [[= <- <-]|Hin].
      * rewrite bool_decide_eq_false_2 by assumption.
        rewrite (Hd k0 v0) by (left; reflexivity). lia.
      * apply IH; [exact Hnd | | | exact Hin].
        -- intros k' v' H'. apply Hd. right. exact H'.
        -- intros Hout. apply Hkey. cbn [In]. intros [?|?]; [congruence | contradiction].
Qed.

(** Each entry of the dict holds the number of messages written under
    its name. *)
Lemma user_message_count_entry (msgs : list enriched) (k : pystr) (v : Z) :
  In (k, v) (user_message_count msgs) -> v = written k msgs.
Proof.
  revert k v. induction msgs as [|m msgs IH] using rev_ind; intros k v Hin; [destruct Hin|].
  destruct (user_message_count_keys msgs) as (Hnd & Hkeys & _ & _).
  unfold user_message_count in *. rewrite fold_left_app in Hin. cbn [fold_left] in Hin.
  apply (bump_count_entry _ _ (fun name0 => written name0 msgs) Hnd IH) in Hin.
  - rewrite Hin, List.filter_app, length_app. cbn [List.filter].
    destruct (eqb (user_name m) k) eqn:Hm; unfold eqb in *.
    + apply bool_decide_eq_true in Hm as ->.
      rewrite bool_decide_eq_true_2 by reflexivity. cbn [length]. lia.
    + apply bool_decide_eq_false in Hm.
      rewrite bool_decide_eq_false_2 by congruence. cbn [length]. lia.
  - intros Hout. rewrite Hkeys in Hout.
    rewrite (written_none _ _ Hout). reflexivity.
Qed.

(** X17. [top_active] lists the most active users: as many as there are
    names that wrote a message, up to three, each name once and with the
    number of messages written under it, by decreasing number; and no
    name left out of the list wrote more messages than one in it. *)
Theorem calculate_metrics_top_active (msgs : list enriched) :
  let m := calculate_metrics conversations_members msgs in
  length (top_active m) =
    Nat.min 3 (size (list_to_set (List.map user_name msgs) : gset pystr)) /\
  NoDup (List.map fst (top_active m)) /\
  Forall (fun x => In (fst x) (List.map user_name msgs) /\
                   In x (user_message_count msgs) /\
                   snd x = written (fst x) msgs) (top_active m) /\
  (length (top_active m) <= 3)%nat /\
  StronglySorted (fun a b => snd b <= snd a) (top_active m) /\
  (forall x y,
     In x (top_active m) -> In y (user_message_count msgs) -> ~ In y (top_active m) ->
     snd y <= snd x) /\
  (forall name0 x,
     In name0 (List.map user_name msgs) -> ~ In name0 (List.map fst (top_active m)) ->
     In x (top_active m) -> written name0 msgs <= snd x).
Proof.
  cbn zeta. unfold calculate_metrics. cbn [top_active].
  destruct (user_message_count_keys msgs) as (Hnd & Hkeys & _ & _).
  set (table := user_message_count msgs) in *.
  set (sorted := sorted_desc table).
  assert (Hperm : Permutation sorted table) by apply sorted_desc_perm.
  assert (Hsorted : StronglySorted at_least (firstn 3 sorted ++ skipn 3 sorted))
    by (rewrite firstn_skipn; apply sorted_desc_sorted).
  apply sorted_app_inv in Hsorted as [Htop Hcross].
  assert (Hsub : forall x, In x (firstn 3 sorted) -> In x table).
  { intros x Hx. apply (Permutation_in x Hperm).
    rewrite <- (firstn_skipn 3 sorted). apply in_or_app. left. exact Hx. }
  assert (Hold : forall x y,
             In x (firstn 3 sorted) -> In y table -> ~ In y (firstn 3 sorted) ->
             snd y <= snd x).
  { intros x y Hx Hy Hout. apply Hcross; [exact Hx|].
    assert (Hin : In y sorted) by (apply (Permutation_in y (Permutation_sym Hperm)), Hy).
    rewrite <- (firstn_skipn 3 sorted) in Hin. apply in_app_or in Hin as [Hin|Hin];
      [contradiction | exact Hin]. }
  split; [|split; [|split; [|split; [|split; [|split]]]]].
  - rewrite length_firstn. f_equal.
    rewrite (Permutation_length Hperm), <- (length_map fst table).
    rewrite <- (size_list_to_set (C := gset pystr) _ Hnd). f_equal.
    apply set_eq. intros name0. rewrite !elem_of_list_to_set, !list_elem_of_In.
    apply Hkeys.
  - assert (Hnds : NoDup (List.map fst (firstn 3 sorted) ++ List.map fst (skipn 3 sorted))).
    { rewrite <- List.map_app, firstn_skipn.
      rewrite (Permutation_map fst Hperm). exact Hnd. }
    apply NoDup_app in Hnds as [Hfirst _]. exact Hfirst.
  - apply List.Forall_forall. intros [k v] Hx. cbn [fst snd].
    pose proof (Hsub _ Hx) as Hin. split; [|split; [exact Hin|]].
    + apply Hkeys, in_map_iff. exists (k, v). auto.
    + apply (user_message_count_entry msgs k v Hin).
  - rewrite length_firstn; lia.
  - exact Htop.
  - exact Hold.
  - intros name0 x Hname Hout Hx.
    apply Hkeys, in_map_iff in Hname as ([k v] & Hk & Hin). cbn [fst] in Hk. subst k.
    rewrite <- (user_message_count_entry msgs name0 v Hin).
    apply (Hold x (name0, v) Hx Hin).
    intros Htopin. apply Hout, in_map_iff. exists (name0, v). auto.
Qed.

(** X18. The per-user counts behind [top_active] are keyed by the
    display name: every name that wrote a message has exactly one entry,
    each entry counts at least one message, and the counts add up to the
    number of messages. *)
Theorem user_message_count_total (msgs : list enriched) :
  let d := user_message_count msgs in
  NoDup (List.map fst d) /\
  (forall name0, In name0 (List.map fst d) <-> In name0 (List.map user_name msgs)) /\
  Forall (fun kv => 1 <= snd kv) d /\
  Zsum (List.map snd d) = Z.of_nat (length msgs).
Proof. exact (user_message_count_keys msgs). Qed.

End MetricsProps.

(** ** The users of the day and the team state *)

Section TeamStateProps.
Context `{rt : PyBuiltins}.
Variable conversations_members : option (list pystr).
Variable users_info : pystr -> option member_info.
Variable get_user_baseline : pystr -> option user_baseline.

Local Abbreviation count_by uid msgs :=
  (Z.of_nat (length (List.filter (fun m : enriched => eqb (user_id m) uid) msgs))).

Lemma fold_left_add_user_none (real l : list enriched) :
  fold_left (add_user get_user_baseline real) l None = None.
Proof. induction l as [|m l IH]; [reflexivity | exact IH]. Qed.

Lemma existsb_entry_id (users : list user_entry) (uid : pystr) :
  existsb (fun u => eqb (entry_id u) uid) users = true <-> In uid (List.map entry_id users).
Proof.
  rewrite existsb_exists, in_map_iff. unfold eqb.
  split; intros (u & H1 & H2); exists u.
  - apply bool_decide_eq_true in H2. auto.
  - split; [exact H2 | apply bool_decide_eq_true, H1].
Qed.

(** One round of the loop either leaves the list as it is, when the
    author is already in it, or adds the author with the number of
    their messages. *)
Lemma add_user_spec (real : list enriched) (users users' : list user_entry)
    (msg : enriched) :
  add_user get_user_baseline real (Some users) msg = Some users' ->
  (In (user_id msg) (List.map entry_id users) /\ users' = users) \/
  (~ In (user_id msg) (List.map entry_id users) /\
   exists u, users' = users ++ [u] /\ entry_id u = user_id msg /\
             messages_today u = count_by (user_id msg) real).
Proof.
  unfold add_user. cbn [mbind option_bind].
  destruct (existsb _ users) eqn:Hex.
  - intros [= <-]. left. split; [apply existsb_entry_id, Hex | reflexivity].
  - intros Hadd. right. split.
    { intros Hin. apply existsb_entry_id in Hin. congruence. }
    destruct (get_user_baseline (user_id msg)) as [b|].
    + apply bind_Some in Hadd as (c & _ & Hadd). injection Hadd as <-.
      eexists. split; [reflexivity|]. split; reflexivity.
    + injection Hadd as <-. eexists. split; [reflexivity|]. split; reflexivity.
Qed.

Lemma build_users_invariant (real l : list enriched) :
  forall (seen : list enriched) (users users' : list user_entry),
    fold_left (add_user get_user_baseline real) l (Some users) = Some users' ->
    NoDup (List.map entry_id users) ->
    (forall m, In m seen -> In (user_id m) (List.map entry_id users)) ->
    Forall (fun u => messages_today u = count_by (entry_id u) real /\
                     exists m, In m seen /\ user_id m = entry_id u) users ->
    NoDup (List.map entry_id users') /\
    (forall m, In m (seen ++ l) -> In (user_id m) (List.map entry_id users')) /\
    Forall (fun u => messages_today u = count_by (entry_id u) real /\
                     exists m, In m (seen ++ l) /\ user_id m = entry_id u) users'.
Proof.
  induction l as [|msg l IH]; intros seen users users' Hfold Hnd Hcover Hall.
  - injection Hfold as <-. rewrite app_nil_r. auto.
  - cbn [fold_left] in Hfold.
    destruct (add_user get_user_baseline real (Some users) msg) as [users1|] eqn:Hadd;
      [|rewrite fold_left_add_user_none in Hfold; discriminate].
    replace (seen ++ msg :: l) with ((seen ++ [msg]) ++ l)
      by (rewrite <- app_assoc; reflexivity).
    apply (IH (seen ++ [msg]) users1 users' Hfold).
    + destruct (add_user_spec _ _ _ _ Hadd) as [[_ ->]|(Hnew & u & -> & Hid & _)];
        [exact Hnd|].
      rewrite List.map_app. cbn [List.map]. rewrite Hid.
      apply NoDup_app. split; [exact Hnd|]. split; [|apply NoDup_singleton].
      intros x Hx Hx'. apply list_elem_of_singleton in Hx' as ->.
      apply Hnew, list_elem_of_In, Hx.
    + intros m Hm. apply in_app_or in Hm as [Hm|[<-|[]]].
      * destruct (add_user_spec _ _ _ _ Hadd) as [[_ ->]|(_ & u & -> & _)];
          [apply Hcover, Hm|].
        rewrite List.map_app. apply in_or_app. left. apply Hcover, Hm.
      * destruct (add_user_spec _ _ _ _ Hadd) as [[Hin ->]|(_ & u & -> & Hid & _)];
          [exact Hin|].
        rewrite List.map_app. apply in_or_app. right. cbn. auto.
    + assert (Hold : Forall (fun u => messages_today u = count_by (entry_id u) real /\
                               exists m, In m (seen ++ [msg]) /\ user_id m = entry_id u)
                            users).
      { eapply Forall_impl; [exact Hall|]. cbn. intros u [Hc (m & Hm & Hu)].
        split; [exact Hc|]. exists m. split; [apply in_or_app; auto | exact Hu]. }
      destruct (add_user_spec _ _ _ _ Hadd) as [[_ ->]|(_ & u & -> & Hid & Hcount)];
        [exact Hold|].
      apply Forall_app. split; [exact Hold|]. constructor; [|constructor].
      split; [rewrite Hid; exact Hcount|].
      exists msg. split; [apply in_or_app; right; cbn; auto | symmetry; exact Hid].
Qed.

Lemma count_by_positive (real : list enriched) (uid : pystr) :
  (exists m, In m real /\ user_id m = uid) -> 1 <= count_by uid real.
Proof.
  intros (m & Hm & Hu).
  assert (Hin : In m (List.filter (fun m0 : enriched => eqb (user_id m0) uid) real)).
  { apply filter_In. split; [exact Hm | apply bool_decide_eq_true, Hu]. }
  destruct (List.filter _ real); [destruct Hin | cbn [length]; lia].
Qed.

Lemma count_by_cons (m : enriched) (msgs : list enriched) (uid : pystr) :
  count_by uid (m :: msgs) =
  (if bool_decide (user_id m = uid) then 1 else 0) + count_by uid msgs.
Proof.
  cbn [List.filter]. unfold eqb at 1.
  destruct (bool_decide (user_id m = uid)); cbn [length]; lia.
Qed.

Lemma indicator_sum_out (x : pystr) (l : list pystr) :
  ~ In x l ->
  Zsum (List.map (fun uid => if bool_decide (x = uid) then 1 else 0) l) = 0.
Proof.
  unfold Zsum. induction l as [|i l IH]; intros Hnot; [reflexivity|].
  cbn [List.map fold_right].
  rewrite bool_decide_eq_false_2 by (intros ->; apply Hnot; left; reflexivity).
  rewrite IH by (intros H; apply Hnot; right; exact H). reflexivity.
Qed.

Lemma indicator_sum_in (x : pystr) (l : list pystr) :
  NoDup l -> In x l ->
  Zsum (List.map (fun uid => if bool_decide (x = uid) then 1 else 0) l) = 1.
Proof.
  induction l as [|i l IH]; intros Hnd Hin; [destruct Hin|].
  apply NoDup_cons in Hnd as [Hi Hnd].
  change (Zsum (List.map (fun uid => if bool_decide (x = uid) then 1 else 0) (i :: l)))
    with ((if bool_decide (x = i) then 1 else 0) +
          Zsum (List.map (fun uid => if bool_decide (x = uid) then 1 else 0) l)).
  destruct (decide (x = i)) as [->|Hne].
  - rewrite bool_decide_eq_true_2 by reflexivity.
    rewrite indicator_sum_out by (intros H; apply Hi, list_elem_of_In, H). reflexivity.
  - rewrite bool_decide_eq_false_2 by exact Hne.
    destruct Hin as [->|Hin]; [congruence|]. rewrite (IH Hnd Hin). reflexivity.
Qed.

(** Every message is counted for exactly one of a list of distinct ids
    that covers the authors. *)
Lemma count_by_partition (msgs : list enriched) (ids : list pystr) :
  NoDup ids ->
  (forall m, In m msgs -> In (user_id m) ids) ->
  Zsum (List.map (fun uid => count_by uid msgs) ids) = Z.of_nat (length msgs).
Proof.
  intros Hnd. induction msgs as [|m msgs IH]; intros Hcover.
  - cbn [List.filter length]. clear. induction ids as [|i ids IHi]; [reflexivity|].
    unfold Zsum in *. cbn [List.map fold_right]. rewrite IHi. reflexivity.
  - assert (Hsplit : forall l,
              Zsum (List.map (fun uid => count_by uid (m :: msgs)) l) =
              Zsum (List.map (fun uid => if bool_decide (user_id m = uid) then 1 else 0) l) +
              Zsum (List.map (fun uid => count_by uid msgs) l)).
    { clear. intros l. unfold Zsum. induction l as [|i l IHl]; [reflexivity|].
      cbn [List.map fold_right]. rewrite IHl, count_by_cons. lia. }
    rewrite Hsplit, indicator_sum_in by (auto using in_eq).
    rewrite IH by (intros x Hx; apply Hcover; right; exact Hx). cbn [length]. lia.
Qed.

(** X19. The list [users_with_baseline] that [analyze_with_claude]
    builds holds every author of a message exactly once, with
    [messages_today] the number of that author's messages, which is at
    least 1; the numbers add up to the number of messages. *)
Theorem build_users_with_baseline_counts (real_messages : list enriched)
    (users : list user_entry) :
  build_users_with_baseline get_user_baseline real_messages = Some users ->
  NoDup (List.map entry_id users) /\
  (forall m, In m real_messages -> In (user_id m) (List.map entry_id users)) /\
  Forall (fun u => messages_today u = count_by (entry_id u) real_messages /\
                   1 <= messages_today u) users /\
  Zsum (List.map messages_today users) = Z.of_nat (length real_messages).
Proof.
  unfold build_users_with_baseline. intros Hbuild.
  destruct (build_users_invariant real_messages real_messages [] [] users Hbuild)
    as (Hnd & Hcover & Hall); [constructor | intros m [] | constructor |].
  cbn [app] in *. split; [exact Hnd|]. split; [exact Hcover|]. split.
  - eapply Forall_impl; [exact Hall|]. cbn. intros u [Hc Hm].
    split; [exact Hc|]. rewrite Hc. apply count_by_positive, Hm.
  - rewrite <- (count_by_partition real_messages _ Hnd Hcover), List.map_map.
    f_equal. apply map_ext_in. intros u Hu.
    rewrite List.Forall_forall in Hall. apply (Hall u Hu).
Qed.

Lemma active_users_of_lookup (users : list user_entry) :
  forall (d : gmap pystr user_entry) (uid : pystr),
    (forall u, fold_left (fun d u => <[entry_id u := u]> d) users d !! uid = Some u ->
               d !! uid = Some u \/ (In u users /\ entry_id u = uid)) /\
    (In uid (List.map entry_id users) ->
     is_Some (fold_left (fun d u => <[entry_id u := u]> d) users d !! uid)) /\
    (is_Some (d !! uid) ->
     is_Some (fold_left (fun d u => <[entry_id u := u]> d) users d !! uid)).
Proof.
  induction users as [|v users IH]; intros d uid; cbn [fold_left List.map In].
  - split; [auto|]. split; [intros [] | auto].
  - destruct (IH (<[entry_id v := v]> d) uid) as (IH1 & IH2 & IH3).
    assert (Hkeep : is_Some (d !! uid) -> is_Some (<[entry_id v := v]> d !! uid)).
    { intros Hd. destruct (decide (entry_id v = uid)) as [<-|Hne].
      - rewrite lookup_insert_eq. eauto.
      - rewrite lookup_insert_ne by exact Hne. exact Hd. }
    split; [|split].
    + intros u Hu. destruct (IH1 u Hu) as [Hd|[Hin Hid]]; [|auto].
      destruct (decide (entry_id v = uid)) as [<-|Hne].
      * rewrite lookup_insert_eq in Hd. injection Hd as <-. auto.
      * rewrite lookup_insert_ne in Hd by exact Hne. auto.
    + intros [<-|Hin]; [|apply IH2, Hin].
      apply IH3. rewrite lookup_insert_eq. eauto.
    + intros Hd. apply IH3, Hkeep, Hd.
Qed.

Lemma fold_left_add_member_none (msgs : list enriched)
    (active : gmap pystr user_entry) (ids : list pystr) :
  fold_left (add_member users_info get_user_baseline msgs active) ids None = None.
Proof. induction ids as [|i ids IH]; [reflexivity | exact IH]. Qed.

(** Every entry of the capacity analysis was computed for its key. *)
Lemma analyze_capacity_entries (msgs : list enriched) (active : gmap pystr user_entry)
    (ids : list pystr) :
  forall (analysis analysis' : gmap pystr capacity),
    fold_left (add_member users_info get_user_baseline msgs active) ids (Some analysis) =
      Some analysis' ->
    forall uid c,
      analysis' !! uid = Some c ->
      analysis !! uid = Some c \/
      exists name0, member_capacity get_user_baseline msgs active uid name0 = Some c.
Proof.
  induction ids as [|i ids IH]; intros analysis analysis' Hfold uid c Hc.
  - injection Hfold as <-. auto.
  - cbn [fold_left] in Hfold.
    destruct (add_member users_info get_user_baseline msgs active (Some analysis) i)
      as [analysis1|] eqn:Hadd;
      [|rewrite fold_left_add_member_none in Hfold; discriminate].
    destruct (IH _ _ Hfold uid c Hc) as [Hc1|Hnew]; [|auto].
    unfold add_member in Hadd. cbn [mbind option_bind] in Hadd.
    assert (Hins : forall name0 entry,
              member_capacity get_user_baseline msgs active i name0 = Some entry ->
              analysis1 = <[i := entry]> analysis ->
              analysis !! uid = Some c \/
              exists name1, member_capacity get_user_baseline msgs active uid name1 = Some c).
    { intros name0 entry Hentry ->. destruct (decide (i = uid)) as [->|Hne].
      - rewrite lookup_insert_eq in Hc1. injection Hc1 as <-. eauto.
      - rewrite lookup_insert_ne in Hc1 by exact Hne. auto. }
    destruct (users_info i) as [user_data|].
    + destruct (is_bot user_data || deleted user_data).
      * injection Hadd as <-. auto.
      * apply bind_Some in Hadd as (entry & Hentry & Hadd). injection Hadd as <-.
        apply (Hins _ _ Hentry eq_refl).
    + apply bind_Some in Hadd as (entry & Hentry & Hadd). injection Hadd as <-.
      apply (Hins _ _ Hentry eq_refl).
Qed.

Lemma member_capacity_today (msgs : list enriched) (active : gmap pystr user_entry)
    (uid name0 : pystr) (c : capacity) :
  member_capacity get_user_baseline msgs active uid name0 = Some c ->
  match active !! uid with
  | Some u => capacity_messages_today c = messages_today u
  | None => capacity_messages_today c = 0
  end.
Proof.
  unfold member_capacity, member_activity. intros Hc.
  apply bind_Some in Hc as ([[today b] cmp] & Hact & Hc).
  apply bind_Some in Hc as (load & _ & Hc). injection Hc as <-.
  cbn [capacity_messages_today].
  destruct (active !! uid) as [u|].
  - injection Hact as <- _ _. reflexivity.
  - destruct (get_user_baseline uid) as [b0|].
    + apply bind_Some in Hact as (c0 & _ & Hact). injection Hact as <- _ _. reflexivity.
    + injection Hact as <- _ _. reflexivity.
Qed.

(** X20. The reason shown for an inactive member is always "Razón
    desconocida". A member has no message today only when none of the
    messages is theirs; the inferred causes are keyed by the authors of
    the messages; so the lookup of an inactive member among the inferred
    causes never finds anything. *)
Theorem inactive_users_reason_unknown (real_messages : list enriched)
    (inactive : gmap pystr inactive_user) :
  team_inactive_users conversations_members users_info get_user_baseline real_messages =
    Some inactive ->
  map_Forall (fun _ u => inactive_razon u = py "Razón desconocida") inactive.
Proof.
  unfold team_inactive_users. intros Hteam.
  apply bind_Some in Hteam as (users & Husers & Hteam). cbn zeta in Hteam.
  apply bind_Some in Hteam as (analysis & Hanalysis & Hteam). injection Hteam as <-.
  destruct (build_users_with_baseline_counts _ _ Husers) as (_ & Hcover & Hall & _).
  intros uid u Hu. unfold inactive_users in Hu. rewrite map_lookup_imap in Hu.
  apply bind_Some in Hu as (c & Hc & Hu).
  destruct (capacity_messages_today c =? 0) eqn:Hzero; [|discriminate].
  apply Z.eqb_eq in Hzero.
  unfold analyze_capacity_per_person in Hanalysis. cbn zeta in Hanalysis.
  destruct (analyze_capacity_entries _ _ _ _ _ Hanalysis uid c Hc) as [Hempty|[name0 Hcap]];
    [rewrite lookup_empty in Hempty; discriminate|].
  pose proof (member_capacity_today _ _ _ _ _ Hcap) as Htoday.
  assert (Hnone : infer_causes real_messages (analyze_participation_quality real_messages)
                    (List.map baseline_user_of users) !! uid = None).
  { unfold infer_causes. rewrite lookup_omap, analyze_participation_quality_lookup.
    unfold counts_for.
    destruct (messages_of uid real_messages) as [|m rest] eqn:Hmsgs; [reflexivity|].
    exfalso.
    assert (Hm : In m (messages_of uid real_messages)) by (rewrite Hmsgs; left; reflexivity).
    unfold messages_of in Hm. apply filter_In in Hm as [Hm Hid].
    apply bool_decide_eq_true in Hid.
    pose proof (Hcover m Hm) as Hin. rewrite Hid in Hin.
    destruct (active_users_of_lookup users ∅ uid) as (Hlook & Hsome & _).
    destruct (Hsome Hin) as [v Hv]. unfold active_users_of in Htoday.
    rewrite Hv in Htoday.
    destruct (Hlook v Hv) as [Hempty|[Hvin _]];
      [rewrite lookup_empty in Hempty; discriminate|].
    rewrite List.Forall_forall in Hall. destruct (Hall v Hvin) as [_ Hpos]. lia. }
  rewrite Hnone in Hu. injection Hu as <-. reflexivity.
Qed.

End TeamStateProps.

(** ** More on the participation profiles and the inferred causes *)

Section ParticipationProps.
Context `{rt : PyBuiltins}.

(** X21. The test for a response, ['<@' in text or '@' in text], is the
    test ['@' in text] alone: every text that contains "<@" contains
    "@". A message counts as a response as soon as it contains an at
    sign, in a mention or anywhere else. *)
Theorem is_response_at_sign (msg : enriched) :
  is_response msg = contains (py "@") (text msg).
Proof.
  unfold is_response. destruct (contains (py "<@") (text msg)) eqn:Hmention; [|reflexivity].
  symmetry. apply (contains_trans _ (py "<@")); [vm_compute; reflexivity | exact Hmention].
Qed.

Lemma count_of_le (test : enriched -> bool) (l : list enriched) :
  0 <= count_of test l <= count_of (fun _ => true) l.
Proof.
  unfold count_of. split; [lia|]. apply Nat2Z.inj_le.
  induction l as [|x l IH]; [reflexivity|]. cbn [List.filter].
  destruct (test x); cbn [length]; lia.
Qed.

(** X22. In every profile each counter (questions, responses, technical
    and coordination messages) lies between 0 and the user's number of
    messages, and a user with fewer than three messages is an
    "Observador" whatever they wrote. *)
Theorem participation_counters_bounded (msgs : list enriched) :
  map_Forall
    (fun _ p =>
       let d := counts p in
       0 <= preguntas d <= total_messages d /\
       0 <= respuestas d <= total_messages d /\
       0 <= tecnico d <= total_messages d /\
       0 <= coordinacion d <= total_messages d /\
       (total_messages d < 3 -> tipo p = py "Observador"))
    (analyze_participation_quality msgs).
Proof.
  intros uid p Hp. rewrite analyze_participation_quality_lookup in Hp.
  unfold counts_for in Hp.
  destruct (messages_of uid msgs) as [|first rest]; [discriminate|].
  injection Hp as <-. cbn zeta.
  cbn [counts classify_user preguntas respuestas tecnico coordinacion total_messages tipo].
  repeat split; try apply count_of_le.
  intros Hfew. unfold classify_tipo. cbn [total_messages].
  replace (count_of (fun _ => true) (first :: rest) <? 3) with true
    by (symmetry; apply Z.ltb_lt; exact Hfew).
  reflexivity.
Qed.

Lemma absence_or_low_causes (msgs : list enriched) (users : list baseline_user)
    (d : user_counts) (c : pystr) :
  fst (absence_or_low msgs users d) = Some c ->
  c = py "ausencia_total" \/ c = py "ausencia_reportada" \/
  c = py "baja_participacion_inusual".
Proof.
  unfold absence_or_low, low_participation.
  destruct (total_messages d =? 0); cbn [fst]; [intros [= <-]; left; reflexivity|].
  destruct (List.find _ users) as [u|]; cbn [fst]; [|discriminate].
  destruct (has_baseline (bu_comparison u)); cbn [fst]; [|discriminate].
  destruct (eqb _ _ && py_gt _ _); cbn [fst]; [|discriminate].
  destruct (existsb _ _); cbn [fst]; intros [= <-];
    [right; left; reflexivity | right; right; reflexivity].
Qed.

(** X23. The two rules on the counters decide the cause whenever they
    apply, whatever the baseline says: the inferred cause is
    "posiblemente_bloqueado" exactly when the user asked more than 3
    questions and has no response, and "desbloqueando_equipo" exactly
    when the user has more than 5 responses and more than 3 technical
    messages. The two can never apply to the same user. *)
Theorem infer_cause_counter_rules (msgs : list enriched) (users : list baseline_user)
    (p : user_profile) (c : cause) :
  infer_cause msgs users p = Some c ->
  (causa_inferida c = py "posiblemente_bloqueado" <->
   3 < preguntas (counts p) /\ respuestas (counts p) = 0) /\
  (causa_inferida c = py "desbloqueando_equipo" <->
   5 < respuestas (counts p) /\ 3 < tecnico (counts p)).
Proof.
  unfold infer_cause. cbn zeta. unfold possibly_blocked, unblocking_team.
  pose proof (absence_or_low_causes msgs users (counts p)) as Hfirst.
  destruct (absence_or_low msgs users (counts p)) as [first evidence].
  cbn [fst snd] in Hfirst.
  destruct ((3 <? preguntas (counts p)) && (respuestas (counts p) =? 0)) eqn:Hblocked.
  - cbn [fst snd]. intros [= <-]. cbn [causa_inferida].
    apply andb_true_iff in Hblocked as [Hq H0].
    apply Z.ltb_lt in Hq. apply Z.eqb_eq in H0.
    split; split.
    + intros _. split; assumption.
    + reflexivity.
    + intros Hc. vm_compute in Hc. discriminate.
    + intros [? ?]. lia.
  - assert (Hnot : ~ (3 < preguntas (counts p) /\ respuestas (counts p) = 0)).
    { intros [Hq H0]. apply Z.ltb_lt in Hq. apply Z.eqb_eq in H0.
      rewrite Hq, H0 in Hblocked. discriminate. }
    destruct ((5 <? respuestas (counts p)) && (3 <? tecnico (counts p))) eqn:Hunblock.
    + cbn [fst snd]. intros [= <-]. cbn [causa_inferida].
      apply andb_true_iff in Hunblock as [H5 H3].
      apply Z.ltb_lt in H5. apply Z.ltb_lt in H3.
      split; split.
      * intros Hc. vm_compute in Hc. discriminate.
      * intros H. contradiction.
      * intros _. split; assumption.
      * reflexivity.
    + assert (Hnot2 : ~ (5 < respuestas (counts p) /\ 3 < tecnico (counts p))).
      { intros [H5 H3]. apply Z.ltb_lt in H5. apply Z.ltb_lt in H3.
        rewrite H5, H3 in Hunblock. discriminate. }
      cbn [fst snd]. destruct first as [cause0|]; [|discriminate].
      intros [= <-]. cbn [causa_inferida].
      destruct (Hfirst cause0 eq_refl) as [->|[->| ->]];
        (split; split; [intros Hc; vm_compute in Hc; discriminate | intros H; contradiction
                       |intros Hc; vm_compute in Hc; discriminate | intros H; contradiction]).
Qed.

End ParticipationProps.

(** ** Malformed elements and the error results of the tools *)

Section ToolErrors.
Context `{rt : PyBuiltins}.

Lemma blocker_pass_malformed (messages : list msg_item) :
  Exists (fun m => sentiment_text m = None) messages -> blocker_pass messages = None.
Proof.
  induction 1 as [m rest Hm | m rest _ IH].
  - destruct m as [s|t u s|]; cbn [sentiment_text] in Hm; [discriminate | |reflexivity].
    cbn [blocker_pass]. rewrite Hm. reflexivity.
  - destruct m as [s|t u s|]; cbn [blocker_pass]; [exact IH | |reflexivity].
    destruct (dict_text t); [|reflexivity]. rewrite IH. reflexivity.
Qed.

Lemma texts_of_malformed (messages : list msg_item) :
  Exists (fun m => sentiment_text m = None) messages -> texts_of messages = None.
Proof.
  induction 1 as [m rest Hm | m rest _ IH]; cbn [texts_of].
  - rewrite Hm. reflexivity.
  - rewrite IH. destruct (sentiment_text m); reflexivity.
Qed.

(** X24. One malformed element spoils the whole answer of a tool. If
    some element of [messages] is neither a text nor a dict whose
    [text], when present, is a text, then [detect_blockers] reports no
    blocker and no unblocker, whatever the other messages say,
    [analyze_sentiment] answers the neutral score 50 without any
    detected keyword, and [extract_key_decisions] reports no decision. *)
Theorem tools_discard_all_on_malformed_element (messages : list msg_item) :
  Exists (fun m => sentiment_text m = None) messages ->
  detect_blockers messages = {| total_blockers := 0; blockers := []; unblockers := [] |} /\
  overall_score (analyze_sentiment messages) = PInt 50 /\
  detected_keywords (analyze_sentiment messages) = [] /\
  extract_key_decisions messages =
    {| total_decisions_made := 0; total_decisions_pending := 0;
       decisions_made := []; decisions_pending := [] |}.
Proof.
  intros Hbad. split; [|split; [|split]].
  - unfold detect_blockers. rewrite (blocker_pass_malformed _ Hbad). reflexivity.
  - unfold analyze_sentiment. destruct (Z.of_nat (length messages) =? 0); [reflexivity|].
    rewrite (sentiment_loop_none _ _ (texts_of_malformed _ Hbad)). reflexivity.
  - unfold analyze_sentiment. destruct (Z.of_nat (length messages) =? 0); [reflexivity|].
    rewrite (sentiment_loop_none _ _ (texts_of_malformed _ Hbad)). reflexivity.
  - unfold extract_key_decisions.
    assert (Hloop : forall made pending, decisions_loop messages made pending = None).
    { induction Hbad as [m rest Hm | m rest _ IH]; intros made pending.
      - destruct m as [s|t u s|]; cbn [sentiment_text] in Hm;
          [discriminate | |reflexivity].
        cbn [decisions_loop]. unfold dict_text in Hm. unfold raw_text.
        destruct (get_default t (VStr [])); try reflexivity. discriminate.
      - destruct m as [s|t u s|]; cbn [decisions_loop]; [apply IH | |reflexivity].
        destruct (raw_text t); [apply IH | reflexivity]. }
    rewrite Hloop. reflexivity.
Qed.

Lemma calculate_team_health_parts (td : team_data) (c : health_components) :
  components (calculate_team_health td) = Some c ->
  rate (fun collaboration_rate => py_min2 collaboration_rate (PInt 100))
       (get_default (td_collaborative_messages td) (VNum (PInt 0)))
       (get_default (td_total_messages td) (VNum (PInt 1))) = Some (collaboration c) /\
  workload (td_messages_per_user td) = Some (workload_distribution c) /\
  blockers_score (get_default (td_total_blockers td) (VNum (PInt 0))) =
    Some (blockers_component c).
Proof.
  unfold calculate_team_health. intros Hc.
  destruct (calculate_team_health_body td) as [r|] eqn:Hbody; [|discriminate].
  unfold calculate_team_health_body in Hbody.
  apply bind_Some in Hbody as (part & _ & Hbody).
  apply bind_Some in Hbody as (collab & Hcollab & Hbody).
  apply bind_Some in Hbody as (work & Hwork & Hbody).
  apply bind_Some in Hbody as (block & Hblock & Hbody).
  apply bind_Some in Hbody as (p1 & _ & Hbody).
  apply bind_Some in Hbody as (p2 & _ & Hbody).
  apply bind_Some in Hbody as (p3 & _ & Hbody).
  apply bind_Some in Hbody as (p4 & _ & Hbody).
  apply bind_Some in Hbody as (s & _ & Hbody).
  apply bind_Some in Hbody as (p5 & _ & Hbody).
  destruct (health_status _) as [st em]. injection Hbody as <-.
  cbn in Hc. injection Hc as <-. auto.
Qed.

Lemma py_lt_asym_zero (x : pynum) : py_lt (PInt 0) x = true -> py_lt x (PInt 0) = false.
Proof.
  destruct x as [z|f]; cbn [py_lt].
  - intros H. apply Z.ltb_lt in H. apply Z.ltb_ge. lia.
  - destruct (float_compare_int f 0) as [[]|]; intros H; try discriminate; reflexivity.
Qed.

(** X25. Whenever [calculate_team_health] returns its components, the
    collaboration component does not exceed 100, the workload component
    is not negative, and the blocker component is one of the four steps
    100, 70, 40 and 20. (The participation component has no such cap.) *)
Theorem calculate_team_health_component_bounds (td : team_data) (c : health_components) :
  components (calculate_team_health td) = Some c ->
  py_gt (collaboration c) (PInt 100) = false /\
  py_lt (workload_distribution c) (PInt 0) = false /\
  (blockers_component c = PInt 100 \/ blockers_component c = PInt 70 \/
   blockers_component c = PInt 40 \/ blockers_component c = PInt 20).
Proof.
  intros Hc. destruct (calculate_team_health_parts td c Hc) as (Hcollab & Hwork & Hblock).
  split; [|split].
  - unfold rate in Hcollab. apply bind_Some in Hcollab as (w & _ & Hcollab).
    destruct (py_gt w (PInt 0)); [|injection Hcollab as <-; reflexivity].
    apply bind_Some in Hcollab as (p & _ & Hcollab).
    apply bind_Some in Hcollab as (q & _ & Hcollab).
    apply bind_Some in Hcollab as (r & _ & Hcollab). injection Hcollab as <-.
    unfold py_min2, py_gt. destruct (py_lt (PInt 100) r) eqn:Hr; [reflexivity | exact Hr].
  - unfold workload in Hwork.
    destruct (1 <? length (entries_of (td_messages_per_user td)))%nat;
      [|injection Hwork as <-; reflexivity].
    apply bind_Some in Hwork as (converted & _ & Hwork).
    destruct (1 <? length (List.filter _ converted))%nat;
      [|injection Hwork as <-; reflexivity].
    apply bind_Some in Hwork as (mean & _ & Hwork).
    apply bind_Some in Hwork as (stdev & _ & Hwork).
    apply bind_Some in Hwork as (cv & _ & Hwork).
    apply bind_Some in Hwork as (scaled & _ & Hwork).
    apply bind_Some in Hwork as (spread & _ & Hwork). injection Hwork as <-.
    unfold py_max2, py_gt. destruct (py_lt (PInt 0) spread) eqn:Hs;
      [apply py_lt_asym_zero, Hs | reflexivity].
  - unfold blockers_score in Hblock.
    destruct (is_zero_value _); [injection Hblock as <-; auto|].
    apply bind_Some in Hblock as (n & _ & Hblock). injection Hblock as <-.
    destruct (py_le n (PInt 2)); [auto|]. destruct (py_le n (PInt 5)); auto.
Qed.

(** X26. A count or a score that is not a number ends
    [calculate_team_health] in its error handler: if the value of
    [total_members], [total_messages], [total_blockers] or
    [sentiment_score] is present and is not a number (a string, a list,
    [None]), the result is DESCONOCIDO with the score 50 and no
    components. *)
Theorem calculate_team_health_not_a_number (td : team_data) :
  as_num (get_default (td_total_members td) (VNum (PInt 1))) = None \/
  as_num (get_default (td_total_messages td) (VNum (PInt 1))) = None \/
  as_num (get_default (td_total_blockers td) (VNum (PInt 0))) = None \/
  as_num (get_default (td_sentiment_score td) (VNum (PInt 50))) = None ->
  calculate_team_health td =
  {| health_score := PInt 50; status := py "DESCONOCIDO"; emoji := py "❓";
     components := None |}.
Proof.
  intros Hbad. unfold calculate_team_health.
  destruct (calculate_team_health_body td) as [r|] eqn:Hbody; [exfalso | reflexivity].
  unfold calculate_team_health_body in Hbody.
  apply bind_Some in Hbody as (part & Hpart & Hbody).
  apply bind_Some in Hbody as (collab & Hcollab & Hbody).
  apply bind_Some in Hbody as (work & _ & Hbody).
  apply bind_Some in Hbody as (block & Hblock & Hbody).
  apply bind_Some in Hbody as (p1 & _ & Hbody).
  apply bind_Some in Hbody as (p2 & _ & Hbody).
  apply bind_Some in Hbody as (p3 & _ & Hbody).
  apply bind_Some in Hbody as (p4 & _ & Hbody).
  apply bind_Some in Hbody as (s & Hs & _).
  unfold rate in Hpart, Hcollab.
  apply bind_Some in Hpart as (w1 & Hw1 & _).
  apply bind_Some in Hcollab as (w2 & Hw2 & _).
  unfold blockers_score, is_zero_value in Hblock.
  destruct Hbad as [H|[H|[H|H]]]; try congruence.
  rewrite H in Hblock. discriminate.
Qed.

End ToolErrors.

Lemma tools_discard_all_on_malformed_element_witness :
  let messages := [MDict (Some (VStr (py "Estoy bloqueado esperando acceso")))
                         (Some (VStr (py "Ana"))) None;
                   MDict (Some (VNum (PInt 7))) None None] in
  detect_blockers (rt := example_runtime) messages =
    {| total_blockers := 0; blockers := []; unblockers := [] |} /\
  total_blockers (detect_blockers (rt := example_runtime) (firstn 1 messages)) = 1.
Proof.
  cbn zeta. split; [|vm_compute; reflexivity].
  apply (tools_discard_all_on_malformed_element (rt := example_runtime)).
  apply Exists_cons_tl, Exists_cons_hd. reflexivity.
Defined.

Lemma calculate_team_health_component_bounds_witness :
  let td := {| td_total_members := Some (VNum (PInt 10));
               td_active_members := Some (VNum (PInt 8));
               td_total_messages := Some (VNum (PInt 50));
               td_collaborative_messages := Some (VNum (PInt 80));
               td_messages_per_user := None;
               td_total_blockers := Some (VNum (PInt 4));
               td_sentiment_score := Some (VNum (PInt 65)) |} in
  let c := {| participation := PFloat 80; collaboration := PInt 100;
              workload_distribution := PInt 50; blockers_component := PInt 40;
              sentiment := VNum (PInt 65) |} in
  components (calculate_team_health (rt := example_runtime) td) = Some c /\
  py_gt (collaboration c) (PInt 100) = false.
Proof.
  cbn zeta.
  assert (Hc : components (calculate_team_health (rt := example_runtime)
            {| td_total_members := Some (VNum (PInt 10));
               td_active_members := Some (VNum (PInt 8));
               td_total_messages := Some (VNum (PInt 50));
               td_collaborative_messages := Some (VNum (PInt 80));
               td_messages_per_user := None;
               td_total_blockers := Some (VNum (PInt 4));
               td_sentiment_score := Some (VNum (PInt 65)) |}) =
          Some {| participation := PFloat 80; collaboration := PInt 100;
                  workload_distribution := PInt 50; blockers_component := PInt 40;
                  sentiment := VNum (PInt 65) |}) by (vm_compute; reflexivity).
  split; [exact Hc|].
  exact (proj1 (calculate_team_health_component_bounds (rt := example_runtime) _ _ Hc)).
Defined.

Lemma calculate_team_health_not_a_number_witness :
  status (calculate_team_health (rt := example_runtime)
            {| td_total_members := Some (VNum (PInt 10));
               td_active_members := Some (VNum (PInt 8));
               td_total_messages := Some (VNum (PInt 50));
               td_collaborative_messages := Some (VNum (PInt 20));
               td_messages_per_user := None;
               td_total_blockers := Some (VNum (PInt 2));
               td_sentiment_score := Some (VStr (py "65")) |}) = py "DESCONOCIDO".
Proof.
  rewrite (calculate_team_health_not_a_number (rt := example_runtime)); [reflexivity|].
  right; right; right. reflexivity.
Defined.

(** ** What the markup substitution leaves alone *)

Section MarkupText.

Local Abbreviation not_star := (fun c : N => negb (c =? 42)%N).

Lemma format_report_keeps_text_upto (n : nat) :
  forall s : pystr, (length s <= n)%nat ->
    List.filter not_star (format_report s) = List.filter not_star s /\
    (length (format_report s) <= length s)%nat.
Proof.
  induction n as [|n IH]; intros s Hlen.
  - destruct s; [split; reflexivity | cbn in Hlen; lia].
  - destruct s as [|c r]; [split; reflexivity|].
    destruct (starts_with [42%N; 42%N] (c :: r)) eqn:Hs.
    + rewrite starts_with_pair_head in Hs. apply andb_true_iff in Hs as [Hc Hd].
      apply N.eqb_eq in Hc as <-. apply bool_decide_eq_true in Hd.
      destruct r as [|d r]; [discriminate|]. cbn in Hd. injection Hd as ->.
      rewrite format_report_pair.
      destruct (IH r ltac:(cbn in Hlen; lia)) as [Hf Hl].
      cbn [List.filter negb N.eqb Pos.eqb length]. rewrite Hf. split; [reflexivity | lia].
    + rewrite format_report_keep by exact Hs.
      destruct (IH r ltac:(cbn in Hlen; lia)) as [Hf Hl].
      cbn [List.filter length]. rewrite Hf. split; [reflexivity | lia].
Qed.

(** X27. Replacing [**] by [*] only removes asterisks: the report
    without its asterisks is the same before and after the
    substitution, character by character, and the report never grows. *)
Theorem format_report_keeps_text (report : pystr) :
  List.filter (fun c => negb (c =? 42)%N) (format_report report) =
  List.filter (fun c => negb (c =? 42)%N) report /\
  (length (format_report report) <= length report)%nat.
Proof. apply (format_report_keeps_text_upto (length report)). lia. Qed.

End MarkupText.

(** ** The counters of the sentiment scorer *)

Section SentimentCounts.
Context `{rt : PyBuiltins}.

Lemma texts_of_length (messages : list msg_item) :
  forall texts, texts_of messages = Some texts -> length texts = length messages.
Proof.
  induction messages as [|msg rest IH]; intros texts Htexts; cbn [texts_of] in Htexts.
  - injection Htexts as <-. reflexivity.
  - apply bind_Some in Htexts as (t & _ & Htexts).
    apply bind_Some in Htexts as (ts0 & Hrest & Htexts). injection Htexts as <-.
    cbn [length]. rewrite (IH _ Hrest). reflexivity.
Qed.

Lemma expected_breakdown_bounds (texts : list pystr) :
  let sc := expected_breakdown texts in
  let n := Z.of_nat (length texts) in
  0 <= frustration sc <= n /\ 0 <= enthusiasm sc <= n /\ 0 <= concern sc <= n /\
  0 <= neutral sc <= n /\
  n <= frustration sc + enthusiasm sc + concern sc + neutral sc <= 3 * n.
Proof.
  cbn zeta. induction texts as [|t texts IH].
  - unfold expected_breakdown, messages_with. cbn [List.filter length
      frustration enthusiasm concern neutral]. lia.
  - rewrite expected_breakdown_cons. unfold add_scores.
    cbn [frustration enthusiasm concern neutral length].
    revert IH. generalize (expected_breakdown texts). intros [f e c n] IH.
    cbn [frustration enthusiasm concern neutral] in *.
    unfold expected_breakdown, messages_with, is_neutral.
    cbn [List.filter frustration enthusiasm concern neutral].
    destruct (any_in frustration_keywords t), (any_in enthusiasm_keywords t),
      (any_in concern_keywords t); cbn [negb andb length]; lia.
Qed.

(** X28. When [analyze_sentiment] returns a breakdown, each of its four
    counters lies between 0 and the number of messages; together they
    add up to at least the number of messages (every message is neutral
    or counted in some category) and to at most three times that number
    (a message can count in all three categories); and never more than
    ten detected keywords are listed. *)
Theorem analyze_sentiment_counters (messages : list msg_item) (sc : sentiment_scores) :
  sentiment_breakdown (analyze_sentiment messages) = Some sc ->
  let n := Z.of_nat (length messages) in
  0 <= frustration sc <= n /\ 0 <= enthusiasm sc <= n /\ 0 <= concern sc <= n /\
  0 <= neutral sc <= n /\
  n <= frustration sc + enthusiasm sc + concern sc + neutral sc <= 3 * n /\
  (length (detected_keywords (analyze_sentiment messages)) <= 10)%nat.
Proof.
  unfold analyze_sentiment. cbn zeta.
  destruct (Z.of_nat (length messages) =? 0) eqn:Hzero.
  { intros [= <-]. apply Z.eqb_eq in Hzero. cbn. lia. }
  destruct (texts_of messages) as [texts|] eqn:Htexts.
  - destruct (sentiment_loop_texts messages
                {| st_scores := no_scores; st_detected := []; has_sentiment := false |}
                texts Htexts) as (st' & -> & Hsc & _).
    cbn [sentiment_breakdown detected_keywords]. intros [= <-].
    rewrite Hsc. pose proof (expected_breakdown_bounds texts) as Hb. cbn zeta in Hb.
    rewrite (texts_of_length _ _ Htexts) in Hb.
    revert Hb. generalize (expected_breakdown texts). intros [f e c n] Hb.
    unfold add_scores, no_scores.
    cbn [frustration enthusiasm concern neutral st_scores] in *.
    rewrite length_firstn. lia.
  - rewrite (sentiment_loop_none messages _ Htexts). discriminate.
Qed.

End SentimentCounts.

Lemma analyze_sentiment_counters_witness :
  let messages := [MStr (py "frustrado pero listo"); MStr (py "hola")] in
  sentiment_breakdown (analyze_sentiment (rt := example_runtime) messages) =
    Some {| frustration := 1; enthusiasm := 1; concern := 0; neutral := 1 |} /\
  2 <= 1 + 1 + 0 + 1 <= 3 * 2.
Proof.
  cbn zeta.
  assert (H : sentiment_breakdown (analyze_sentiment (rt := example_runtime)
                [MStr (py "frustrado pero listo"); MStr (py "hola")]) =
              Some {| frustration := 1; enthusiasm := 1; concern := 0; neutral := 1 |})
    by (vm_compute; reflexivity).
  split; [exact H|].
  destruct (analyze_sentiment_counters (rt := example_runtime) _ _ H) as (_ & _ & _ & _ & Hsum & _).
  exact Hsum.
Defined.

(** ** The order of the project updates *)

Section UpdateOrder.
Context `{rt : PyBuiltins}.

Lemma SFcompare_asym (x y : spec_float) :
  SFcompare x y = Some Lt -> SFcompare y x <> Some Lt.
Proof.
  destruct x as [sx|sx| |sx mx ex], y as [sy|sy| |sy my ey]; cbn [SFcompare];
    try discriminate; try (destruct sx; discriminate); try (destruct sy; discriminate);
    try (destruct sx, sy; discriminate).
  change (Pos.compare_cont Eq mx my) with (Pos.compare mx my).
  change (Pos.compare_cont Eq my mx) with (Pos.compare my mx).
  rewrite (Z.compare_antisym ex ey), (Pos.compare_antisym mx my).
  destruct sx, sy; try discriminate;
    destruct (ex ?= ey); cbn [CompOpp]; try discriminate;
    destruct (mx ?= my)%positive; cbn [CompOpp]; discriminate.
Qed.

Lemma ltb_asym (x y : float) : PrimFloat.ltb x y = true -> PrimFloat.ltb y x = false.
Proof.
  rewrite !ltb_spec. unfold SFltb. intros H.
  pose proof (SFcompare_asym (Prim2SF x) (Prim2SF y)) as Hasym.
  destruct (SFcompare (Prim2SF x) (Prim2SF y)) as [[]|]; try discriminate.
  destruct (SFcompare (Prim2SF y) (Prim2SF x)) as [[]|]; try reflexivity.
  exfalso. apply Hasym; reflexivity.
Qed.

Local Abbreviation in_order :=
  (fun a b : float * update => PrimFloat.ltb (fst b) (fst a) = false).

Lemma insert_by_key_sorted (k : float) (x : update) (l : list (float * update)) :
  Sorted in_order l -> Sorted in_order (insert_by_key k x l).
Proof.
  induction 1 as [|[k' y] l Hl IH Hhd]; cbn [insert_by_key].
  - repeat constructor.
  - destruct (PrimFloat.ltb k' k) eqn:Hlt.
    + constructor; [exact IH|].
      destruct l as [|[k2 z] l]; cbn [insert_by_key].
      * constructor. cbn [fst]. apply ltb_asym, Hlt.
      * destruct (PrimFloat.ltb k2 k).
        -- constructor. apply HdRel_inv in Hhd. exact Hhd.
        -- constructor. cbn [fst]. apply ltb_asym, Hlt.
    + constructor; [constructor; assumption|]. constructor. exact Hlt.
Qed.

Lemma sort_by_key_sorted (l : list (float * update)) : Sorted in_order (sort_by_key l).
Proof.
  induction l as [|[k x] l IH]; cbn [sort_by_key]; [constructor|].
  apply insert_by_key_sorted, IH.
Qed.

Lemma with_keys_keys (us : list update) :
  forall keyed, with_keys us = Some keyed ->
    Forall (fun kx => float_of_str (upd_timestamp (snd kx)) = Some (fst kx)) keyed.
Proof.
  induction us as [|u us IH]; intros keyed Hk; cbn [with_keys] in Hk.
  - injection Hk as <-. constructor.
  - apply bind_Some in Hk as (k & Hfloat & Hk).
    apply bind_Some in Hk as (kr & Hkr & Hk). injection Hk as <-.
    constructor; [exact Hfloat | apply IH, Hkr].
Qed.

(** X29. The updates that [extract_project_updates] returns are in
    chronological order: each one comes with the float its timestamp
    converts to, and no update is followed by one with a smaller
    timestamp. *)
Theorem extract_project_updates_in_order (msgs : list enriched) (updates : list update) :
  extract_project_updates msgs = Some updates ->
  exists keyed : list (float * update),
    List.map snd keyed = updates /\
    Forall (fun kx => float_of_str (upd_timestamp (snd kx)) = Some (fst kx)) keyed /\
    Sorted (fun a b => PrimFloat.ltb (fst b) (fst a) = false) keyed.
Proof.
  unfold extract_project_updates. intros Hu.
  apply bind_Some in Hu as (keyed & Hk & Hu). injection Hu as <-.
  exists (sort_by_key keyed). split; [reflexivity|]. split; [|apply sort_by_key_sorted].
  rewrite sort_by_key_perm. apply (with_keys_keys _ _ Hk).
Qed.

End UpdateOrder.

(** ** The properties above on concrete runs *)

Lemma enrich_messages_with_names_lookups_witness :
  let users_info := fun (_ : nat) (uid : pystr) =>
    if eqb uid (py "U1") then Some (py "Ana Ruiz", py "ana") else None in
  let say uid t :=
    {| msg_user := Some uid; msg_text := Some t; msg_ts := Some (py "1700000000.000100") |} in
  let messages :=
    [say (py "U1") (py "hola"); say (py "U2") (py "buenas"); say (py "U1") (py "listo");
     say (py "U2") (py "ok");
     {| msg_user := None; msg_text := Some (py "bot"); msg_ts := None |}] in
  exists out st',
    enrich_messages_with_names users_info messages
      {| user_cache := ∅; users_info_calls := [] |} = Some (out, st') /\
    List.map user_name out =
      [py "Ana Ruiz (@ana)"; py "Usuario U2"; py "Ana Ruiz (@ana)"; py "Usuario U2"] /\
    users_info_calls st' = [(py "U1", true); (py "U2", false); (py "U2", false)] /\
    NoDup (List.map fst (List.filter snd (users_info_calls st'))).
Proof.
  cbn zeta.
  match goal with
  | |- exists out st', ?run = _ /\ _ =>
    destruct run as [[out st']|] eqn:Hrun; [|vm_compute in Hrun; discriminate]
  end.
  exists out, st'. split; [reflexivity|].
  pose proof (enrich_messages_with_names_lookups _ _ _ _ Hrun) as (Hnd & _).
  vm_compute in Hrun. injection Hrun as <- <-.
  split; [reflexivity|]. split; [reflexivity | exact Hnd].
Defined.

Lemma enrich_messages_with_names_names_witness :
  let directory := fun uid : pystr =>
    if eqb uid (py "U1") then Some (py "Ana Ruiz", py "ana") else None in
  let say uid t :=
    {| msg_user := Some uid; msg_text := Some t; msg_ts := Some (py "1700000000.000100") |} in
  let messages := [say (py "U1") (py "hola"); say (py "U2") (py "buenas");
                   say (py "U1") (py "listo")] in
  exists out st',
    enrich_messages_with_names (fun _ => directory) messages
      {| user_cache := ∅; users_info_calls := [] |} = Some (out, st') /\
    Forall (fun m => user_name m = display_name (directory (user_id m)) (user_id m)) out.
Proof.
  cbn zeta.
  match goal with
  | |- exists out st', ?run = _ /\ _ =>
    destruct run as [[out st']|] eqn:Hrun; [|vm_compute in Hrun; discriminate]
  end.
  exists out, st'. split; [reflexivity|].
  exact (enrich_messages_with_names_names _ _ _ _ Hrun).
Defined.

Lemma build_users_with_baseline_counts_witness :
  let get_user_baseline := fun uid : pystr =>
    if eqb uid (py "U1") then Some {| avg_messages_per_day := PFloat 4 |} else None in
  let say uid who t :=
    {| user_id := uid; user_name := who; text := t; ts := py "1700000000.000100" |} in
  let msgs := [say (py "U1") (py "Ana") (py "El deploy sigue en curso");
               say (py "U2") (py "Luis") (py "Reviso el informe mensual");
               say (py "U1") (py "Ana") (py "Ya terminamos la rama")] in
  exists users,
    build_users_with_baseline get_user_baseline msgs = Some users /\
    List.map messages_today users = [2; 1] /\
    Zsum (List.map messages_today users) = 3.
Proof.
  cbn zeta.
  match goal with
  | |- exists users, ?run = _ /\ _ =>
    destruct run as [users|] eqn:Hrun; [|vm_compute in Hrun; discriminate]
  end.
  exists users. split; [reflexivity|].
  pose proof (build_users_with_baseline_counts _ _ _ Hrun) as (_ & _ & _ & Hsum).
  vm_compute in Hrun. injection Hrun as <-.
  split; [reflexivity | exact Hsum].
Defined.

Lemma inactive_users_reason_unknown_witness :
  let conversations_members := Some [py "U1"; py "U2"; py "U3"] in
  let users_info := fun uid : pystr =>
    Some {| is_bot := false; deleted := false; real_name := Some (py "Member " ++ uid) |} in
  let get_user_baseline := fun uid : pystr =>
    if eqb uid (py "U2") then None else Some {| avg_messages_per_day := PFloat 4 |} in
  let say uid who t :=
    {| user_id := uid; user_name := who; text := t; ts := py "1700000000.000100" |} in
  let msgs := [say (py "U1") (py "Member U1") (py "El deploy sigue en curso");
               say (py "U2") (py "Member U2") (py "Reviso el informe mensual")] in
  exists inactive,
    team_inactive_users (rt := example_runtime) conversations_members users_info
      get_user_baseline msgs = Some inactive /\
    inactive !! py "U3" =
      Some {| inactive_name := py "Member U3"; inactive_razon := py "Razón desconocida" |} /\
    inactive !! py "U1" = None /\
    map_Forall (fun _ u => inactive_razon u = py "Razón desconocida") inactive.
Proof.
  cbn zeta.
  match goal with
  | |- exists inactive, ?run = _ /\ _ =>
    destruct run as [inactive|] eqn:Hrun; [|vm_compute in Hrun; discriminate]
  end.
  exists inactive. split; [reflexivity|].
  pose proof (inactive_users_reason_unknown _ _ _ _ _ Hrun) as Hall.
  vm_compute in Hrun. injection Hrun as <-.
  split; [vm_compute; reflexivity|]. split; [vm_compute; reflexivity | exact Hall].
Defined.

Lemma infer_cause_counter_rules_witness :
  let p := classify_user {| name := py "Ana"; total_messages := 5; preguntas := 4;
                            respuestas := 0; tecnico := 1; coordinacion := 0 |} in
  exists c,
    infer_cause (rt := example_runtime) [] [] p = Some c /\
    causa_inferida c = py "posiblemente_bloqueado".
Proof.
  cbn zeta.
  match goal with
  | |- exists c, ?run = _ /\ _ =>
    destruct run as [c|] eqn:Hrun; [|vm_compute in Hrun; discriminate]
  end.
  exists c. split; [reflexivity|].
  destruct (infer_cause_counter_rules (rt := example_runtime) _ _ _ _ Hrun) as [[_ Hrule] _].
  apply Hrule. cbn [counts classify_user preguntas respuestas]. lia.
Defined.

Lemma extract_project_updates_in_order_witness :
  let say t s := {| user_id := py "U1"; user_name := py "Ana"; text := t; ts := s |} in
  let msgs := [say (py "El deploy ya está listo y merged") (py "1700000002.000100");
               say (py "Progreso del sprint: 80% de avance") (py "1700000001.000100")] in
  exists updates,
    extract_project_updates (rt := example_runtime) msgs = Some updates /\
    List.map upd_timestamp updates = [py "1700000001.000100"; py "1700000002.000100"] /\
    exists keyed : list (float * update),
      List.map snd keyed = updates /\
      Forall (fun kx => float_of_str (PyBuiltins := example_runtime)
                          (upd_timestamp (snd kx)) = Some (fst kx)) keyed /\
      Sorted (fun a b => PrimFloat.ltb (fst b) (fst a) = false) keyed.
Proof.
  cbn zeta.
  match goal with
  | |- exists updates, ?run = _ /\ _ =>
    destruct run as [updates|] eqn:Hrun; [|vm_compute in Hrun; discriminate]
  end.
  exists updates. split; [reflexivity|].
  pose proof (extract_project_updates_in_order (rt := example_runtime) _ _ Hrun) as Hord.
  vm_compute in Hrun. injection Hrun as <-.
  split; [reflexivity | exact Hord].
Defined.

(** ** The progress extractor *)

Section ProgressProps.
Context `{rt : PyBuiltins}.
Variable is_decimal : N -> bool.
Variable is_whitespace : N -> bool.
Variable int_of_digits : pystr -> option Z.

Local Abbreviation zero_denominator :=
  (fun t : pystr => exists g1 g2,
     search_fraction is_decimal is_whitespace t = Some (g1, g2) /\
     int_of_digits g2 = Some 0).

Lemma fraction_progress_zero (g1 g2 : pystr) :
  int_of_digits g2 = Some 0 -> fraction_progress int_of_digits (g1, g2) = None.
Proof.
  intros Hden. unfold fraction_progress. cbn [fst snd].
  destruct (int_of_digits g1) as [num|]; [|reflexivity].
  cbn [mbind option_bind]. rewrite Hden. reflexivity.
Qed.

Lemma progress_step_zero (st : progress_state) (msg : scanned) :
  zero_denominator (sc_text msg) ->
  progress_step is_decimal is_whitespace int_of_digits st msg = None.
Proof.
  intros (g1 & g2 & Hsearch & Hden). unfold progress_step. cbn zeta.
  rewrite Hsearch, (fraction_progress_zero g1 g2 Hden). reflexivity.
Qed.

Lemma progress_loop_zero (msgs : list scanned) :
  Exists (fun msg => zero_denominator (sc_text msg)) msgs ->
  forall st, progress_loop is_decimal is_whitespace int_of_digits msgs st = None.
Proof.
  induction 1 as [msg rest Hmsg | msg rest _ IH]; intros st; cbn [progress_loop].
  - rewrite (progress_step_zero st msg Hmsg). reflexivity.
  - destruct (progress_step _ _ _ st msg) as [st'|]; [apply IH | reflexivity].
Qed.

(** X30. A fraction with a zero denominator stops the report: if the
    text of some message or update matches [(\d+)\s+de\s+(\d+)] with a
    second group that reads as 0 (for instance "0 de 0"),
    [extract_project_progress] raises, when it divides or already when
    it converts the groups, and it has no handler. *)
Theorem extract_project_progress_zero_denominator (msgs : list enriched)
    (updates : list update) :
  Exists (fun t => exists g1 g2,
            search_fraction is_decimal is_whitespace t = Some (g1, g2) /\
            int_of_digits g2 = Some 0)
         (List.map text msgs ++ List.map upd_text updates) ->
  extract_project_progress is_decimal is_whitespace int_of_digits msgs updates = None.
Proof.
  intros Hex. unfold extract_project_progress. rewrite progress_loop_zero; [reflexivity|].
  apply Exists_app in Hex. apply Exists_app.
  destruct Hex as [Hex|Hex]; [left|right];
    apply List.Exists_exists in Hex as (t & Hin & Ht);
    apply in_map_iff in Hin as (x & <- & Hx); apply List.Exists_exists.
  - exists (scanned_of_message x). split; [apply in_map, Hx | exact Ht].
  - exists (scanned_of_update x). split; [apply in_map, Hx | exact Ht].
Qed.

End ProgressProps.

Lemma extract_project_progress_zero_denominator_witness :
  let say t := {| user_id := py "U1"; user_name := py "Ana"; text := t;
                  ts := py "1700000000.000100" |} in
  let progress := extract_project_progress (rt := example_runtime)
                    ascii_decimal ascii_whitespace ascii_int_of_digits in
  progress [say (py "Vamos al 40%, llevamos 3 de 4 tareas")] [] =
    Some {| progress_objetivo := None; progress_actual := py "3/4 (75%)";
            progress_tiempo := None; progress_razon := None |} /\
  progress [say (py "Llevamos 0 de 0 tareas")] [] = None.
Proof.
  cbn zeta. split; [vm_compute; reflexivity|].
  apply (extract_project_progress_zero_denominator (rt := example_runtime)).
  apply Exists_cons_hd. exists (py "0"), (py "0"). split; vm_compute; reflexivity.
Defined.

(** ** Checks of the added embeddings on concrete inputs *)

(** The three contexts of [test_agent.py]. The third one is classified
    alto: "no urgente" contains "urgente". *)
Example classify_urgency_test_contexts :
  let classify s := classify_urgency (rt := example_runtime) (fun _ => []) (VStr s) in
  classify (py "El cliente está reportando que no puede acceder a producción, urgente!") =
    {| urgency_level := py "alto"; urgency_score := 75;
       urgency_reasoning := [py "Detectado: 'urgente' - requiere atención pronta";
                             py "Impacto en clientes mencionado"] |} /\
  classify (py "Hay que hacer esta feature para el deadline de la próxima semana") =
    {| urgency_level := py "alto"; urgency_score := 75;
       urgency_reasoning := [py "Detectado: 'hay que' - planificar pronto";
                             py "Deadline explícito mencionado"] |} /\
  classify (py "Cuando puedas, revisa este PR no urgente") =
    {| urgency_level := py "alto"; urgency_score := 75;
       urgency_reasoning := [py "Detectado: 'urgente' - requiere atención pronta"] |}.
Proof. intros classify. split; [|split]; vm_compute; reflexivity. Qed.

(** The messages of [test_agent.py]: two decisions made, one pending. *)
Example extract_key_decisions_test_messages :
  let r := extract_key_decisions (rt := example_runtime)
             [MDict (Some (VStr (py "Decidimos que vamos a usar PostgreSQL porque necesitamos transacciones ACID")))
                    (Some (VStr (py "Ana Torres (@ana)"))) (Some (VStr (py "1234567890.123456")));
              MDict (Some (VStr (py "¿Deberíamos migrar el frontend a React o quedarnos con Vue?")))
                    (Some (VStr (py "Carlos Ruiz (@carlos)"))) (Some (VStr (py "1234567891.123456")));
              MDict (Some (VStr (py "Acordamos hacer el deploy el viernes. Siguiente paso: preparar el entorno de staging")))
                    (Some (VStr (py "Laura Díaz (@laura)"))) (Some (VStr (py "1234567892.123456")))] in
  total_decisions_made r = 2 /\ total_decisions_pending r = 1 /\
  List.map decision_reasoning (decisions_made r) =
    [py "Decidimos que vamos a usar PostgreSQL porque necesitamos transacciones ACID";
     py "No especificado"] /\
  List.map who_asks (decisions_pending r) = [VStr (py "Carlos Ruiz (@carlos)")].
Proof. intros r. split; [|split; [|split]]; vm_compute; reflexivity. Qed.

Example compare_to_baseline_ex :
  compare_to_baseline (PInt 6) (PFloat 4) =
    Some {| has_baseline := true; direction := py "por encima";
            diff_percentage := PFloat 50 |} /\
  compare_to_baseline (PInt 3) (PFloat 0) =
    Some {| has_baseline := false; direction := py "sin datos";
            diff_percentage := PInt 0 |}.
Proof. split; vm_compute; reflexivity. Qed.

Example calculate_metrics_ex :
  let say uid who := {| user_id := uid; user_name := who; text := py "hola";
                        ts := py "1700000000.000100" |} in
  let m := calculate_metrics (Some [py "U1"; py "U2"; py "U3"; py "U4"])
             [say (py "U1") (py "Ana"); say (py "U2") (py "Luis"); say (py "U2") (py "Luis");
              say (py "U3") (py "Eva")] in
  active_users m = 3 /\ participation_rate m = PFloat 75 /\
  top_active m = [(py "Luis", 2); (py "Ana", 1); (py "Eva", 1)].
Proof. intros say m. split; [|split]; vm_compute; reflexivity. Qed.

Example extract_required_decisions_ex :
  let say t := {| user_id := py "U1"; user_name := py "Ana"; text := t;
                  ts := py "1700000000.000100" |} in
  List.map que (extract_required_decisions (rt := example_runtime)
                  [say (py "Necesito que revisen el contrato"); say (py "Todo en orden");
                   say (py "Seguimos con el plan?")]) =
  [py "Necesito que revisen el contrato"; py "Seguimos con el plan?"].
Proof. intros say. vm_compute. reflexivity. Qed.

(** A member who wrote twice as many messages as usual, and a member
    of the channel who wrote none. *)
Example analyze_capacity_per_person_ex :
  let say uid who t := {| user_id := uid; user_name := who; text := t;
                          ts := py "1700000000.000100" |} in
  let msgs := [say (py "U1") (py "Ana") (py "Sigo bloqueado con el acceso");
               say (py "U1") (py "Ana") (py "Ya pude entrar al servidor")] in
  let users :=
    [{| entry_id := py "U1"; entry_name := py "Ana"; messages_today := 2;
        baseline := Some {| avg_messages_per_day := PFloat 1 |};
        entry_comparison := {| has_baseline := true; direction := py "por encima";
                               diff_percentage := PFloat 100 |} |}] in
  let analysis :=
    analyze_capacity_per_person (rt := example_runtime) (Some [py "U1"; py "U2"])
      (fun uid => Some {| is_bot := false; deleted := false;
                          real_name := if eqb uid (py "U1") then Some (py "Ana") else None |})
      (fun _ => None) msgs users in
  (fun a => a !! py "U1") <$> analysis =
    Some (Some {| capacity_name := py "Ana";
                  carga := py "🔴 ALTA - Actividad significativamente elevada";
                  disponibilidad := py "❌ NO PUEDE TOMAR MÁS - Ya sobrecargado";
                  bloqueadores := [py "Sigo bloqueado con el acceso"];
                  puede_liberarse := py "❌ NO - Tiene bloqueadores activos";
                  capacity_messages_today := 2 |}) /\
  (fun a => a !! py "U2") <$> analysis =
    Some (Some {| capacity_name := py "U2";
                  carga := py "⚪ SIN ACTIVIDAD - No participó hoy";
                  disponibilidad := py "❓ SIN DATOS - Usuario nuevo o inactivo";
                  bloqueadores := [py "Ninguno detectado"];
                  puede_liberarse := py "✅ DISPONIBLE - Sin actividad detectada";
                  capacity_messages_today := 0 |}).
Proof. intros say msgs users analysis. split; vm_compute; reflexivity. Qed.
